(** * spec-compiler: the renderer-contract validator and the taste evaluator

    A shallow embedding of [src/utils/renderer-contract.ts] and
    [src/rules/taste/index.ts], with the report model of [src/types.ts],
    and the properties of the two evaluators that the specification states.

    Conventions of the embedding:
    - a JSON number is an integer-valued double, written as its value in
      [Z]; [Js.round53], [Js.sub] and [Js.Number_toString] are the rounding,
      the subtraction and the rendering of doubles on them;
    - a string is a [string]; a [Record<string, T>] is the [gmap string T]
      of its own properties, and [Js.get] is a property read, which also
      sees the members inherited from [Object.prototype];
    - an optional field ([f?: T], or a field the code reads with [?.] or
      tests against [undefined]) is an [option];
    - a JS [Set] is the list of its elements in insertion order;
    - a [for ... break] loop is a recursive function that returns the
      counterexample assigned just before the [break], if any;
    - an [async] function whose awaited file read may reject returns an
      [option]; the clock read by [new Date().toISOString()] is an argument. *)

From Stdlib Require Import ZArith String Ascii List Bool Lia.
From stdpp Require Import base option list gmap strings pretty.

Local Open Scope string_scope.
Local Open Scope Z_scope.
Local Open Scope list_scope.

(** ** The JavaScript built-ins the two evaluators use *)

Module Js.

(** A value of type [number | string]. *)
Inductive value : Type :=
| Num (n : Z)
| Str (s : string).

(** *** Numbers

    A number is an IEEE 754 double; the documents hold the integer-valued
    ones, each written as its value in [Z]. *)

(** The double nearest to an integer, ties to even: an integer of more
    than 53 bits keeps its 53 leading bits, rounded.  (The integers beyond
    the largest double, which round to [Infinity], are not modelled.) *)
Definition round53 (n : Z) : Z :=
  let a := Z.abs n in
  let bits := Z.log2 a + 1 in
  if bits <=? 53 then n
  else
    let e := bits - 53 in
    let q := Z.shiftr a e in
    let r := Z.land a (Z.ones e) in
    let half := Z.shiftl 1 (e - 1) in
    let rounded :=
      if r <? half then q
      else if half <? r then q + 1
      else if Z.even q then q else q + 1 in
    Z.sgn n * Z.shiftl rounded e.

(** [a - b]: the difference, rounded to a double. *)
Definition sub (a b : Z) : Z := round53 (a - b).

(** The number of decimal digits of a positive integer. *)
Definition digits (a : Z) : Z := Z.of_nat (String.length (pretty a)).

(** [Number::toString], the choice of the digits: among the decimals
    of [k] significant digits that read back as [a], the one closest to
    [a] (the one with the even last digit when two are as close). *)
Definition candidate (a nd k : Z) : option Z :=
  let p := 10 ^ (nd - k) in
  let s := a / p in
  let lo := s * p in
  let hi := lo + p in
  match round53 lo =? a, round53 hi =? a with
  | true, true =>
      Some (if a - lo <? hi - a then lo
            else if hi - a <? a - lo then hi
            else if Z.even s then lo else hi)
  | true, false => Some lo
  | false, true => Some hi
  | false, false => None
  end.

(** The least [k] that has such a decimal. *)
Fixpoint shortest (fuel : nat) (a nd k : Z) : Z :=
  match fuel with
  | O => a
  | S fuel =>
      match candidate a nd k with
      | Some found => found
      | None => shortest fuel a nd (k + 1)
      end
  end.

(** The digits of a decimal without its trailing zeros. *)
Fixpoint strip_zeros (s : string) : string :=
  match s with
  | EmptyString => EmptyString
  | String c rest =>
      match strip_zeros rest with
      | EmptyString => if Ascii.eqb c "0"%char then EmptyString else String c EmptyString
      | kept => String c kept
      end
  end.

(** [Number::toString] on an integer-valued double: the decimal form up to
    21 digits, beyond that the exponent form of the significant digits. *)
Definition Number_toString (n : Z) : string :=
  if n =? 0 then "0"
  else
    let a := Z.abs n in
    let nd := digits a in
    let text := pretty (shortest (Z.to_nat nd) a nd 1) in
    let sign := if n <? 0 then "-" else "" in
    let n_ := Z.of_nat (String.length text) in
    if n_ <=? 21 then sign +:+ text
    else
      match strip_zeros text with
      | String d EmptyString => sign +:+ String d "e+" +:+ pretty (n_ - 1)
      | String d more => sign +:+ String d ("." +:+ more) +:+ "e+" +:+ pretty (n_ - 1)
      | EmptyString => sign +:+ text
      end.

(** [String(v)]. *)
Definition String_ (v : value) : string :=
  match v with
  | Num n => Number_toString n
  | Str s => s
  end.

(** [typeof v === "number"]. *)
Definition is_number (v : value) : bool :=
  match v with Num _ => true | Str _ => false end.

(** [xs.join(sep)]. *)
Fixpoint join (sep : string) (xs : list string) : string :=
  match xs with
  | [] => ""
  | [x] => x
  | x :: rest => x +:+ sep +:+ join sep rest
  end.

(** [xs[0]]. *)
Definition first {A : Type} (xs : list A) : option A := head xs.

(** Truthiness of a [string | null | undefined]: the empty string is falsy. *)
Definition truthy (s : option string) : bool :=
  match s with
  | Some s => negb (String.eqb s "")
  | None => false
  end.

(** [a || b] on [string | null | undefined]. *)
Definition or_ (a b : option string) : option string :=
  if truthy a then a else b.

(** [a || b] where [b] is a string. *)
Definition or_else (a : option string) (b : string) : string :=
  match a with
  | Some s => if String.eqb s "" then b else s
  | None => b
  end.

(** [Math.max(x, ...xs)] and [Math.min(x, ...xs)] on a non-empty argument list. *)
Definition Math_max (x : Z) (xs : list Z) : Z := foldl Z.max x xs.
Definition Math_min (x : Z) (xs : list Z) : Z := foldl Z.min x xs.

(** [new Set(xs)], [s.has(x)], [s.size], [Array.from(s)]: a set keeps the
    first occurrence of each element, in insertion order. *)
Module Set_.
Section WithEq.
Context {A : Type} `{EqDecision A}.

Definition add (s : list A) (x : A) : list A :=
  if bool_decide (x ∈ s) then s else s ++ [x].

Definition from (xs : list A) : list A := foldl add [] xs.

Definition has (s : list A) (x : A) : bool := bool_decide (x ∈ s).

Definition size (s : list A) : Z := Z.of_nat (length s).
End WithEq.
End Set_.

(** [s.replace(/\//g, ".")]. *)
Fixpoint replace_slashes (s : string) : string :=
  match s with
  | EmptyString => EmptyString
  | String c rest =>
      String (if Ascii.eqb c "/"%char then "."%char else c) (replace_slashes rest)
  end.

(** [s.replace(/^\./, "")]. *)
Definition strip_leading_dot (s : string) : string :=
  match s with
  | String c rest => if Ascii.eqb c "."%char then rest else s
  | EmptyString => s
  end.

(** White space of [String.prototype.trim] within ASCII: tab, line feed,
    vertical tab, form feed, carriage return and space. *)
Definition is_space (c : ascii) : bool :=
  let n := nat_of_ascii c in
  ((9 <=? n)%nat && (n <=? 13)%nat) || (n =? 32)%nat.

Fixpoint trim_start (s : string) : string :=
  match s with
  | String c rest => if is_space c then trim_start rest else s
  | EmptyString => s
  end.

(** [trim_end] keeps a character when it is not white space or when
    something remains after it. *)
Fixpoint trim_end (s : string) : string :=
  match s with
  | String c rest =>
      match trim_end rest with
      | EmptyString => if is_space c then EmptyString else String c EmptyString
      | kept => String c kept
      end
  | EmptyString => EmptyString
  end.

Definition trim (s : string) : string := trim_end (trim_start s).

(** *** Property reads on a plain object

    An object that [JSON.parse] or an object literal makes has
    [Object.prototype] as its prototype: [o[key]] is the own property when
    there is one, and otherwise the member of that name that
    [Object.prototype] defines, a function or an object. *)
Definition Object_prototype_names : list string :=
  [ "constructor"; "__defineGetter__"; "__defineSetter__"; "hasOwnProperty";
    "__lookupGetter__"; "__lookupSetter__"; "isPrototypeOf"; "propertyIsEnumerable";
    "toString"; "valueOf"; "__proto__"; "toLocaleString" ].

Inductive property (A : Type) : Type :=
| Own (a : A)
| Inherited
| Undefined.
Arguments Own {A} a.
Arguments Inherited {A}.
Arguments Undefined {A}.

(** [o?.[key]]. *)
Definition get {A : Type} (o : option (gmap string A)) (key : string) : property A :=
  match o with
  | None => Undefined
  | Some o =>
      match o !! key with
      | Some a => Own a
      | None => if bool_decide (key ∈ Object_prototype_names) then Inherited else Undefined
      end
  end.

(** [a ?? b]. *)
Definition coalesce {A : Type} (a b : property A) : property A :=
  match a with
  | Undefined => b
  | _ => a
  end.

(** How a piece of code ends: normally, or by throwing a [TypeError]. *)
Inductive completion (A : Type) : Type :=
| Normal (a : A)
| TypeError.
Arguments Normal {A} a.
Arguments TypeError {A}.

End Js.

(** ** The report model ([src/types.ts]) *)

Inductive Status : Type := Passed | Failed.

(** The [renderer] block of both reports. *)
Record RendererIdentity : Type := {
  ri_name : string;
  ri_version : string;
  ri_target : string;
}.

Record ValidationRuleResult : Type := {
  vr_id : string;
  vr_passed : bool;
  vr_message : string;
  vr_counterexample : option string;
}.

Record RendererValidationReport : Type := {
  rv_status : Status;
  rv_generated_at : string;
  rv_renderer : RendererIdentity;
  rv_rules : list ValidationRuleResult;
  rv_errors : list ValidationRuleResult;
}.

Record TasteRuleResult : Type := {
  tr_id : string;
  tr_passed : bool;
  tr_message : string;
  tr_description : string;
  tr_clause : string;
  tr_intent_reference : string;
  tr_remediation : string;
  tr_counterexample : option string;
}.

Record TasteReport : Type := {
  tt_status : Status;
  tt_generated_at : string;
  tt_renderer : RendererIdentity;
  tt_ruleset_version : string;
  tt_rules : list TasteRuleResult;
  tt_errors : list TasteRuleResult;
}.

(** ** The documents ([src/types.ts]); only the fields an evaluator reads *)

Record RendererContract : Type := {
  contract_id : string;
}.

Record RendererMetadata : Type := {
  renderer_name : string;
  renderer_version : string;
  renderer_target : string;
  renderer_declares_contract : string;
}.

Record RendererDeterminism : Type := {
  deterministic : bool;
  markers : list string;
}.

Record RendererOutputs : Type := {
  token_usage_undeclared : list string;
  constitution_violations : list string;
  determinism : RendererDeterminism;
}.

Record RendererTasteTypographyRole : Type := {
  role : string;
  size : Z;
}.

Record RendererTasteColorContrast : Type := {
  pair : string;
  ratio : Z;
}.

Record RendererTastePatternUsage : Type := {
  pattern : string;
  intent : string;
}.

Record RendererTaste : Type := {
  typography_roles : list RendererTasteTypographyRole;
  spacing_values : list Z;
  color_tokens : list string;
  color_contrast : list RendererTasteColorContrast;
  density_interactions_per_view : Z;
  consistency_radius : list Z;
  consistency_elevation : list Z;
  consistency_motion : list string;
  patterns_usage : list RendererTastePatternUsage;
}.

Record RendererOutputManifest : Type := {
  contract : RendererContract;
  renderer : RendererMetadata;
  outputs : RendererOutputs;
  taste : RendererTaste;
}.

Record RendererRegistryEntry : Type := {
  entry_name : string;
  entry_version : string;
  entry_target : string;
  entry_contract_id : string;
}.

Record RendererRegistry : Type := {
  renderers : list RendererRegistryEntry;
}.

Record TypographyRoleDef : Type := {
  def_name : string;
  def_min : Z;
  def_max : Z;
}.

Record TypographyConstitution : Type := {
  max_font_sizes : Z;
  typography_role_defs : list TypographyRoleDef;
  hierarchy : list string;
}.

Record SpacingConstitution : Type := {
  spacing_allowed_values : list Z;
  spacing_max_variance : Z;
}.

Record ColorConstitution : Type := {
  allowed_tokens : list string;
  contrast_floor : Z;
}.

Record ConsistencyBand : Type := {
  allowed_values : option (list Js.value);
  max_variance : option Z;
}.

Record PatternsConstitution : Type := {
  patterns_allowed : list string;
  patterns_intents : option (gmap string (list string));
}.

Record VisualConstitution : Type := {
  typography : TypographyConstitution;
  spacing : SpacingConstitution;
  color : ColorConstitution;
  band_radius : ConsistencyBand;
  band_elevation : ConsistencyBand;
  band_motion : ConsistencyBand;
  patterns : option PatternsConstitution;
}.

(** [intent.density?.max_interactions_per_view] is read defensively, so both
    the block and the field may be missing. *)
Record DesignIntentTaste : Type := {
  intent_density : option (option Z);
  intent_allowed_patterns : option (gmap string (list string));
}.

Record TasteRuleMeta : Type := {
  meta_id : string;
  meta_description : string;
  meta_clause : string;
  meta_intent_reference : string;
  meta_remediation : string;
}.

Record TasteRuleset : Type := {
  ruleset_version : string;
  ruleset_rules : list TasteRuleMeta;
}.

Record TasteEvaluationOptions : Type := {
  rulesetPath : option string;
  failFast : option bool;
  verbose : option bool;
}.

(** The renderer identity both evaluators echo from the manifest. *)
Definition identity_of (manifest : RendererOutputManifest) : RendererIdentity :=
  {| ri_name := renderer_name (renderer manifest);
     ri_version := renderer_version (renderer manifest);
     ri_target := renderer_target (renderer manifest) |}.

(** ** Constants ([src/constants.ts]) *)

Module DIRECTORIES.
Definition rules : string := "rules".
Definition validation : string := "validation".
Definition config : string := "config".
Definition renderers : string := "renderers".
End DIRECTORIES.

Module FILENAMES.
Definition tasteRuleset : string := DIRECTORIES.rules +:+ "/taste/ruleset.json".
Definition rendererValidationReport : string :=
  DIRECTORIES.validation +:+ "/renderer-report.json".
Definition tasteReport : string := DIRECTORIES.validation +:+ "/taste-report.json".
Definition rendererManifest : string := DIRECTORIES.renderers +:+ "/manifest.json".
Definition rendererRegistry : string := DIRECTORIES.config +:+ "/renderer-registry.json".
Definition visualConstitution : string :=
  DIRECTORIES.config +:+ "/visual-constitution.json".
Definition designIntent : string := DIRECTORIES.config +:+ "/design-intent.json".
End FILENAMES.

(** ** The taste evaluator ([src/rules/taste/index.ts]) *)

Module Taste.

(** What the evaluator takes from its host: the working directory, Node's
    [path.join], and [readJsonFile] of [src/utils/fs] at the ruleset's type
    ([None] when the promise rejects). *)
Record Host : Type := {
  cwd : string;
  path_join : list string → string;
  readJsonFile : string → option TasteRuleset;
}.

Definition defaultRulesetPath (host : Host) : string :=
  path_join host [cwd host; FILENAMES.tasteRuleset].

Definition loadRuleset (host : Host) (rulesetPath : option string) : option TasteRuleset :=
  let resolved := default (defaultRulesetPath host) rulesetPath in
  readJsonFile host resolved.

Definition getRuleMeta (id : string) (ruleset : TasteRuleset) : TasteRuleMeta :=
  match List.find (λ rule, String.eqb (meta_id rule) id) (ruleset_rules ruleset) with
  | Some found => found
  | None =>
      {| meta_id := id;
         meta_description := "Rule metadata not found; update ruleset.";
         meta_clause := "unspecified";
         meta_intent_reference := "unspecified";
         meta_remediation := "Review rule definition." |}
  end.

Definition buildResult (meta : TasteRuleMeta) (passed : bool) (message : string)
    (counterexample : option string) : TasteRuleResult :=
  {| tr_id := meta_id meta;
     tr_passed := passed;
     tr_message := message;
     tr_description := meta_description meta;
     tr_clause := meta_clause meta;
     tr_intent_reference := meta_intent_reference meta;
     tr_remediation := meta_remediation meta;
     tr_counterexample := counterexample |}.

Definition checkAllowedValues (band : ConsistencyBand) (values : list Js.value)
    : option string :=
  let allowedSet := Js.Set_.from (map Js.String_ (default [] (allowed_values band))) in
  match List.find (λ value, negb (Js.Set_.has allowedSet (Js.String_ value))) values with
  | None => None
  | Some invalid =>
      Some (Js.String_ invalid +:+ " not in allowed set: " +:+ Js.join ", " allowedSet)
  end.

(** [values as number[]]: the numbers of an array whose first element is a
    number.  The callers pass a [number[]] or a [string[]].  An array that
    starts with a number and holds a string is outside these types and has
    no reading here ([None], on which [checkVariance] reports nothing):
    [Math.max] and [Math.min] would convert the string to a number. *)
Fixpoint as_numbers (values : list Js.value) : option (list Z) :=
  match values with
  | [] => Some []
  | Js.Num n :: rest => cons n <$> as_numbers rest
  | Js.Str _ :: _ => None
  end.

Definition checkVariance (band : ConsistencyBand) (values : list Js.value)
    : option string :=
  match max_variance band, values with
  | None, _ => None
  | Some _, [] => None
  | Some maxVariance, first :: _ =>
      if Js.is_number first then
        match as_numbers values with
        | Some (n :: ns) =>
            let max := Js.Math_max n ns in
            let min := Js.Math_min n ns in
            let variance := Js.sub max min in
            if variance >? maxVariance then
              Some ("variance " +:+ Js.Number_toString variance +:+ " exceeds max_variance "
                      +:+ Js.Number_toString maxVariance)
            else None
        | _ => None
        end
      else
        let uniqueCount := Js.Set_.size (Js.Set_.from (map Js.String_ values)) in
        if (uniqueCount >? 1) && (maxVariance =? 0) then
          Some ("multiple values present but max_variance is " +:+ Js.Number_toString maxVariance)
        else None
  end.

(** [addResult]: push the result, and tell whether evaluation stops. *)
Definition addResult (failFast verbose : bool) (results : list TasteRuleResult)
    (result : TasteRuleResult) : list TasteRuleResult * bool :=
  (results ++ [result], negb (tr_passed result) && failFast && negb verbose).

(** The report every early [return] builds. *)
Definition stoppedReport (now : string) (manifest : RendererOutputManifest)
    (ruleset : TasteRuleset) (results : list TasteRuleResult) : TasteReport :=
  {| tt_status := Failed;
     tt_generated_at := now;
     tt_renderer := identity_of manifest;
     tt_ruleset_version := ruleset_version ruleset;
     tt_rules := results;
     tt_errors := List.filter (λ rule, negb (tr_passed rule)) results |}.

(** The report of the final [return]. *)
Definition finalReport (now : string) (manifest : RendererOutputManifest)
    (ruleset : TasteRuleset) (results : list TasteRuleResult) : TasteReport :=
  let errors := List.filter (λ rule, negb (tr_passed rule)) results in
  {| tt_status := if (length errors =? 0)%nat then Passed else Failed;
     tt_generated_at := now;
     tt_renderer := identity_of manifest;
     tt_ruleset_version := ruleset_version ruleset;
     tt_rules := results;
     tt_errors := errors |}.

(** *** The ten rule blocks, in source order *)

Section Rules.
Context (manifest : RendererOutputManifest) (constitution : VisualConstitution)
        (intent_doc : DesignIntentTaste) (ruleset : TasteRuleset).

(** Typography: max sizes *)
Definition typographyMaxSizes : TasteRuleResult :=
  let meta := getRuleMeta "typography.max-sizes.rule" ruleset in
  let sizes := Js.Set_.from (map size (typography_roles (taste manifest))) in
  let allowed := max_font_sizes (typography constitution) in
  let passed := Js.Set_.size sizes <=? allowed in
  let message :=
    if passed then "Typography size count within allowed maximum."
    else "Used " +:+ Js.Number_toString (Js.Set_.size sizes) +:+ " font sizes; allowed maximum is "
           +:+ Js.Number_toString allowed +:+ "." in
  buildResult meta passed message (if passed then None else Some message).

(** Typography hierarchy and ranges: the loop over the declared roles. *)
Fixpoint declaredRolesLoop (roleDefs : list TypographyRoleDef)
    (declaredRoles : list RendererTasteTypographyRole) : option string :=
  match declaredRoles with
  | [] => None
  | role_ :: rest =>
      match List.find (λ entry, String.eqb (def_name entry) (role role_)) roleDefs with
      | None => Some ("Role '" +:+ role role_ +:+ "' is not defined in constitution.")
      | Some def =>
          if (size role_ <? def_min def) || (size role_ >? def_max def) then
            Some ("Role '" +:+ role role_ +:+ "' size " +:+ Js.Number_toString (size role_)
                    +:+ " outside " +:+ Js.Number_toString (def_min def) +:+ "-"
                    +:+ Js.Number_toString (def_max def) +:+ ".")
          else declaredRolesLoop roleDefs rest
      end
  end.

(** The [sizeByRole] map, filled by [hierarchy.forEach]. *)
Definition sizeByRoleOf (declaredRoles : list RendererTasteTypographyRole)
    (hierarchy : list string) : gmap string Z :=
  foldl (λ (sizeByRole : gmap string Z) roleName,
           match List.find (λ entry, String.eqb (role entry) roleName) declaredRoles with
           | Some declared => <[roleName := size declared]> sizeByRole
           | None => sizeByRole
           end) ∅ hierarchy.

(** The loop over [hierarchy[i]], [hierarchy[i + 1]]. *)
Fixpoint hierarchyLoop (sizeByRole : gmap string Z) (hierarchy : list string)
    : option string :=
  match hierarchy with
  | here :: ((there :: _) as rest) =>
      match sizeByRole !! here, sizeByRole !! there with
      | Some current, Some next =>
          if current <? next then
            Some (here +:+ " (" +:+ Js.Number_toString current +:+ ") should not be smaller than "
                    +:+ there +:+ " (" +:+ Js.Number_toString next +:+ ").")
          else hierarchyLoop sizeByRole rest
      | _, _ => hierarchyLoop sizeByRole rest
      end
  | _ => None
  end.

Definition typographyHierarchy : TasteRuleResult :=
  let meta := getRuleMeta "typography.hierarchy.rule" ruleset in
  let roleDefs := typography_role_defs (typography constitution) in
  let hierarchy := hierarchy (typography constitution) in
  let declaredRoles := typography_roles (taste manifest) in
  let counterexample :=
    match declaredRolesLoop roleDefs declaredRoles with
    | Some broken => Some broken
    | None =>
        if (1 <? length hierarchy)%nat then
          hierarchyLoop (sizeByRoleOf declaredRoles hierarchy) hierarchy
        else None
    end in
  let passed := match counterexample with None => true | Some _ => false end in
  let message :=
    if passed then "Typography roles satisfy hierarchy ranges."
    else Js.or_else counterexample "Typography hierarchy violated." in
  buildResult meta passed message (if passed then None else Some message).

(** Spacing allowed values *)
Definition spacingAllowedValues : TasteRuleResult :=
  let meta := getRuleMeta "spacing.allowed-values.rule" ruleset in
  let allowed := Js.Set_.from (spacing_allowed_values (spacing constitution)) in
  let invalid :=
    List.find (λ value, negb (Js.Set_.has allowed value))
              (spacing_values (taste manifest)) in
  let passed := match invalid with None => true | Some _ => false end in
  let message :=
    match invalid with
    | None => "Spacing values are enumerated in the constitution."
    | Some invalid => "Spacing value " +:+ Js.Number_toString invalid +:+ " not allowed."
    end in
  buildResult meta passed message (if passed then None else Some message).

(** Spacing variance *)
Definition spacingVariance : TasteRuleResult :=
  let meta := getRuleMeta "spacing.variance.rule" ruleset in
  let values := spacing_values (taste manifest) in
  let variance :=
    match values with
    | [] => 0
    | v :: vs => Js.sub (Js.Math_max v vs) (Js.Math_min v vs)
    end in
  let allowedVariance := spacing_max_variance (spacing constitution) in
  let passed := variance <=? allowedVariance in
  let message :=
    if passed then "Spacing variance within allowed range."
    else "Spacing variance " +:+ Js.Number_toString variance +:+ " exceeds allowed "
           +:+ Js.Number_toString allowedVariance +:+ "." in
  buildResult meta passed message (if passed then None else Some message).

(** Color allowed tokens *)
Definition colorAllowed : TasteRuleResult :=
  let meta := getRuleMeta "color.allowed.rule" ruleset in
  let allowed := Js.Set_.from (allowed_tokens (color constitution)) in
  let invalid :=
    List.find (λ token, negb (Js.Set_.has allowed token))
              (color_tokens (taste manifest)) in
  let passed := match invalid with None => true | Some _ => false end in
  let message :=
    match invalid with
    | None => "All colors mapped to allowed tokens."
    | Some invalid => "Color token '" +:+ invalid +:+ "' is not allowed."
    end in
  buildResult meta passed message (if passed then None else Some message).

(** Color contrast floor *)
Definition colorContrast : TasteRuleResult :=
  let meta := getRuleMeta "color.contrast.rule" ruleset in
  let floor := contrast_floor (color constitution) in
  let failing :=
    List.find (λ entry, ratio entry <? floor) (color_contrast (taste manifest)) in
  let passed := match failing with None => true | Some _ => false end in
  let message :=
    match failing with
    | None => "All contrast ratios meet the floor."
    | Some failing =>
        "Contrast ratio " +:+ Js.Number_toString (ratio failing) +:+ " for " +:+ pair failing
          +:+ " below floor " +:+ Js.Number_toString floor +:+ "."
    end in
  buildResult meta passed message (if passed then None else Some message).

(** Density limit (intent): [intentLimit] is
    [intent.density?.max_interactions_per_view]; both branches of the
    source end in the same [addResult] and early [return]. *)
Definition densityLimit : TasteRuleResult :=
  let meta := getRuleMeta "density.limit.rule" ruleset in
  let intentLimit := intent_density intent_doc ≫= id in
  match intentLimit with
  | None =>
      let message := "Design intent missing density limit." in
      buildResult meta false message (Some message)
  | Some intentLimit =>
      let actual := density_interactions_per_view (taste manifest) in
      let passed := actual <=? intentLimit in
      let message :=
        if passed then "Interaction density within intent limits."
        else "Interactions per view " +:+ Js.Number_toString actual +:+ " exceeds intent limit "
               +:+ Js.Number_toString intentLimit +:+ "." in
      buildResult meta passed message (if passed then None else Some message)
  end.

(** The manifest's three consistency axes, as the [Array<number | string>]
    that [checkAllowedValues] and [checkVariance] take. *)
Definition radiusValues : list Js.value := map Js.Num (consistency_radius (taste manifest)).
Definition elevationValues : list Js.value :=
  map Js.Num (consistency_elevation (taste manifest)).
Definition motionValues : list Js.value := map Js.Str (consistency_motion (taste manifest)).

(** Consistency allowed values *)
Definition consistencyAllowed : TasteRuleResult :=
  let meta := getRuleMeta "consistency.allowed.rule" ruleset in
  let radiusError := checkAllowedValues (band_radius constitution) radiusValues in
  let elevationError := checkAllowedValues (band_elevation constitution) elevationValues in
  let motionError := checkAllowedValues (band_motion constitution) motionValues in
  let firstError := Js.or_ (Js.or_ radiusError elevationError) motionError in
  let passed := negb (Js.truthy firstError) in
  let message :=
    if passed then "Consistency values align with allowed sets."
    else default "" firstError in
  buildResult meta passed message (if passed then None else Some message).

(** Consistency variance *)
Definition consistencyVariance : TasteRuleResult :=
  let meta := getRuleMeta "consistency.variance.rule" ruleset in
  let radiusVariance := checkVariance (band_radius constitution) radiusValues in
  let elevationVariance := checkVariance (band_elevation constitution) elevationValues in
  let motionVariance := checkVariance (band_motion constitution) motionValues in
  let firstError := Js.or_ (Js.or_ radiusVariance elevationVariance) motionVariance in
  let passed := negb (Js.truthy firstError) in
  let message :=
    if passed then "Consistency variance within limits."
    else default "" firstError in
  buildResult meta passed message (if passed then None else Some message).

(** Patterns vs intent and constitution: the loop over [usage], with the
    two mappings read by their own properties.  This is the loop of the
    source for every usage whose pattern is not named like a member of
    [Object.prototype]; [usageLoop_js] below covers the others. *)
Fixpoint usageLoop (allowedPatterns : list string)
    (usage : list RendererTastePatternUsage) : option string :=
  match usage with
  | [] => None
  | entry :: rest =>
      match patterns constitution with
      | None => Some "Constitution patterns not provided; cannot authorize usage."
      | Some constitution_patterns =>
          if negb (Js.Set_.has allowedPatterns (pattern entry)) then
            Some ("Pattern '" +:+ pattern entry +:+ "' is not allowed by constitution.")
          else
            let allowedIntents :=
              match intent_allowed_patterns intent_doc ≫= (.!! pattern entry) with
              | Some listed => listed
              | None =>
                  match patterns_intents constitution_patterns
                          ≫= (.!! pattern entry) with
                  | Some listed => listed
                  | None => []
                  end
              end in
            if negb (bool_decide (intent entry ∈ allowedIntents)) then
              Some ("Pattern '" +:+ pattern entry +:+ "' not permitted for intent '"
                      +:+ intent entry +:+ "'. Allowed: "
                      +:+ Js.join ", " allowedIntents)
            else usageLoop allowedPatterns rest
      end
  end.

(** [new Set(constitution.patterns?.allowed ?? [])]. *)
Definition allowedPatternsOf : list string :=
  Js.Set_.from (match patterns constitution with
                | Some constitution_patterns => patterns_allowed constitution_patterns
                | None => []
                end).

Definition patternsIntent : TasteRuleResult :=
  let meta := getRuleMeta "patterns.intent.rule" ruleset in
  let usage := patterns_usage (taste manifest) in
  let allowedPatterns := allowedPatternsOf in
  let counterexample := usageLoop allowedPatterns usage in
  let passed := match counterexample with None => true | Some _ => false end in
  let message :=
    if passed then "Pattern usage aligns with intent and constitution."
    else Js.or_else counterexample "Pattern usage violation." in
  buildResult meta passed message (if passed then None else Some message).

(** The same loop with the two mappings read as the plain objects they
    are: [allowedIntents] is then whatever the property read finds, an
    inherited member included, and [allowedIntents.includes] exists on an
    array only. *)
Fixpoint usageLoop_js (allowedPatterns : list string)
    (usage : list RendererTastePatternUsage) : Js.completion (option string) :=
  match usage with
  | [] => Js.Normal None
  | entry :: rest =>
      match patterns constitution with
      | None => Js.Normal (Some "Constitution patterns not provided; cannot authorize usage.")
      | Some constitution_patterns =>
          if negb (Js.Set_.has allowedPatterns (pattern entry)) then
            Js.Normal
              (Some ("Pattern '" +:+ pattern entry +:+ "' is not allowed by constitution."))
          else
            match Js.coalesce
                    (Js.get (intent_allowed_patterns intent_doc) (pattern entry))
                    (Js.coalesce
                       (Js.get (patterns_intents constitution_patterns) (pattern entry))
                       (Js.Own [])) with
            | Js.Own allowedIntents =>
                if negb (bool_decide (intent entry ∈ allowedIntents)) then
                  Js.Normal
                    (Some ("Pattern '" +:+ pattern entry +:+ "' not permitted for intent '"
                             +:+ intent entry +:+ "'. Allowed: "
                             +:+ Js.join ", " allowedIntents))
                else usageLoop_js allowedPatterns rest
            | _ => Js.TypeError
            end
      end
  end.

Definition patternsIntent_js : Js.completion TasteRuleResult :=
  let meta := getRuleMeta "patterns.intent.rule" ruleset in
  let usage := patterns_usage (taste manifest) in
  let allowedPatterns := allowedPatternsOf in
  match usageLoop_js allowedPatterns usage with
  | Js.TypeError => Js.TypeError
  | Js.Normal counterexample =>
      let passed := match counterexample with None => true | Some _ => false end in
      let message :=
        if passed then "Pattern usage aligns with intent and constitution."
        else Js.or_else counterexample "Pattern usage violation." in
      Js.Normal (buildResult meta passed message (if passed then None else Some message))
  end.

End Rules.

(** *** [evaluateTaste]

    The tenth rule is taken as [patternsIntent]: whenever
    [patterns.intent.rule] gives a result, it is this one. *)

Definition evaluateTaste (host : Host) (now : string)
    (manifest : RendererOutputManifest) (constitution : VisualConstitution)
    (intent_doc : DesignIntentTaste) (options : TasteEvaluationOptions)
    : option TasteReport :=
  ruleset ← loadRuleset host (rulesetPath options);
  let results : list TasteRuleResult := [] in
  let failFast := default true (failFast options) in
  let verbose := default false (verbose options) in
  let addResult := addResult failFast verbose in
  let stopped := stoppedReport now manifest ruleset in
  let '(results, shouldStop) := addResult results (typographyMaxSizes manifest constitution ruleset) in
  if shouldStop : bool then Some (stopped results) else
  let '(results, shouldStop) := addResult results (typographyHierarchy manifest constitution ruleset) in
  if shouldStop : bool then Some (stopped results) else
  let '(results, shouldStop) := addResult results (spacingAllowedValues manifest constitution ruleset) in
  if shouldStop : bool then Some (stopped results) else
  let '(results, shouldStop) := addResult results (spacingVariance manifest constitution ruleset) in
  if shouldStop : bool then Some (stopped results) else
  let '(results, shouldStop) := addResult results (colorAllowed manifest constitution ruleset) in
  if shouldStop : bool then Some (stopped results) else
  let '(results, shouldStop) := addResult results (colorContrast manifest constitution ruleset) in
  if shouldStop : bool then Some (stopped results) else
  let '(results, shouldStop) := addResult results (densityLimit manifest intent_doc ruleset) in
  if shouldStop : bool then Some (stopped results) else
  let '(results, shouldStop) := addResult results (consistencyAllowed manifest constitution ruleset) in
  if shouldStop : bool then Some (stopped results) else
  let '(results, shouldStop) := addResult results (consistencyVariance manifest constitution ruleset) in
  if shouldStop : bool then Some (stopped results) else
  let '(results, _) := addResult results (patternsIntent manifest constitution intent_doc ruleset) in
  Some (finalReport now manifest ruleset results).

End Taste.

(** ** The renderer-contract validator ([src/utils/renderer-contract.ts]) *)

Module Contract.

(** One entry of Ajv's [validate.errors]. *)
Record ErrorObject : Type := {
  instancePath : string;
  keyword : string;
  params_additionalProperty : option string;
  error_message : option string;
}.

Record RendererValidationOptions : Type := {
  contractSchemaPath : option string;
  registrySchemaPath : option string;
}.

Definition ruleResult (id : string) (passed : bool) (message : string)
    (counterexample : option string) : ValidationRuleResult :=
  {| vr_id := id; vr_passed := passed; vr_message := message;
     vr_counterexample := counterexample |}.

Definition formatInstancePath (instancePath : string) : string :=
  if String.eqb instancePath "" then "(root)"
  else Js.strip_leading_dot (Js.replace_slashes instancePath).

Definition formatSchemaError (error : ErrorObject) : string :=
  let basePath := formatInstancePath (instancePath error) in
  let plain :=
    let message :=
      if Js.truthy (error_message error) then default "" (error_message error)
      else "is invalid" in
    Js.trim (basePath +:+ " " +:+ message) in
  if String.eqb (keyword error) "additionalProperties" then
    match params_additionalProperty error with
    | Some additionalProperty =>
        if String.eqb additionalProperty "" then plain
        else
          let path :=
            if String.eqb basePath "(root)" then additionalProperty
            else basePath +:+ "." +:+ additionalProperty in
          path +:+ " is not allowed"
    | None => plain
    end
  else plain.

Definition formatSchemaErrors (errors : option (list ErrorObject)) : list string :=
  match errors with
  | None | Some [] => []
  | Some errors => map formatSchemaError errors
  end.

Definition unknownRenderer : RendererIdentity :=
  {| ri_name := "unknown"; ri_version := "unknown"; ri_target := "unknown" |}.

Section Validator.
(** [unknown] is the type of a parsed JSON document before validation;
    [as_manifest] and [as_registry] are the views that the two type
    assertions [manifestRaw as RendererOutputManifest] and
    [registryRaw as RendererRegistry] give of it. *)
Context {unknown : Type}.
Context (as_manifest : unknown → RendererOutputManifest)
        (as_registry : unknown → RendererRegistry).

(** A compiled Ajv validator: the boolean it returns and the [errors]
    it leaves behind. *)
Definition ValidateFunction : Type := unknown → bool * option (list ErrorObject).

(** What the validator takes from its host: the working directory,
    Node's [path.join], [readJsonFile] of [src/utils/fs] and
    [ajv.compile] ([None] when the read rejects or the compilation
    throws). *)
Record Host : Type := {
  cwd : string;
  path_join : list string → string;
  readJsonFile : string → option unknown;
  ajv_compile : unknown → option ValidateFunction;
}.

Definition defaultContractSchemaPath (host : Host) : string :=
  path_join host [cwd host; "contracts"; "renderer-contract.schema.json"].

Definition defaultRegistrySchemaPath (host : Host) : string :=
  path_join host [cwd host; "contracts"; "renderer-registry.schema.json"].

(** The two schema rules, pushed before anything else. *)
Definition manifestSchemaRule (validated : bool * option (list ErrorObject))
    : ValidationRuleResult :=
  let manifestValid := validated.1 in
  let manifestErrors := formatSchemaErrors validated.2 in
  ruleResult "renderer-manifest.schema" manifestValid
    (if manifestValid
     then "Renderer manifest matches contracts/renderer-contract.schema.json."
     else "Renderer manifest fails contracts/renderer-contract.schema.json validation.")
    (if manifestValid then None else Js.first manifestErrors).

Definition registrySchemaRule (validated : bool * option (list ErrorObject))
    : ValidationRuleResult :=
  let registryValid := validated.1 in
  let registryErrors := formatSchemaErrors validated.2 in
  ruleResult "renderer-registry.schema" registryValid
    (if registryValid
     then "Renderer registry matches contracts/renderer-registry.schema.json."
     else "Renderer registry fails contracts/renderer-registry.schema.json validation.")
    (if registryValid then None else Js.first registryErrors).

(** The six semantic rules, in source order. *)
Definition contractDeclaredRule (manifest : RendererOutputManifest)
    : ValidationRuleResult :=
  let contractDeclared :=
    String.eqb (renderer_declares_contract (renderer manifest))
               (contract_id (contract manifest)) in
  ruleResult "renderer-contract.declared.rule" contractDeclared
    (if contractDeclared
     then "Renderer declares the active renderer contract."
     else "Renderer declares a contract that does not match the manifest contract.")
    (if contractDeclared then None
     else Some ("declares_contract=" +:+ renderer_declares_contract (renderer manifest)
                  +:+ ", contract.id=" +:+ contract_id (contract manifest))).

Definition findRegistered (manifest : RendererOutputManifest)
    (registry : RendererRegistry) : option RendererRegistryEntry :=
  List.find (λ entry,
               String.eqb (entry_name entry) (renderer_name (renderer manifest))
               && String.eqb (entry_version entry) (renderer_version (renderer manifest))
               && String.eqb (entry_target entry) (renderer_target (renderer manifest)))
            (renderers registry).

Definition registrationRule (manifest : RendererOutputManifest)
    (registry : RendererRegistry) : ValidationRuleResult :=
  let registeredRenderer := findRegistered manifest registry in
  let rendererRegistered :=
    match registeredRenderer with Some _ => true | None => false end in
  ruleResult "renderer-registration.rule" rendererRegistered
    (if rendererRegistered
     then "Renderer is registered for this target and version."
     else "Renderer is not registered; add it to config/renderer-registry.json.")
    (if rendererRegistered then None
     else Some (renderer_name (renderer manifest) +:+ "@"
                  +:+ renderer_version (renderer manifest) +:+ " target="
                  +:+ renderer_target (renderer manifest))).

Definition registryContractRule (manifest : RendererOutputManifest)
    (registry : RendererRegistry) : ValidationRuleResult :=
  let registeredRenderer := findRegistered manifest registry in
  let rendererRegistered :=
    match registeredRenderer with Some _ => true | None => false end in
  let registryContractMatch :=
    rendererRegistered
    && match registeredRenderer with
       | Some entry => String.eqb (entry_contract_id entry) (contract_id (contract manifest))
       | None => false
       end in
  ruleResult "renderer-contract.registry.rule" registryContractMatch
    (if registryContractMatch
     then "Renderer registry contract matches the manifest contract."
     else "Renderer registry contract does not match the manifest contract.")
    (if registryContractMatch then None
     else match registeredRenderer with
          | Some entry =>
              Some ("registry.contract_id=" +:+ entry_contract_id entry
                      +:+ ", manifest.contract.id=" +:+ contract_id (contract manifest))
          | None => Some "Renderer entry missing from registry."
          end).

Definition tokenUsageRule (manifest : RendererOutputManifest) : ValidationRuleResult :=
  let undeclaredTokens := token_usage_undeclared (outputs manifest) in
  let tokenUsageValid := (length undeclaredTokens =? 0)%nat in
  ruleResult "token-usage.declared.rule" tokenUsageValid
    (if tokenUsageValid
     then "Token usage is fully declared."
     else "Undeclared token usage detected; declare all tokens or remove undeclared usage.")
    (if tokenUsageValid then None else Js.first undeclaredTokens).

Definition constitutionRule (manifest : RendererOutputManifest) : ValidationRuleResult :=
  let constitutionViolations := constitution_violations (outputs manifest) in
  let constitutionValid := (length constitutionViolations =? 0)%nat in
  ruleResult "constitution-compliance.rule" constitutionValid
    (if constitutionValid
     then "No constitution violations reported."
     else "Renderer reports constitution violations; resolve them before compiling.")
    (if constitutionValid then None else Js.first constitutionViolations).

Definition determinismRule (manifest : RendererOutputManifest) : ValidationRuleResult :=
  let determinismMarkers := markers (determinism (outputs manifest)) in
  let deterministicFlag := deterministic (determinism (outputs manifest)) in
  let determinismValid :=
    Bool.eqb deterministicFlag true && (length determinismMarkers =? 0)%nat in
  ruleResult "deterministic-output.rule" determinismValid
    (if determinismValid
     then "Renderer output is marked deterministic and free of nondeterminism markers."
     else "Renderer output is marked nondeterministic; remove markers or set deterministic=true.")
    (if determinismValid then None
     else if (0 <? length determinismMarkers)%nat then Js.first determinismMarkers
          else Some "deterministic=false").

Definition buildRendererValidationReport (host : Host) (now : string)
    (manifestRaw registryRaw : unknown) (options : RendererValidationOptions)
    : option RendererValidationReport :=
  let contractSchemaPath :=
    default (defaultContractSchemaPath host) (contractSchemaPath options) in
  let registrySchemaPath :=
    default (defaultRegistrySchemaPath host) (registrySchemaPath options) in
  contractSchema ← readJsonFile host contractSchemaPath;
  registrySchema ← readJsonFile host registrySchemaPath;
  contractValidator ← ajv_compile host contractSchema;
  registryValidator ← ajv_compile host registrySchema;
  let rules : list ValidationRuleResult := [] in
  let manifestValidated := contractValidator manifestRaw in
  let manifestValid := manifestValidated.1 in
  let rules := rules ++ [manifestSchemaRule manifestValidated] in
  let registryValidated := registryValidator registryRaw in
  let registryValid := registryValidated.1 in
  let rules := rules ++ [registrySchemaRule registryValidated] in
  if negb manifestValid || negb registryValid then
    let errors := List.filter (λ rule, negb (vr_passed rule)) rules in
    Some {| rv_status := Failed;
            rv_generated_at := now;
            rv_renderer := unknownRenderer;
            rv_rules := rules;
            rv_errors := errors |}
  else
    let manifest := as_manifest manifestRaw in
    let registry := as_registry registryRaw in
    let rendererInfo := identity_of manifest in
    let rules := rules ++ [contractDeclaredRule manifest] in
    let rules := rules ++ [registrationRule manifest registry] in
    let rules := rules ++ [registryContractRule manifest registry] in
    let rules := rules ++ [tokenUsageRule manifest] in
    let rules := rules ++ [constitutionRule manifest] in
    let rules := rules ++ [determinismRule manifest] in
    let errors := List.filter (λ rule, negb (vr_passed rule)) rules in
    Some {| rv_status := if (length errors =? 0)%nat then Passed else Failed;
            rv_generated_at := now;
            rv_renderer := rendererInfo;
            rv_rules := rules;
            rv_errors := errors |}.

End Validator.

End Contract.

(** ** The two stages ([src/stages/taste.ts], [src/stages/renderer-validate.ts])

    A stage runs for its effects.  A run is the list of effects it had, in
    order, and the way it ended: it returned, it threw an [Error] of its
    own, an awaited promise of the host rejected, or it read a property of
    [undefined]. *)

Module Stages.

Inductive Effect : Type :=
| WroteTasteReport (path : string) (report : TasteReport)
| WroteRendererReport (path : string) (report : RendererValidationReport)
| ConsoleError (line : string)
| ConsoleLog (line : string)
| SetExitCode (code : Z).

Inductive Ending : Type :=
| Returned
| Threw (message : string)
| Rejected
| ReadOfUndefined.

Record Run : Type := {
  effects : list Effect;
  ending : Ending;
}.

(** [TasteOptions extends TasteEvaluationOptions]. *)
Record TasteOptions : Type := {
  evaluation : TasteEvaluationOptions;
  opt_manifest : option string;
  opt_constitution : option string;
  opt_intent : option string;
  opt_report : option string;
  opt_ruleset : option string;
}.

(** What [runTaste] takes from its host besides the evaluator's host:
    [fileExists], [readJsonFile] at the three document types and
    [writeJsonFile] of [src/utils/fs] ([None] and [false] when the promise
    rejects). *)
Record TasteHost : Type := {
  evaluator : Taste.Host;
  fileExists : string → bool;
  readManifest : string → option RendererOutputManifest;
  readConstitution : string → option VisualConstitution;
  readIntent : string → option DesignIntentTaste;
  writeJsonFile : string → TasteReport → bool;
}.

Definition runTaste (host : TasteHost) (now : string) (options : TasteOptions) : Run :=
  let manifestPath := default FILENAMES.rendererManifest (opt_manifest options) in
  let constitutionPath := default FILENAMES.visualConstitution (opt_constitution options) in
  let intentPath := default FILENAMES.designIntent (opt_intent options) in
  let reportPath := default FILENAMES.tasteReport (opt_report options) in
  let rulesetPath :=
    match rulesetPath (evaluation options) with
    | Some path => path
    | None =>
        match opt_ruleset options with
        | Some path => path
        | None =>
            Taste.path_join (evaluator host)
              [Taste.cwd (evaluator host); FILENAMES.tasteRuleset]
        end
    end in
  if negb (fileExists host manifestPath) then
    {| effects := [];
       ending := Threw ("Renderer manifest not found at " +:+ manifestPath +:+ ".") |}
  else if negb (fileExists host constitutionPath) then
    {| effects := [];
       ending := Threw ("Visual constitution not found at " +:+ constitutionPath +:+ ".") |}
  else if negb (fileExists host intentPath) then
    {| effects := [];
       ending := Threw ("Design intent not found at " +:+ intentPath +:+ ".") |}
  else if negb (fileExists host rulesetPath) then
    {| effects := [];
       ending := Threw ("Taste ruleset not found at " +:+ rulesetPath +:+ ".") |}
  else
    match readManifest host manifestPath with
    | None => {| effects := []; ending := Rejected |}
    | Some manifest =>
    match readConstitution host constitutionPath with
    | None => {| effects := []; ending := Rejected |}
    | Some constitution =>
    match readIntent host intentPath with
    | None => {| effects := []; ending := Rejected |}
    | Some intent_doc =>
    match Taste.evaluateTaste (evaluator host) now manifest constitution intent_doc
            {| rulesetPath := Some rulesetPath;
               failFast := Some (default true (failFast (evaluation options)));
               verbose := Some (default false (verbose (evaluation options))) |} with
    | None => {| effects := []; ending := Rejected |}
    | Some report =>
        if negb (writeJsonFile host reportPath report) then
          {| effects := []; ending := Rejected |}
        else
          let written := [WroteTasteReport reportPath report] in
          match tt_status report with
          | Failed =>
              match Js.first (tt_errors report) with
              | None => {| effects := written; ending := ReadOfUndefined |}
              | Some first =>
                  {| effects :=
                       written ++
                       [ ConsoleError
                           ("Taste validation failed (" +:+ tr_id first +:+ "): "
                              +:+ tr_message first +:+ " | clause=" +:+ tr_clause first
                              +:+ " intent=" +:+ tr_intent_reference first);
                         ConsoleError ("See " +:+ reportPath);
                         SetExitCode 1 ];
                     ending := Returned |}
              end
          | Passed =>
              {| effects :=
                   written ++
                   [ ConsoleLog ("Taste validation passed. Report written to "
                                   +:+ reportPath) ];
                 ending := Returned |}
          end
    end end end end.

Record RendererValidateOptions : Type := {
  rvo_manifest : option string;
  rvo_registry : option string;
  rvo_report : option string;
}.

Section RendererValidate.
Context {unknown : Type}.
Context (as_manifest : unknown → RendererOutputManifest)
        (as_registry : unknown → RendererRegistry).

(** What [runRendererValidate] takes from its host besides the validator's
    host, whose [readJsonFile] also reads the two documents. *)
Record RendererHost : Type := {
  validator : Contract.Host (unknown := unknown);
  rh_fileExists : string → bool;
  rh_writeJsonFile : string → RendererValidationReport → bool;
}.

Definition runRendererValidate (host : RendererHost) (now : string)
    (options : RendererValidateOptions) : Run :=
  let manifestPath := default FILENAMES.rendererManifest (rvo_manifest options) in
  let registryPath := default FILENAMES.rendererRegistry (rvo_registry options) in
  let reportPath := default FILENAMES.rendererValidationReport (rvo_report options) in
  if negb (rh_fileExists host manifestPath) then
    {| effects := [];
       ending := Threw ("Renderer manifest not found at " +:+ manifestPath
                          +:+ ". Provide --manifest <path>.") |}
  else if negb (rh_fileExists host registryPath) then
    {| effects := [];
       ending := Threw ("Renderer registry not found at " +:+ registryPath
                          +:+ ". Provide --registry <path>.") |}
  else
    let contractSchemaPath :=
      Contract.path_join (validator host)
        [Contract.cwd (validator host); "contracts"; "renderer-contract.schema.json"] in
    let registrySchemaPath :=
      Contract.path_join (validator host)
        [Contract.cwd (validator host); "contracts"; "renderer-registry.schema.json"] in
    if negb (rh_fileExists host contractSchemaPath) then
      {| effects := [];
         ending := Threw ("Renderer contract schema missing at " +:+ contractSchemaPath
                            +:+ ".") |}
    else if negb (rh_fileExists host registrySchemaPath) then
      {| effects := [];
         ending := Threw ("Renderer registry schema missing at " +:+ registrySchemaPath
                            +:+ ".") |}
    else
      match Contract.readJsonFile (validator host) manifestPath with
      | None => {| effects := []; ending := Rejected |}
      | Some manifestRaw =>
      match Contract.readJsonFile (validator host) registryPath with
      | None => {| effects := []; ending := Rejected |}
      | Some registryRaw =>
      match Contract.buildRendererValidationReport as_manifest as_registry
              (validator host) now manifestRaw registryRaw
              {| Contract.contractSchemaPath := Some contractSchemaPath;
                 Contract.registrySchemaPath := Some registrySchemaPath |} with
      | None => {| effects := []; ending := Rejected |}
      | Some report =>
          if negb (rh_writeJsonFile host reportPath report) then
            {| effects := []; ending := Rejected |}
          else
            let written := [WroteRendererReport reportPath report] in
            match rv_status report with
            | Failed =>
                {| effects :=
                     written ++
                     [ ConsoleError ("Renderer validation failed. See " +:+ reportPath);
                       SetExitCode 1 ];
                   ending := Returned |}
            | Passed =>
                {| effects :=
                     written ++
                     [ ConsoleLog ("Renderer validation passed. Report written to "
                                     +:+ reportPath) ];
                   ending := Returned |}
            end
      end end end.

End RendererValidate.

End Stages.

(** ** Sample documents *)

Module Fixtures.

Definition ruleset : TasteRuleset :=
  {| ruleset_version := "1.0.0";
     ruleset_rules :=
       [ {| meta_id := "typography.max-sizes.rule";
            meta_description := "Limit the number of font sizes.";
            meta_clause := "typography.max_font_sizes";
            meta_intent_reference := "design-intent";
            meta_remediation := "Use fewer font sizes." |};
         {| meta_id := "patterns.intent.rule";
            meta_description := "Patterns serve their declared intent.";
            meta_clause := "patterns.intents";
            meta_intent_reference := "design-intent.allowed_patterns";
            meta_remediation := "Use an authorised pattern." |} ] |}.

Definition tasteHost : Taste.Host :=
  {| Taste.cwd := "/repo";
     Taste.path_join := Js.join "/";
     Taste.readJsonFile :=
       λ path, if String.eqb path "/repo/rules/taste/ruleset.json" then Some ruleset
               else None |}.

(** The same ruleset in a checkout at another place, with another file
    beside it. *)
Definition tasteHost_elsewhere : Taste.Host :=
  {| Taste.cwd := "/srv/checkout";
     Taste.path_join := Js.join "/";
     Taste.readJsonFile :=
       λ path, if String.eqb path "/srv/checkout/rules/taste/ruleset.json" then Some ruleset
               else if String.eqb path "/repo/rules/taste/ruleset.json"
                    then Some {| ruleset_version := "0.9.0"; ruleset_rules := [] |}
                    else None |}.

Definition band (allowed : list Js.value) (variance : option Z) : ConsistencyBand :=
  {| allowed_values := Some allowed; max_variance := variance |}.

Definition constitution : VisualConstitution :=
  {| typography :=
       {| max_font_sizes := 3;
          typography_role_defs :=
            [ {| def_name := "h1"; def_min := 12; def_max := 48 |};
              {| def_name := "body"; def_min := 12; def_max := 24 |} ];
          hierarchy := ["h1"; "body"] |};
     spacing := {| spacing_allowed_values := [4; 8; 16]; spacing_max_variance := 12 |};
     color := {| allowed_tokens := ["primary"; "surface"]; contrast_floor := 4 |};
     band_radius := band [Js.Num 4; Js.Num 8] (Some 4);
     band_elevation := band [Js.Num 0; Js.Num 1] (Some 1);
     band_motion := band [Js.Str "ease"] (Some 0);
     patterns :=
       Some {| patterns_allowed := ["modal"];
               patterns_intents := Some {[ "modal" := ["confirm"; "alert"] ]} |} |}.

Definition design_intent : DesignIntentTaste :=
  {| intent_density := Some (Some 5);
     intent_allowed_patterns := Some {[ "modal" := ["confirm"] ]} |}.

Definition taste_of (roles : list RendererTasteTypographyRole)
    (interactions : Z) (usage : list RendererTastePatternUsage) : RendererTaste :=
  {| typography_roles := roles;
     spacing_values := [4; 8];
     color_tokens := ["primary"];
     color_contrast := [ {| pair := "primary/surface"; ratio := 7 |} ];
     density_interactions_per_view := interactions;
     consistency_radius := [4; 8];
     consistency_elevation := [0];
     consistency_motion := ["ease"];
     patterns_usage := usage |}.

Definition manifest_of (t : RendererTaste) : RendererOutputManifest :=
  {| contract := {| contract_id := "renderer-contract-v1" |};
     renderer :=
       {| renderer_name := "web"; renderer_version := "1.2.0"; renderer_target := "html";
          renderer_declares_contract := "renderer-contract-v1" |};
     outputs :=
       {| token_usage_undeclared := [];
          constitution_violations := [];
          determinism := {| deterministic := true; markers := [] |} |};
     taste := t |}.

(** A compliant manifest. *)
Definition manifest_valid : RendererOutputManifest :=
  manifest_of (taste_of [ {| role := "h1"; size := 32 |}; {| role := "body"; size := 16 |} ]
                        3 [ {| pattern := "modal"; intent := "confirm" |} ]).

(** Four font sizes where three are allowed, too many interactions, and a
    pattern used for an intent the design intent does not list. *)
Definition manifest_invalid : RendererOutputManifest :=
  manifest_of (taste_of [ {| role := "h1"; size := 32 |}; {| role := "h1"; size := 30 |};
                          {| role := "body"; size := 16 |}; {| role := "body"; size := 14 |} ]
                        9 [ {| pattern := "modal"; intent := "alert" |} ]).

(** The hierarchy example: h1 declared smaller than body. *)
Definition manifest_inverted : RendererOutputManifest :=
  manifest_of (taste_of [ {| role := "h1"; size := 16 |}; {| role := "body"; size := 20 |} ]
                        3 []).

Definition options (ff vb : option bool) : TasteEvaluationOptions :=
  {| rulesetPath := None; failFast := ff; verbose := vb |}.

(** The same constitution without a patterns policy. *)
Definition constitution_no_patterns : VisualConstitution :=
  {| typography := typography constitution;
     spacing := spacing constitution;
     color := color constitution;
     band_radius := band_radius constitution;
     band_elevation := band_elevation constitution;
     band_motion := band_motion constitution;
     patterns := None |}.

(** The same constitution with a radius band that allows no variance. *)
Definition constitution_tight_radius : VisualConstitution :=
  {| typography := typography constitution;
     spacing := spacing constitution;
     color := color constitution;
     band_radius := band [Js.Num 4; Js.Num 8] (Some 0);
     band_elevation := band_elevation constitution;
     band_motion := band_motion constitution;
     patterns := patterns constitution |}.

(** The same constitution, which also allows a pattern named like a member
    of [Object.prototype] and lists no intents for it. *)
Definition constitution_constructor : VisualConstitution :=
  {| typography := typography constitution;
     spacing := spacing constitution;
     color := color constitution;
     band_radius := band_radius constitution;
     band_elevation := band_elevation constitution;
     band_motion := band_motion constitution;
     patterns :=
       Some {| patterns_allowed := ["modal"; "constructor"];
               patterns_intents := Some {[ "modal" := ["confirm"; "alert"] ]} |} |}.



(** No density limit declared. *)
Definition design_intent_no_density : DesignIntentTaste :=
  {| intent_density := None;
     intent_allowed_patterns := intent_allowed_patterns design_intent |}.

(** A manifest without pattern usage. *)
Definition manifest_no_usage : RendererOutputManifest :=
  manifest_of (taste_of [ {| role := "h1"; size := 32 |} ] 3 []).

(** One usage, of the pattern named "constructor". *)
Definition manifest_constructor : RendererOutputManifest :=
  manifest_of (taste_of [ {| role := "h1"; size := 32 |} ] 3
                 [ {| pattern := "constructor"; intent := "confirm" |} ]).

(** Three usages: the second is not permitted by the design intent. *)
Definition manifest_three_usages : RendererOutputManifest :=
  manifest_of (taste_of [ {| role := "h1"; size := 32 |} ] 3
                 [ {| pattern := "modal"; intent := "confirm" |};
                   {| pattern := "modal"; intent := "alert" |};
                   {| pattern := "drawer"; intent := "confirm" |} ]).

(** Parsed JSON documents before validation. *)
Inductive document : Type :=
| ManifestDoc (manifest : RendererOutputManifest)
| RegistryDoc (registry : RendererRegistry)
| SchemaDoc (schema : string)
| OtherDoc.

Definition registry_valid : RendererRegistry :=
  {| renderers :=
       [ {| entry_name := "native"; entry_version := "0.9.0"; entry_target := "ios";
            entry_contract_id := "renderer-contract-v1" |};
         {| entry_name := "web"; entry_version := "1.2.0"; entry_target := "html";
            entry_contract_id := "renderer-contract-v1" |} ] |}.

(** The renderer of [manifest_valid] is registered, under another contract. *)
Definition registry_other_contract : RendererRegistry :=
  {| renderers :=
       [ {| entry_name := "web"; entry_version := "1.2.0"; entry_target := "html";
            entry_contract_id := "renderer-contract-v0" |} ] |}.

(** The renderer of [manifest_valid] is registered twice, first under
    another contract and then under its own. *)
Definition registry_twice : RendererRegistry :=
  {| renderers :=
       [ {| entry_name := "native"; entry_version := "0.9.0"; entry_target := "ios";
            entry_contract_id := "renderer-contract-v1" |};
         {| entry_name := "web"; entry_version := "1.2.0"; entry_target := "html";
            entry_contract_id := "renderer-contract-v0" |};
         {| entry_name := "web"; entry_version := "1.2.0"; entry_target := "html";
            entry_contract_id := "renderer-contract-v1" |} ] |}.

(** The renderer of [manifest_valid] is not registered. *)
Definition registry_without : RendererRegistry :=
  {| renderers :=
       [ {| entry_name := "native"; entry_version := "0.9.0"; entry_target := "ios";
            entry_contract_id := "renderer-contract-v1" |} ] |}.

Definition as_manifest (doc : document) : RendererOutputManifest :=
  match doc with
  | ManifestDoc manifest => manifest
  | _ => manifest_of (taste_of [] 0 [])
  end.

Definition as_registry (doc : document) : RendererRegistry :=
  match doc with
  | RegistryDoc registry => registry
  | _ => {| renderers := [] |}
  end.

Definition required_error (property : string) : Contract.ErrorObject :=
  {| Contract.instancePath := "";
     Contract.keyword := "required";
     Contract.params_additionalProperty := None;
     Contract.error_message := Some ("must have required property '" +:+ property +:+ "'") |}.

(** A validator for each of the two schemas: the contract schema accepts
    manifests, the registry schema accepts registries. *)
Definition compile (schema : document)
    : option (document → bool * option (list Contract.ErrorObject)) :=
  match schema with
  | SchemaDoc "contract" =>
      Some (λ doc, match doc with
                   | ManifestDoc _ => (true, None)
                   | _ => (false, Some [required_error "contract"])
                   end)
  | SchemaDoc "registry" =>
      Some (λ doc, match doc with
                   | RegistryDoc _ => (true, None)
                   | _ => (false, Some [required_error "renderers"])
                   end)
  | _ => None
  end.

Definition contractHost : Contract.Host :=
  {| Contract.cwd := "/repo";
     Contract.path_join := Js.join "/";
     Contract.readJsonFile :=
       λ path,
         if String.eqb path "/repo/contracts/renderer-contract.schema.json"
         then Some (SchemaDoc "contract")
         else if String.eqb path "/repo/contracts/renderer-registry.schema.json"
              then Some (SchemaDoc "registry")
              else None;
     Contract.ajv_compile := compile |}.

(** The same two schemas in a checkout at another place. *)
Definition contractHost_elsewhere : Contract.Host :=
  {| Contract.cwd := "/srv/checkout";
     Contract.path_join := Js.join "/";
     Contract.readJsonFile :=
       λ path,
         if String.eqb path "/srv/checkout/contracts/renderer-contract.schema.json"
         then Some (SchemaDoc "contract")
         else if String.eqb path "/srv/checkout/contracts/renderer-registry.schema.json"
              then Some (SchemaDoc "registry")
              else None;
     Contract.ajv_compile := compile |}.

Definition contract_options : Contract.RendererValidationOptions :=
  {| Contract.contractSchemaPath := None; Contract.registrySchemaPath := None |}.

End Fixtures.

(** ** The specification's vocabulary *)

Module Spec.

(** The failing subsequence of a rule list, in the original order. *)
Definition failingTaste (rules : list TasteRuleResult) : list TasteRuleResult :=
  List.filter (λ rule, negb (tr_passed rule)) rules.

Definition failingContract (rules : list ValidationRuleResult)
    : list ValidationRuleResult :=
  List.filter (λ rule, negb (vr_passed rule)) rules.

(** The taste rules in their fixed order, each evaluated on its own. *)
Definition allResults (manifest : RendererOutputManifest)
    (constitution : VisualConstitution) (intent_doc : DesignIntentTaste)
    (ruleset : TasteRuleset) : list TasteRuleResult :=
  [ Taste.typographyMaxSizes manifest constitution ruleset;
    Taste.typographyHierarchy manifest constitution ruleset;
    Taste.spacingAllowedValues manifest constitution ruleset;
    Taste.spacingVariance manifest constitution ruleset;
    Taste.colorAllowed manifest constitution ruleset;
    Taste.colorContrast manifest constitution ruleset;
    Taste.densityLimit manifest intent_doc ruleset;
    Taste.consistencyAllowed manifest constitution ruleset;
    Taste.consistencyVariance manifest constitution ruleset;
    Taste.patternsIntent manifest constitution intent_doc ruleset ].

(** The rule ids of the taste catalogue, in evaluation order. *)
Definition tasteRuleIds : list string :=
  [ "typography.max-sizes.rule"; "typography.hierarchy.rule";
    "spacing.allowed-values.rule"; "spacing.variance.rule";
    "color.allowed.rule"; "color.contrast.rule"; "density.limit.rule";
    "consistency.allowed.rule"; "consistency.variance.rule";
    "patterns.intent.rule" ].

(** A rule list cut after its first failing entry. *)
Fixpoint throughFirstFailure (rules : list TasteRuleResult) : list TasteRuleResult :=
  match rules with
  | [] => []
  | rule :: rest => if tr_passed rule then rule :: throughFirstFailure rest else [rule]
  end.


(** Pattern usage: the permitted-intent set of a pattern is the intent
    document's override entry when present, else the constitution's entry,
    else empty. *)
Definition permittedIntents (policy : PatternsConstitution)
    (intent_doc : DesignIntentTaste) (pattern_name : string) : list string :=
  match intent_allowed_patterns intent_doc ≫= (.!! pattern_name) with
  | Some override => override
  | None => default [] (patterns_intents policy ≫= (.!! pattern_name))
  end.

(** A usage is authorised when a patterns policy exists, allows the
    pattern, and the declared intent is permitted for it. *)
Definition usagePermitted (constitution : VisualConstitution)
    (intent_doc : DesignIntentTaste) (entry : RendererTastePatternUsage) : Prop :=
  ∃ policy, patterns constitution = Some policy
            ∧ pattern entry ∈ patterns_allowed policy
            ∧ intent entry ∈ permittedIntents policy intent_doc (pattern entry).

(** Typography: the size a manifest declares for a role (the first entry of
    that name). *)
Definition declaredSize (manifest : RendererOutputManifest) (role_name : string)
    : option Z :=
  size <$> List.find (λ entry, String.eqb (role entry) role_name)
                     (typography_roles (taste manifest)).

(** Adjacent names of the hierarchy that are both declared are declared in
    non-increasing size. *)
Definition hierarchyRespected (manifest : RendererOutputManifest)
    (constitution : VisualConstitution) : Prop :=
  ∀ (i : nat) earlier later earlierSize laterSize,
    hierarchy (typography constitution) !! i = Some earlier →
    hierarchy (typography constitution) !! S i = Some later →
    declaredSize manifest earlier = Some earlierSize →
    declaredSize manifest later = Some laterSize →
    (laterSize <= earlierSize)%Z.

(** Registration: an entry matches the manifest's renderer. *)
Definition matchesRenderer (manifest : RendererOutputManifest)
    (entry : RendererRegistryEntry) : Prop :=
  entry_name entry = renderer_name (renderer manifest)
  ∧ entry_version entry = renderer_version (renderer manifest)
  ∧ entry_target entry = renderer_target (renderer manifest).

Definition registered (manifest : RendererOutputManifest)
    (registry : RendererRegistry) : Prop :=
  ∃ entry, entry ∈ renderers registry ∧ matchesRenderer manifest entry.

(** Consistency: a declared value is in a band's allowed set when some
    allowed value has the same string form. *)
Definition allowedByStringForm (band : ConsistencyBand) (declared : Js.value) : Prop :=
  ∃ allowed, allowed ∈ default [] (allowed_values band)
             ∧ Js.String_ allowed = Js.String_ declared.

(** The density limit an intent document declares, if any. *)
Definition densityLimitOf (intent_doc : DesignIntentTaste) : option Z :=
  match intent_density intent_doc with
  | Some (Some limit) => Some limit
  | _ => None
  end.

(** What a call of the contract validator takes from its environment: the
    verdicts, on the two documents, of the validators compiled from the two
    schemas it reads. *)
Definition verdicts {unknown : Type} (host : Contract.Host (unknown := unknown))
    (options : Contract.RendererValidationOptions) (manifestRaw registryRaw : unknown)
    : option ((bool * option (list Contract.ErrorObject))
              * (bool * option (list Contract.ErrorObject))) :=
  contractSchema ←
    Contract.readJsonFile host
      (default (Contract.defaultContractSchemaPath host)
               (Contract.contractSchemaPath options));
  registrySchema ←
    Contract.readJsonFile host
      (default (Contract.defaultRegistrySchemaPath host)
               (Contract.registrySchemaPath options));
  contractValidator ← Contract.ajv_compile host contractSchema;
  registryValidator ← Contract.ajv_compile host registrySchema;
  Some (contractValidator manifestRaw, registryValidator registryRaw).

End Spec.

(** ** Sample hosts for the two stages *)

Module StageFixtures.

(** Every default path exists and holds the sample document of its kind. *)
Definition tasteStageHost (manifest : RendererOutputManifest) : Stages.TasteHost :=
  {| Stages.evaluator := Fixtures.tasteHost;
     Stages.fileExists := λ _, true;
     Stages.readManifest := λ _, Some manifest;
     Stages.readConstitution := λ _, Some Fixtures.constitution;
     Stages.readIntent := λ _, Some Fixtures.design_intent;
     Stages.writeJsonFile := λ _ _, true |}.

(** The design intent is missing from the disk. *)
Definition tasteStageHost_no_intent : Stages.TasteHost :=
  {| Stages.evaluator := Fixtures.tasteHost;
     Stages.fileExists := λ path, negb (String.eqb path "config/design-intent.json");
     Stages.readManifest := λ _, Some Fixtures.manifest_valid;
     Stages.readConstitution := λ _, Some Fixtures.constitution;
     Stages.readIntent := λ _, None;
     Stages.writeJsonFile := λ _ _, true |}.

Definition taste_options : Stages.TasteOptions :=
  {| Stages.evaluation := Fixtures.options None None;
     Stages.opt_manifest := None;
     Stages.opt_constitution := None;
     Stages.opt_intent := None;
     Stages.opt_report := None;
     Stages.opt_ruleset := None |}.

(** A manifest that reports an undeclared token. *)
Definition manifest_undeclared : RendererOutputManifest :=
  {| contract := contract Fixtures.manifest_valid;
     renderer := renderer Fixtures.manifest_valid;
     outputs :=
       {| token_usage_undeclared := ["accent"];
          constitution_violations := [];
          determinism := {| deterministic := true; markers := [] |} |};
     taste := taste Fixtures.manifest_valid |}.

Definition validatorHost (manifest : RendererOutputManifest) : Contract.Host :=
  {| Contract.cwd := "/repo";
     Contract.path_join := Js.join "/";
     Contract.readJsonFile :=
       λ path,
         if String.eqb path "/repo/contracts/renderer-contract.schema.json"
         then Some (Fixtures.SchemaDoc "contract")
         else if String.eqb path "/repo/contracts/renderer-registry.schema.json"
         then Some (Fixtures.SchemaDoc "registry")
         else if String.eqb path "renderers/manifest.json"
         then Some (Fixtures.ManifestDoc manifest)
         else if String.eqb path "config/renderer-registry.json"
         then Some (Fixtures.RegistryDoc Fixtures.registry_valid)
         else None;
     Contract.ajv_compile := Fixtures.compile |}.

Definition rendererStageHost (manifest : RendererOutputManifest) : Stages.RendererHost :=
  {| Stages.validator := validatorHost manifest;
     Stages.rh_fileExists := λ _, true;
     Stages.rh_writeJsonFile := λ _ _, true |}.

(** The registry is missing from the disk. *)
Definition rendererStageHost_no_registry : Stages.RendererHost :=
  {| Stages.validator := validatorHost Fixtures.manifest_valid;
     Stages.rh_fileExists :=
       λ path, negb (String.eqb path "config/renderer-registry.json");
     Stages.rh_writeJsonFile := λ _ _, true |}.

Definition renderer_options : Stages.RendererValidateOptions :=
  {| Stages.rvo_manifest := None; Stages.rvo_registry := None; Stages.rvo_report := None |}.

End StageFixtures.

(** * Properties *)

(** ** Lists and strings *)

Section ListFacts.
Context {A : Type}.

Lemma find_none_forall (f : A → bool) (l : list A) :
  List.find f l = None ↔ ∀ x, x ∈ l → f x = false.
Proof.
  induction l as [|a l IH]; simpl.
  - split; [intros _ x Hx; inversion Hx | done].
  - destruct (f a) eqn:Hfa.
    + split; [done | intros H; specialize (H a (list_elem_of_here a l)); congruence].
    + rewrite IH. split.
      * intros H x Hx. apply elem_of_cons in Hx as [->|Hx]; auto.
      * intros H x Hx. apply H. by apply list_elem_of_further.
Qed.

Lemma find_some_elem (f : A → bool) (l : list A) (x : A) :
  List.find f l = Some x → x ∈ l ∧ f x = true.
Proof.
  intros H. apply List.find_some in H as [Hin Hf].
  split; [by apply list_elem_of_In | done].
Qed.
End ListFacts.

(** [find] returns the first element that satisfies the test. *)
Lemma find_some_split {A : Type} (f : A → bool) (l : list A) (x : A) :
  List.find f l = Some x
  ↔ ∃ before after, l = before ++ x :: after
                    ∧ (∀ y, y ∈ before → f y = false) ∧ f x = true.
Proof.
  induction l as [|a l IH]; simpl.
  - split; [done|]. intros (before & after & Hl & _). by destruct before.
  - destruct (f a) eqn:Hfa.
    + split.
      * intros [= <-]. exists [], l. split; [done|]. split; [|done].
        intros y Hy. inversion Hy.
      * intros (before & after & Hl & Hbefore & Hx).
        destruct before as [|b before]; simpl in Hl.
        -- by injection Hl as <- _.
        -- injection Hl as <- _. rewrite Hbefore in Hfa; [done | apply list_elem_of_here].
    + rewrite IH. split.
      * intros (before & after & -> & Hbefore & Hx).
        exists (a :: before), after. split; [done|]. split; [|done].
        intros y Hy. apply elem_of_cons in Hy as [->|Hy]; [done | by apply Hbefore].
      * intros (before & after & Hl & Hbefore & Hx).
        destruct before as [|b before]; simpl in Hl.
        -- injection Hl as -> _. congruence.
        -- injection Hl as _ ->. exists before, after. split; [done|]. split; [|done].
           intros y Hy. apply Hbefore. by apply list_elem_of_further.
Qed.

Lemma append_empty_inv (s t : string) : s +:+ t = "" → s = "" ∧ t = "".
Proof. destruct s; simpl; [done | discriminate]. Qed.

Lemma string_eqb_eq (s t : string) : String.eqb s t = true ↔ s = t.
Proof. apply String.eqb_eq. Qed.

(** ** The insertion-ordered set *)

Section SetFacts.
Context {A : Type} `{EqDecision A}.

Lemma Set_add_elem (s : list A) (x y : A) : y ∈ Js.Set_.add s x ↔ y ∈ s ∨ y = x.
Proof.
  unfold Js.Set_.add. case_bool_decide as Hx.
  - split; [by left | intros [?| ->]; done].
  - rewrite elem_of_app, list_elem_of_singleton. done.
Qed.

Lemma Set_foldl_elem (xs s : list A) (y : A) :
  y ∈ foldl Js.Set_.add s xs ↔ y ∈ s ∨ y ∈ xs.
Proof.
  revert s. induction xs as [|x xs IH]; intros s; simpl.
  - split; [by left | intros [?|H]; [done | inversion H]].
  - rewrite IH, Set_add_elem, elem_of_cons. tauto.
Qed.

(** [new Set(xs).has(y)] is membership in [xs]. *)
Lemma Set_has_from (xs : list A) (y : A) :
  Js.Set_.has (Js.Set_.from xs) y = true ↔ y ∈ xs.
Proof.
  unfold Js.Set_.has, Js.Set_.from.
  rewrite bool_decide_eq_true, Set_foldl_elem.
  split; [intros [H|H]; [inversion H | done] | by right].
Qed.
End SetFacts.

(** ** The shape of a taste report *)

Lemma failing_nonempty_length (results : list TasteRuleResult) (rule : TasteRuleResult) :
  rule ∈ results → tr_passed rule = false →
  (length (Spec.failingTaste results) =? 0)%nat = false.
Proof.
  intros Hin Hfail. apply Nat.eqb_neq. intros Hlen.
  apply length_zero_iff_nil in Hlen.
  assert (List.In rule (Spec.failingTaste results)) as Hrule.
  { apply List.filter_In. split; [by apply list_elem_of_In | by rewrite Hfail]. }
  rewrite Hlen in Hrule. inversion Hrule.
Qed.

(** An early return reports what the final return would report on the same
    results, since a failing rule was just pushed. *)
Lemma stoppedReport_final now manifest ruleset results rule :
  rule ∈ results → tr_passed rule = false →
  Taste.stoppedReport now manifest ruleset results
  = Taste.finalReport now manifest ruleset results.
Proof.
  intros Hin Hfail. unfold Taste.stoppedReport, Taste.finalReport.
  fold (Spec.failingTaste results).
  by rewrite (failing_nonempty_length results rule Hin Hfail).
Qed.

Lemma throughFirstFailure_app_fail (front : list TasteRuleResult) rule rest :
  forallb tr_passed front = true → tr_passed rule = false →
  Spec.throughFirstFailure (front ++ rule :: rest) = front ++ [rule].
Proof.
  intros Hfront Hrule. induction front as [|x front IH]; simpl.
  - by rewrite Hrule.
  - simpl in Hfront. apply andb_prop in Hfront as [Hx Hfront].
    rewrite Hx. f_equal. by apply IH.
Qed.

Lemma throughFirstFailure_all_pass (rules : list TasteRuleResult) :
  forallb tr_passed rules = true → Spec.throughFirstFailure rules = rules.
Proof.
  induction rules as [|x rules IH]; simpl; [done|].
  intros H. apply andb_prop in H as [Hx H]. rewrite Hx. f_equal. by apply IH.
Qed.

Ltac stop_or_go r H :=
  destruct (tr_passed r) eqn:H; simpl;
  [ | f_equal; eapply stoppedReport_final; [ | exact H ]; set_solver ].

(** [evaluateTaste] returns the final report of the rules it ran: all ten,
    or, when it fails fast, those through the first failure. *)
Lemma evaluateTaste_runs host now manifest constitution intent_doc options :
  Taste.evaluateTaste host now manifest constitution intent_doc options
  = ruleset ← Taste.loadRuleset host (rulesetPath options);
    Some (Taste.finalReport now manifest ruleset
            (if default true (failFast options) && negb (default false (verbose options))
             then Spec.throughFirstFailure
                    (Spec.allResults manifest constitution intent_doc ruleset)
             else Spec.allResults manifest constitution intent_doc ruleset)).
Proof.
  unfold Taste.evaluateTaste.
  destruct (Taste.loadRuleset host (rulesetPath options)) as [ruleset|]; [|done].
  cbn [mbind option_bind]. unfold Spec.allResults.
  generalize (Taste.typographyMaxSizes manifest constitution ruleset)
             (Taste.typographyHierarchy manifest constitution ruleset)
             (Taste.spacingAllowedValues manifest constitution ruleset)
             (Taste.spacingVariance manifest constitution ruleset)
             (Taste.colorAllowed manifest constitution ruleset)
             (Taste.colorContrast manifest constitution ruleset)
             (Taste.densityLimit manifest intent_doc ruleset)
             (Taste.consistencyAllowed manifest constitution ruleset)
             (Taste.consistencyVariance manifest constitution ruleset)
             (Taste.patternsIntent manifest constitution intent_doc ruleset).
  intros r1 r2 r3 r4 r5 r6 r7 r8 r9 r10.
  unfold Taste.addResult.
  destruct (default true (failFast options)), (default false (verbose options)); simpl;
    rewrite ?andb_false_r; simpl; try done.
  stop_or_go r1 H1. stop_or_go r2 H2. stop_or_go r3 H3. stop_or_go r4 H4.
  stop_or_go r5 H5. stop_or_go r6 H6. stop_or_go r7 H7. stop_or_go r8 H8.
  stop_or_go r9 H9. destruct (tr_passed r10); done.
Qed.

(** ** The shape of a contract report *)

Section ContractReport.
Context {unknown : Type}.
Context (as_manifest : unknown → RendererOutputManifest)
        (as_registry : unknown → RendererRegistry).
Context (host : Contract.Host (unknown := unknown)).

(** Once both schemas are read and compiled, a report is returned: the two
    schema rules alone when a document is invalid, all eight otherwise. *)
Lemma buildRendererValidationReport_runs now manifestRaw registryRaw options
    contractSchema registrySchema contractValidator registryValidator :
  Contract.readJsonFile host
    (default (Contract.defaultContractSchemaPath host) (Contract.contractSchemaPath options))
  = Some contractSchema →
  Contract.readJsonFile host
    (default (Contract.defaultRegistrySchemaPath host) (Contract.registrySchemaPath options))
  = Some registrySchema →
  Contract.ajv_compile host contractSchema = Some contractValidator →
  Contract.ajv_compile host registrySchema = Some registryValidator →
  let schemaRules :=
    [ Contract.manifestSchemaRule (contractValidator manifestRaw);
      Contract.registrySchemaRule (registryValidator registryRaw) ] in
  let manifest := as_manifest manifestRaw in
  let registry := as_registry registryRaw in
  let allRules :=
    schemaRules ++
    [ Contract.contractDeclaredRule manifest;
      Contract.registrationRule manifest registry;
      Contract.registryContractRule manifest registry;
      Contract.tokenUsageRule manifest;
      Contract.constitutionRule manifest;
      Contract.determinismRule manifest ] in
  Contract.buildRendererValidationReport as_manifest as_registry host now
    manifestRaw registryRaw options
  = Some (if (contractValidator manifestRaw).1 && (registryValidator registryRaw).1
          then {| rv_status :=
                    if (length (Spec.failingContract allRules) =? 0)%nat
                    then Passed else Failed;
                  rv_generated_at := now;
                  rv_renderer := identity_of manifest;
                  rv_rules := allRules;
                  rv_errors := Spec.failingContract allRules |}
          else {| rv_status := Failed;
                  rv_generated_at := now;
                  rv_renderer := Contract.unknownRenderer;
                  rv_rules := schemaRules;
                  rv_errors := Spec.failingContract schemaRules |}).
Proof.
  intros HreadC HreadR HcompC HcompR. unfold Contract.buildRendererValidationReport.
  rewrite HreadC. cbn [mbind option_bind]. rewrite HreadR. cbn [mbind option_bind].
  rewrite HcompC. cbn [mbind option_bind]. rewrite HcompR. cbn [mbind option_bind].
  destruct (contractValidator manifestRaw) as [manifestValid manifestErrors].
  destruct (registryValidator registryRaw) as [registryValid registryErrors].
  by destruct manifestValid, registryValid.
Qed.

(** A returned report comes from two compiled validators. *)
Lemma buildRendererValidationReport_returns now manifestRaw registryRaw options report :
  Contract.buildRendererValidationReport as_manifest as_registry host now
    manifestRaw registryRaw options = Some report →
  ∃ contractSchema registrySchema contractValidator registryValidator,
    Contract.readJsonFile host
      (default (Contract.defaultContractSchemaPath host) (Contract.contractSchemaPath options))
    = Some contractSchema
    ∧ Contract.readJsonFile host
        (default (Contract.defaultRegistrySchemaPath host) (Contract.registrySchemaPath options))
      = Some registrySchema
    ∧ Contract.ajv_compile host contractSchema = Some contractValidator
    ∧ Contract.ajv_compile host registrySchema = Some registryValidator.
Proof.
  unfold Contract.buildRendererValidationReport. intros Hreport.
  destruct (Contract.readJsonFile host (default _ (Contract.contractSchemaPath options)))
    as [contractSchema|] eqn:HreadC; [|done].
  destruct (Contract.readJsonFile host (default _ (Contract.registrySchemaPath options)))
    as [registrySchema|] eqn:HreadR; [|done].
  cbn [mbind option_bind] in Hreport.
  destruct (Contract.ajv_compile host contractSchema) as [cv|] eqn:HcompC; [|done].
  cbn [mbind option_bind] in Hreport.
  destruct (Contract.ajv_compile host registrySchema) as [rv|] eqn:HcompR; [|done].
  by exists contractSchema, registrySchema, cv, rv.
Qed.

End ContractReport.

Lemma failing_empty_iff {A : Type} (failed : A → bool) (rules : list A) :
  (length (List.filter failed rules) =? 0)%nat = true ↔ List.filter failed rules = [].
Proof. rewrite Nat.eqb_eq. apply length_zero_iff_nil. Qed.

Lemma schema_rule_failing {A : Type} (passed : A → bool) (first second : A) :
  passed first && passed second = false →
  List.filter (λ rule, negb (passed rule)) [first; second] ≠ [].
Proof. simpl. by destruct (passed first), (passed second). Qed.

(** ** Report invariants *)

(** C1. Every report returned by [buildRendererValidationReport] and by
    [evaluateTaste], also from an early return, has as [errors] exactly the
    entries of [rules] with [passed = false], in the order of [rules], and
    has status "passed" if and only if [errors] is empty. *)
Theorem report_errors_and_status :
  (∀ (unknown : Type) (as_manifest : unknown → RendererOutputManifest)
     (as_registry : unknown → RendererRegistry) (host : Contract.Host)
     now manifestRaw registryRaw options report,
      Contract.buildRendererValidationReport as_manifest as_registry host now
        manifestRaw registryRaw options = Some report →
      rv_errors report = Spec.failingContract (rv_rules report)
      ∧ (rv_status report = Passed ↔ rv_errors report = []))
  ∧ (∀ host now manifest constitution intent_doc options report,
      Taste.evaluateTaste host now manifest constitution intent_doc options = Some report →
      tt_errors report = Spec.failingTaste (tt_rules report)
      ∧ (tt_status report = Passed ↔ tt_errors report = [])).
Proof.
  split.
  - intros unknown as_manifest as_registry host now manifestRaw registryRaw options
      report Hreport.
    destruct (buildRendererValidationReport_returns _ _ _ _ _ _ _ _ Hreport)
      as (cs & rs & cv & rv & HreadC & HreadR & HcompC & HcompR).
    rewrite (buildRendererValidationReport_runs as_manifest as_registry host now
               manifestRaw registryRaw options cs rs cv rv HreadC HreadR HcompC HcompR)
      in Hreport.
    apply (inj Some) in Hreport. subst report.
    destruct ((cv manifestRaw).1 && (rv registryRaw).1) eqn:Hvalid.
    + unfold rv_errors, rv_rules, rv_status. split; [done|].
      unfold Spec.failingContract. rewrite <- failing_empty_iff.
      destruct (length _ =? 0)%nat; naive_solver.
    + unfold rv_errors, rv_rules, rv_status. split; [done|].
      split; [done|]. intros Hnone. exfalso.
      revert Hnone. apply (schema_rule_failing vr_passed).
      unfold Contract.manifestSchemaRule, Contract.registrySchemaRule. simpl. exact Hvalid.
  - intros host now manifest constitution intent_doc options report Hreport.
    rewrite evaluateTaste_runs in Hreport.
    destruct (Taste.loadRuleset host (rulesetPath options)) as [ruleset|]; [|done].
    cbn [mbind option_bind] in Hreport. apply (inj Some) in Hreport. subst report.
    unfold Taste.finalReport, tt_errors, tt_rules, tt_status. split; [done|].
    rewrite <- failing_empty_iff. destruct (length _ =? 0)%nat; naive_solver.
Qed.

Lemma report_errors_and_status_witness :
  (∃ report,
      Contract.buildRendererValidationReport Fixtures.as_manifest Fixtures.as_registry
        Fixtures.contractHost "2024-05-01T00:00:00.000Z" Fixtures.OtherDoc
        (Fixtures.RegistryDoc Fixtures.registry_valid) Fixtures.contract_options
      = Some report
      ∧ rv_errors report = Spec.failingContract (rv_rules report)
      ∧ (rv_status report = Passed ↔ rv_errors report = []))
  ∧ (∃ report,
      Taste.evaluateTaste Fixtures.tasteHost "2024-05-01T00:00:00.000Z"
        Fixtures.manifest_invalid Fixtures.constitution Fixtures.design_intent
        (Fixtures.options None None) = Some report
      ∧ tt_errors report = Spec.failingTaste (tt_rules report)
      ∧ (tt_status report = Passed ↔ tt_errors report = [])).
Proof.
  split.
  - eexists. split; [vm_compute; reflexivity|].
    apply (proj1 report_errors_and_status _ Fixtures.as_manifest Fixtures.as_registry
             Fixtures.contractHost "2024-05-01T00:00:00.000Z" Fixtures.OtherDoc
             (Fixtures.RegistryDoc Fixtures.registry_valid) Fixtures.contract_options).
    vm_compute. reflexivity.
  - eexists. split; [vm_compute; reflexivity|].
    apply (proj2 report_errors_and_status Fixtures.tasteHost "2024-05-01T00:00:00.000Z"
             Fixtures.manifest_invalid Fixtures.constitution Fixtures.design_intent
             (Fixtures.options None None)).
    vm_compute. reflexivity.
Defined.

(** C8. Two evaluations of the same documents under the same options
    give the same [rules], [errors], [status] and renderer identity, and
    differ at most in [generated_at], which is the reading of the clock at
    each call.  The two calls may run in two different environments: all
    that an evaluation takes from its environment is what it reads at the
    paths it resolves (the ruleset for [evaluateTaste]; the two schemas, as
    compiled validators applied to the two documents, for
    [buildRendererValidationReport]), so two environments that agree there
    give the same outcome, a rejection included, wherever the working
    directory is and whatever else the file system holds. *)
Theorem evaluation_repeatable :
  (∀ (unknown : Type) (as_manifest : unknown → RendererOutputManifest)
     (as_registry : unknown → RendererRegistry) (host host' : Contract.Host)
     manifestRaw registryRaw options now now',
      Spec.verdicts host options manifestRaw registryRaw
      = Spec.verdicts host' options manifestRaw registryRaw →
      let first := Contract.buildRendererValidationReport as_manifest as_registry host now
                     manifestRaw registryRaw options in
      let second := Contract.buildRendererValidationReport as_manifest as_registry host' now'
                      manifestRaw registryRaw options in
      rv_rules <$> first = rv_rules <$> second
      ∧ rv_errors <$> first = rv_errors <$> second
      ∧ rv_status <$> first = rv_status <$> second
      ∧ rv_renderer <$> first = rv_renderer <$> second
      ∧ rv_generated_at <$> first = (λ _, now) <$> second
      ∧ rv_generated_at <$> second = (λ _, now') <$> first)
  ∧ (∀ (host host' : Taste.Host) manifest constitution intent_doc options now now',
      Taste.loadRuleset host (rulesetPath options)
      = Taste.loadRuleset host' (rulesetPath options) →
      let first := Taste.evaluateTaste host now manifest constitution intent_doc options in
      let second := Taste.evaluateTaste host' now' manifest constitution intent_doc options in
      tt_rules <$> first = tt_rules <$> second
      ∧ tt_errors <$> first = tt_errors <$> second
      ∧ tt_status <$> first = tt_status <$> second
      ∧ tt_renderer <$> first = tt_renderer <$> second
      ∧ tt_ruleset_version <$> first = tt_ruleset_version <$> second
      ∧ tt_generated_at <$> first = (λ _, now) <$> second
      ∧ tt_generated_at <$> second = (λ _, now') <$> first).
Proof.
  split.
  - intros unknown as_manifest as_registry host host' manifestRaw registryRaw options
      now now' Hreads. cbv zeta.
    revert Hreads. unfold Spec.verdicts, Contract.buildRendererValidationReport.
    destruct (Contract.readJsonFile host
                (default (Contract.defaultContractSchemaPath host)
                         (Contract.contractSchemaPath options))) as [contractSchema|];
      destruct (Contract.readJsonFile host'
                  (default (Contract.defaultContractSchemaPath host')
                           (Contract.contractSchemaPath options))) as [contractSchema'|];
      cbn [mbind option_bind];
      destruct (Contract.readJsonFile host
                  (default (Contract.defaultRegistrySchemaPath host)
                           (Contract.registrySchemaPath options))) as [registrySchema|];
      destruct (Contract.readJsonFile host'
                  (default (Contract.defaultRegistrySchemaPath host')
                           (Contract.registrySchemaPath options))) as [registrySchema'|];
      cbn [mbind option_bind];
      try destruct (Contract.ajv_compile host contractSchema) as [cv|];
      try destruct (Contract.ajv_compile host' contractSchema') as [cv'|];
      cbn [mbind option_bind];
      try destruct (Contract.ajv_compile host registrySchema) as [rv|];
      try destruct (Contract.ajv_compile host' registrySchema') as [rv'|];
      cbn [mbind option_bind]; try done.
    intros [= Hmanifest Hregistry]. rewrite Hmanifest, Hregistry.
    by destruct (negb (cv' manifestRaw).1 || negb (rv' registryRaw).1).
  - intros host host' manifest constitution intent_doc options now now' Hreads. cbv zeta.
    rewrite !evaluateTaste_runs, Hreads.
    by destruct (Taste.loadRuleset host' (rulesetPath options)).
Qed.

Lemma evaluation_repeatable_witness :
  (let first :=
     Contract.buildRendererValidationReport Fixtures.as_manifest Fixtures.as_registry
       Fixtures.contractHost "2024-05-01T00:00:00.000Z"
       (Fixtures.ManifestDoc Fixtures.manifest_valid)
       (Fixtures.RegistryDoc Fixtures.registry_other_contract) Fixtures.contract_options in
   let second :=
     Contract.buildRendererValidationReport Fixtures.as_manifest Fixtures.as_registry
       Fixtures.contractHost_elsewhere "2024-05-02T09:30:00.000Z"
       (Fixtures.ManifestDoc Fixtures.manifest_valid)
       (Fixtures.RegistryDoc Fixtures.registry_other_contract) Fixtures.contract_options in
   rv_rules <$> first = rv_rules <$> second
   ∧ rv_errors <$> first = rv_errors <$> second
   ∧ rv_status <$> first = rv_status <$> second
   ∧ rv_renderer <$> first = rv_renderer <$> second
   ∧ rv_generated_at <$> first = (λ _, "2024-05-01T00:00:00.000Z") <$> second
   ∧ rv_generated_at <$> second = (λ _, "2024-05-02T09:30:00.000Z") <$> first)
  ∧ (let first :=
       Taste.evaluateTaste Fixtures.tasteHost "2024-05-01T00:00:00.000Z"
         Fixtures.manifest_invalid Fixtures.constitution Fixtures.design_intent
         (Fixtures.options (Some false) None) in
     let second :=
       Taste.evaluateTaste Fixtures.tasteHost_elsewhere "2024-05-02T09:30:00.000Z"
         Fixtures.manifest_invalid Fixtures.constitution Fixtures.design_intent
         (Fixtures.options (Some false) None) in
     tt_rules <$> first = tt_rules <$> second
     ∧ tt_errors <$> first = tt_errors <$> second
     ∧ tt_status <$> first = tt_status <$> second
     ∧ tt_renderer <$> first = tt_renderer <$> second
     ∧ tt_ruleset_version <$> first = tt_ruleset_version <$> second
     ∧ tt_generated_at <$> first = (λ _, "2024-05-01T00:00:00.000Z") <$> second
     ∧ tt_generated_at <$> second = (λ _, "2024-05-02T09:30:00.000Z") <$> first)
  ∧ Contract.cwd Fixtures.contractHost = "/repo"
  ∧ Contract.cwd Fixtures.contractHost_elsewhere = "/srv/checkout"
  ∧ Taste.readJsonFile Fixtures.tasteHost "/repo/rules/taste/ruleset.json"
    = Some Fixtures.ruleset
  ∧ (ruleset_version <$> Taste.readJsonFile Fixtures.tasteHost_elsewhere
                           "/repo/rules/taste/ruleset.json") = Some "0.9.0".
Proof.
  split; [|split].
  - apply (proj1 evaluation_repeatable Fixtures.document Fixtures.as_manifest
             Fixtures.as_registry Fixtures.contractHost Fixtures.contractHost_elsewhere
             (Fixtures.ManifestDoc Fixtures.manifest_valid)
             (Fixtures.RegistryDoc Fixtures.registry_other_contract)
             Fixtures.contract_options
             "2024-05-01T00:00:00.000Z" "2024-05-02T09:30:00.000Z").
    vm_compute. reflexivity.
  - apply (proj2 evaluation_repeatable Fixtures.tasteHost Fixtures.tasteHost_elsewhere
             Fixtures.manifest_invalid Fixtures.constitution Fixtures.design_intent
             (Fixtures.options (Some false) None)
             "2024-05-01T00:00:00.000Z" "2024-05-02T09:30:00.000Z").
    vm_compute. reflexivity.
  - repeat split.
Defined.

(** ** The renderer-contract validator *)

(** C2. Once the two schemas are loaded, [buildRendererValidationReport]
    returns a report whose first two rules are the manifest's schema rule
    and the registry's schema rule, each carrying the verdict of its own
    validator whatever the other says; and when either document is invalid
    the report has exactly these two rules, status "failed" and the renderer
    identity unknown/unknown/unknown: no semantic rule is in it. *)
Theorem schema_checks_gate (unknown : Type)
    (as_manifest : unknown → RendererOutputManifest)
    (as_registry : unknown → RendererRegistry) (host : Contract.Host)
    now manifestRaw registryRaw options
    contractSchema registrySchema contractValidator registryValidator :
  Contract.readJsonFile host
    (default (Contract.defaultContractSchemaPath host) (Contract.contractSchemaPath options))
  = Some contractSchema →
  Contract.readJsonFile host
    (default (Contract.defaultRegistrySchemaPath host) (Contract.registrySchemaPath options))
  = Some registrySchema →
  Contract.ajv_compile host contractSchema = Some contractValidator →
  Contract.ajv_compile host registrySchema = Some registryValidator →
  let manifestValid := (contractValidator manifestRaw).1 in
  let registryValid := (registryValidator registryRaw).1 in
  ∃ report manifestRule registryRule,
    Contract.buildRendererValidationReport as_manifest as_registry host now
      manifestRaw registryRaw options = Some report
    ∧ take 2 (rv_rules report) = [manifestRule; registryRule]
    ∧ manifestRule = Contract.manifestSchemaRule (contractValidator manifestRaw)
    ∧ registryRule = Contract.registrySchemaRule (registryValidator registryRaw)
    ∧ vr_id manifestRule = "renderer-manifest.schema"
    ∧ vr_passed manifestRule = manifestValid
    ∧ vr_id registryRule = "renderer-registry.schema"
    ∧ vr_passed registryRule = registryValid
    ∧ (manifestValid = false ∨ registryValid = false →
         rv_rules report = [manifestRule; registryRule]
         ∧ length (rv_rules report) = 2%nat
         ∧ rv_status report = Failed
         ∧ rv_renderer report
           = {| ri_name := "unknown"; ri_version := "unknown"; ri_target := "unknown" |}).
Proof.
  intros HreadC HreadR HcompC HcompR manifestValid registryValid.
  eexists _, _, _. split.
  { apply (buildRendererValidationReport_runs as_manifest as_registry host now
             manifestRaw registryRaw options contractSchema registrySchema
             contractValidator registryValidator HreadC HreadR HcompC HcompR). }
  fold manifestValid registryValid.
  split; [by destruct (manifestValid && registryValid)|].
  do 6 (split; [reflexivity|]).
  intros Hinvalid.
  assert (manifestValid && registryValid = false) as ->; [|done].
  destruct Hinvalid as [-> | ->]; [done | apply andb_false_r].
Qed.

Lemma schema_checks_gate_witness :
  ∃ report manifestRule registryRule,
    Contract.buildRendererValidationReport Fixtures.as_manifest Fixtures.as_registry
      Fixtures.contractHost "2024-05-01T00:00:00.000Z" Fixtures.OtherDoc
      (Fixtures.RegistryDoc Fixtures.registry_valid) Fixtures.contract_options
    = Some report
    ∧ take 2 (rv_rules report) = [manifestRule; registryRule]
    ∧ manifestRule
      = Contract.manifestSchemaRule
          (false, Some [Fixtures.required_error "contract"])
    ∧ registryRule = Contract.registrySchemaRule (true, None)
    ∧ vr_id manifestRule = "renderer-manifest.schema"
    ∧ vr_passed manifestRule = false
    ∧ vr_id registryRule = "renderer-registry.schema"
    ∧ vr_passed registryRule = true
    ∧ (false = false ∨ true = false →
         rv_rules report = [manifestRule; registryRule]
         ∧ length (rv_rules report) = 2%nat
         ∧ rv_status report = Failed
         ∧ rv_renderer report
           = {| ri_name := "unknown"; ri_version := "unknown"; ri_target := "unknown" |}).
Proof.
  exact (schema_checks_gate Fixtures.document Fixtures.as_manifest Fixtures.as_registry
           Fixtures.contractHost "2024-05-01T00:00:00.000Z" Fixtures.OtherDoc
           (Fixtures.RegistryDoc Fixtures.registry_valid) Fixtures.contract_options
           (Fixtures.SchemaDoc "contract") (Fixtures.SchemaDoc "registry")
           _ _ eq_refl eq_refl eq_refl eq_refl).
Defined.

Lemma findRegistered_registered manifest registry entry :
  Contract.findRegistered manifest registry = Some entry →
  entry ∈ renderers registry ∧ Spec.matchesRenderer manifest entry.
Proof.
  intros Hfind. apply find_some_elem in Hfind as [Hin Hmatch].
  split; [done|].
  apply andb_prop in Hmatch as [Hmatch Htarget].
  apply andb_prop in Hmatch as [Hname Hversion].
  by rewrite !string_eqb_eq in *.
Qed.

Lemma findRegistered_none manifest registry :
  Contract.findRegistered manifest registry = None ↔ ¬ Spec.registered manifest registry.
Proof.
  unfold Contract.findRegistered. rewrite find_none_forall. split.
  - intros Hnone (entry & Hin & Hname & Hversion & Htarget).
    specialize (Hnone entry Hin). simpl in Hnone.
    rewrite Hname, Hversion, Htarget, !String.eqb_refl in Hnone. done.
  - intros Hnot entry Hin.
    destruct (String.eqb (entry_name entry) _) eqn:Hname; [|done].
    destruct (String.eqb (entry_version entry) _) eqn:Hversion; [|done].
    destruct (String.eqb (entry_target entry) _) eqn:Htarget; [|done].
    exfalso. apply Hnot. exists entry.
    rewrite !string_eqb_eq in *. by repeat split.
Qed.

(** The entry [find] returns is the first one of the registry that matches
    the manifest's renderer. *)
Lemma findRegistered_first manifest registry entry :
  Contract.findRegistered manifest registry = Some entry
  ↔ ∃ before after,
      renderers registry = before ++ entry :: after
      ∧ (∀ earlier, earlier ∈ before → ¬ Spec.matchesRenderer manifest earlier)
      ∧ Spec.matchesRenderer manifest entry.
Proof.
  assert (∀ e, String.eqb (entry_name e) (renderer_name (renderer manifest))
               && String.eqb (entry_version e) (renderer_version (renderer manifest))
               && String.eqb (entry_target e) (renderer_target (renderer manifest)) = true
               ↔ Spec.matchesRenderer manifest e) as Hmatches.
  { intros e. unfold Spec.matchesRenderer.
    rewrite !andb_true_iff, !string_eqb_eq. tauto. }
  unfold Contract.findRegistered. rewrite find_some_split. split.
  - intros (before & after & Hsplit & Hbefore & Hentry).
    exists before, after. split; [done|]. split; [|by apply Hmatches].
    intros earlier Hin Hmatch. apply Hmatches in Hmatch.
    by rewrite (Hbefore earlier Hin) in Hmatch.
  - intros (before & after & Hsplit & Hbefore & Hentry).
    exists before, after. split; [done|]. split; [|by apply Hmatches].
    intros earlier Hin. apply not_true_is_false. intros Hmatch.
    by apply (Hbefore earlier Hin), Hmatches.
Qed.

(** C7, as the code has it. [renderer-contract.registry.rule] passes if and
    only if the registry has an entry with the manifest's renderer name,
    version and target, and the first such entry, in the registry's order,
    has the manifest's contract id.  When the first such entry has another
    contract id the rule fails and its counterexample shows the two ids;
    when there is no such entry the rule fails with the same [message] as a
    contract mismatch, and it is the [counterexample] that names the missing
    registry entry. *)
Theorem registry_rule_outcome manifest registry :
  let rule := Contract.registryContractRule manifest registry in
  (vr_passed rule = true ↔
     ∃ before entry after,
       renderers registry = before ++ entry :: after
       ∧ (∀ earlier, earlier ∈ before → ¬ Spec.matchesRenderer manifest earlier)
       ∧ Spec.matchesRenderer manifest entry
       ∧ entry_contract_id entry = contract_id (contract manifest))
  ∧ (vr_passed rule = true →
       vr_message rule = "Renderer registry contract matches the manifest contract."
       ∧ vr_counterexample rule = None)
  ∧ (∀ before entry after,
       renderers registry = before ++ entry :: after →
       (∀ earlier, earlier ∈ before → ¬ Spec.matchesRenderer manifest earlier) →
       Spec.matchesRenderer manifest entry →
       entry_contract_id entry ≠ contract_id (contract manifest) →
       vr_passed rule = false
       ∧ vr_message rule = "Renderer registry contract does not match the manifest contract."
       ∧ vr_counterexample rule
         = Some ("registry.contract_id=" +:+ entry_contract_id entry
                   +:+ ", manifest.contract.id=" +:+ contract_id (contract manifest)))
  ∧ ((∀ entry, entry ∈ renderers registry → ¬ Spec.matchesRenderer manifest entry) →
       vr_passed rule = false
       ∧ vr_message rule = "Renderer registry contract does not match the manifest contract."
       ∧ vr_counterexample rule = Some "Renderer entry missing from registry.").
Proof.
  cbv zeta. unfold Contract.registryContractRule.
  destruct (Contract.findRegistered manifest registry) as [found|] eqn:Hfind.
  - pose proof Hfind as Hfirst. apply findRegistered_first in Hfirst.
    assert (∀ before entry after,
              renderers registry = before ++ entry :: after →
              (∀ earlier, earlier ∈ before → ¬ Spec.matchesRenderer manifest earlier) →
              Spec.matchesRenderer manifest entry → entry = found) as Hsame.
    { intros before entry after Hsplit Hbefore Hentry.
      assert (Contract.findRegistered manifest registry = Some entry) as Hthis.
      { apply findRegistered_first. by exists before, after. }
      congruence. }
    destruct Hfirst as (before0 & after0 & Hsplit0 & Hbefore0 & Hfound).
    destruct (String.eqb (entry_contract_id found) _) eqn:Hid; simpl.
    + apply string_eqb_eq in Hid. split; [|split; [|split]].
      * split; [intros _; by exists before0, found, after0 | done].
      * done.
      * intros before entry after Hsplit Hbefore Hentry Hne.
        rewrite (Hsame _ _ _ Hsplit Hbefore Hentry) in Hne. done.
      * intros Hnone. exfalso. apply (Hnone found); [|done].
        rewrite Hsplit0. set_solver.
    + apply String.eqb_neq in Hid. split; [|split; [|split]].
      * split; [done|]. intros (before & entry & after & Hsplit & Hbefore & Hentry & Heq).
        rewrite (Hsame _ _ _ Hsplit Hbefore Hentry) in Heq. done.
      * done.
      * intros before entry after Hsplit Hbefore Hentry _.
        by rewrite (Hsame _ _ _ Hsplit Hbefore Hentry).
      * intros Hnone. exfalso. apply (Hnone found); [|done].
        rewrite Hsplit0. set_solver.
  - simpl. split; [|split; [|split]].
    + split; [done|]. intros (before & entry & after & Hsplit & Hbefore & Hentry & _).
      assert (Contract.findRegistered manifest registry = Some entry) as Hthis.
      { apply findRegistered_first. by exists before, after. }
      congruence.
    + done.
    + intros before entry after Hsplit Hbefore Hentry _.
      assert (Contract.findRegistered manifest registry = Some entry) as Hthis.
      { apply findRegistered_first. by exists before, after. }
      congruence.
    + done.
Qed.

Lemma registry_rule_outcome_witness :
  let rule :=
    Contract.registryContractRule Fixtures.manifest_valid Fixtures.registry_twice in
  let first_match :=
    {| entry_name := "web"; entry_version := "1.2.0"; entry_target := "html";
       entry_contract_id := "renderer-contract-v0" |} in
  (∃ before after,
     renderers Fixtures.registry_twice = before ++ first_match :: after
     ∧ length before = 1%nat ∧ length after = 1%nat)
  ∧ vr_passed rule = false
  ∧ vr_message rule = "Renderer registry contract does not match the manifest contract."
  ∧ vr_counterexample rule
    = Some "registry.contract_id=renderer-contract-v0, manifest.contract.id=renderer-contract-v1".
Proof.
  intros rule first_match. split; [by eexists [_], [_]|].
  apply (proj1 (proj2 (proj2 (registry_rule_outcome Fixtures.manifest_valid
                                Fixtures.registry_twice)))
           [ {| entry_name := "native"; entry_version := "0.9.0"; entry_target := "ios";
                entry_contract_id := "renderer-contract-v1" |} ]
           first_match
           [ {| entry_name := "web"; entry_version := "1.2.0"; entry_target := "html";
                entry_contract_id := "renderer-contract-v1" |} ]).
  - reflexivity.
  - intros earlier Hin%list_elem_of_singleton [Hname _]. subst earlier. discriminate.
  - by repeat split.
  - discriminate.
Defined.

(** C7, as the specification words it, fails: for a renderer that is not
    registered the rule's [message] is not distinct from the one of a
    contract mismatch, and speaks of the mismatch. *)
Lemma registry_rule_message_not_distinct :
  Contract.findRegistered Fixtures.manifest_valid Fixtures.registry_without = None
  ∧ (∃ entry,
       Contract.findRegistered Fixtures.manifest_valid Fixtures.registry_other_contract
       = Some entry
       ∧ entry_contract_id entry = "renderer-contract-v0"
       ∧ contract_id (contract Fixtures.manifest_valid) = "renderer-contract-v1")
  ∧ vr_message (Contract.registryContractRule Fixtures.manifest_valid
                  Fixtures.registry_without)
    = "Renderer registry contract does not match the manifest contract."
  ∧ vr_message (Contract.registryContractRule Fixtures.manifest_valid
                  Fixtures.registry_without)
    = vr_message (Contract.registryContractRule Fixtures.manifest_valid
                    Fixtures.registry_other_contract).
Proof.
  split; [reflexivity|]. split; [eexists; repeat split|]. split; reflexivity.
Qed.

(** ** The taste evaluator: fail-fast and verbose *)

Lemma getRuleMeta_id id ruleset : meta_id (Taste.getRuleMeta id ruleset) = id.
Proof.
  unfold Taste.getRuleMeta.
  destruct (List.find _ (ruleset_rules ruleset)) as [found|] eqn:Hfind; [|done].
  apply find_some_elem in Hfind as [_ Hid]. by apply string_eqb_eq in Hid.
Qed.

(** Each rule reports under its own id, whatever the ruleset holds. *)
Lemma allResults_ids manifest constitution intent_doc ruleset :
  map tr_id (Spec.allResults manifest constitution intent_doc ruleset) = Spec.tasteRuleIds.
Proof.
  unfold Spec.allResults, Spec.tasteRuleIds. cbn [map].
  repeat f_equal.
  all: try (cbv delta [Taste.typographyMaxSizes Taste.typographyHierarchy
              Taste.spacingAllowedValues Taste.spacingVariance Taste.colorAllowed
              Taste.colorContrast Taste.consistencyAllowed Taste.consistencyVariance
              Taste.patternsIntent Taste.buildResult] zeta beta;
            cbn [tr_id]; apply getRuleMeta_id).
  unfold Taste.densityLimit.
  destruct (intent_density intent_doc ≫= id); apply getRuleMeta_id.
Qed.





(** The ninth rule stops a fail-fast evaluation too: [patterns.intent.rule]
    is then not evaluated. *)
Example ninth_rule_stops_evaluation :
  ∃ report,
    Taste.evaluateTaste Fixtures.tasteHost "2024-05-01T00:00:00.000Z"
      Fixtures.manifest_valid Fixtures.constitution_tight_radius Fixtures.design_intent
      (Fixtures.options None None) = Some report
    ∧ map (λ rule, (tr_id rule, tr_passed rule)) (tt_rules report)
      = [ ("typography.max-sizes.rule", true); ("typography.hierarchy.rule", true);
          ("spacing.allowed-values.rule", true); ("spacing.variance.rule", true);
          ("color.allowed.rule", true); ("color.contrast.rule", true);
          ("density.limit.rule", true); ("consistency.allowed.rule", true);
          ("consistency.variance.rule", false) ]
    ∧ tt_status report = Failed.
Proof. eexists. split; [vm_compute; reflexivity|]. split; reflexivity. Qed.

(** ** Rule 10: pattern usage *)

Section PatternRule.
Context (constitution : VisualConstitution) (intent_doc : DesignIntentTaste).

(** A permitted usage lets the loop go on. *)
Lemma usageLoop_permitted entry rest :
  Spec.usagePermitted constitution intent_doc entry →
  Taste.usageLoop constitution intent_doc (Taste.allowedPatternsOf constitution) (entry :: rest)
  = Taste.usageLoop constitution intent_doc (Taste.allowedPatternsOf constitution) rest.
Proof.
  intros (policy & Hpolicy & Hpattern & Hintent).
  unfold Taste.allowedPatternsOf. simpl. rewrite Hpolicy.
  apply Set_has_from in Hpattern. rewrite Hpattern. simpl.
  unfold Spec.permittedIntents in Hintent.
  destruct (intent_allowed_patterns intent_doc ≫= _) as [override|].
  - by case_bool_decide.
  - destruct (patterns_intents policy ≫= _) as [listed|]; simpl in *.
    + by case_bool_decide.
    + inversion Hintent.
Qed.

(** A usage that is not permitted breaks the loop: what follows it is not
    looked at. *)
Lemma usageLoop_violation entry rest :
  ¬ Spec.usagePermitted constitution intent_doc entry →
  is_Some (Taste.usageLoop constitution intent_doc (Taste.allowedPatternsOf constitution) [entry])
  ∧ Taste.usageLoop constitution intent_doc (Taste.allowedPatternsOf constitution) (entry :: rest)
    = Taste.usageLoop constitution intent_doc (Taste.allowedPatternsOf constitution) [entry].
Proof.
  intros Hnot. unfold Taste.allowedPatternsOf. simpl.
  destruct (patterns constitution) as [policy|] eqn:Hpolicy; [|by split].
  destruct (Js.Set_.has _ (pattern entry)) eqn:Hpattern; simpl; [|by split].
  apply Set_has_from in Hpattern.
  assert (intent entry ∉ Spec.permittedIntents policy intent_doc (pattern entry)) as Hintent.
  { intros Hintent. apply Hnot. by exists policy. }
  unfold Spec.permittedIntents in Hintent.
  destruct (intent_allowed_patterns intent_doc ≫= _) as [override|].
  - case_bool_decide; [done | simpl; by split].
  - destruct (patterns_intents policy ≫= _) as [listed|]; simpl in *.
    + case_bool_decide; [done | simpl; by split].
    + by split.
Qed.

Lemma usageLoop_none usage :
  Taste.usageLoop constitution intent_doc (Taste.allowedPatternsOf constitution) usage = None
  ↔ Forall (Spec.usagePermitted constitution intent_doc) usage.
Proof.
  induction usage as [|entry rest IH].
  - split; [constructor | done].
  - split.
    + intros Hloop.
      assert (Spec.usagePermitted constitution intent_doc entry) as Hentry.
      { destruct (patterns constitution) as [policy|] eqn:Hpolicy.
        2: { simpl in Hloop. by rewrite Hpolicy in Hloop. }
        destruct (decide (pattern entry ∈ patterns_allowed policy)) as [Hp|Hp].
        2: { exfalso. destruct (usageLoop_violation entry rest) as [Hsome Heq].
             - intros (policy' & Hpolicy' & Hp' & _). congruence.
             - rewrite Heq in Hloop. rewrite Hloop in Hsome. by destruct Hsome. }
        destruct (decide (intent entry
                            ∈ Spec.permittedIntents policy intent_doc (pattern entry)))
          as [Hi|Hi]; [by exists policy|].
        exfalso. destruct (usageLoop_violation entry rest) as [Hsome Heq].
        - intros (policy' & Hpolicy' & _ & Hi'). congruence.
        - rewrite Heq in Hloop. rewrite Hloop in Hsome. by destruct Hsome. }
      constructor; [done|]. apply IH. by rewrite <- (usageLoop_permitted entry rest).
    + intros Hall. inversion Hall as [|? ? Hentry Hrest]; subst.
      rewrite usageLoop_permitted by done. by apply IH.
Qed.

Lemma usageLoop_skip before rest :
  Forall (Spec.usagePermitted constitution intent_doc) before →
  Taste.usageLoop constitution intent_doc (Taste.allowedPatternsOf constitution) (before ++ rest)
  = Taste.usageLoop constitution intent_doc (Taste.allowedPatternsOf constitution) rest.
Proof.
  induction 1 as [|entry before Hentry _ IH]; [done|].
  rewrite <- app_comm_cons, usageLoop_permitted by done. exact IH.
Qed.

Lemma not_prototype_name (key : string) :
  bool_decide (key ∈ Js.Object_prototype_names) = false →
  key ∉ Js.Object_prototype_names.
Proof. apply bool_decide_eq_false. Qed.

(** A name that [Object.prototype] does not define is read from the own
    properties alone. *)
Lemma get_own {A : Type} (o : option (gmap string A)) (key : string) :
  key ∉ Js.Object_prototype_names →
  Js.get o key = match o ≫= (.!! key) with Some a => Js.Own a | None => Js.Undefined end.
Proof.
  intros Hkey. unfold Js.get. destruct o as [o|]; [|done]. simpl.
  destruct (o !! key); [done|]. by rewrite bool_decide_eq_false_2.
Qed.

(** On such names the loop over the plain objects ends normally, as the
    loop over the own properties does. *)
Lemma usageLoop_js_normal usage :
  (∀ entry, entry ∈ usage → pattern entry ∉ Js.Object_prototype_names) →
  Taste.usageLoop_js constitution intent_doc (Taste.allowedPatternsOf constitution) usage
  = Js.Normal
      (Taste.usageLoop constitution intent_doc (Taste.allowedPatternsOf constitution) usage).
Proof.
  induction usage as [|entry rest IH]; intros Hnames; [done|].
  assert (pattern entry ∉ Js.Object_prototype_names) as Hentry
    by (apply Hnames, list_elem_of_here).
  simpl. destruct (patterns constitution) as [policy|]; [|done].
  destruct (Js.Set_.has _ (pattern entry)); simpl; [|done].
  rewrite !get_own by done.
  destruct (intent_allowed_patterns intent_doc ≫= _) as [override|]; simpl.
  - case_bool_decide; simpl; [|done].
    apply IH. intros e He. by apply Hnames, list_elem_of_further.
  - destruct (patterns_intents policy ≫= _) as [listed|]; simpl.
    + case_bool_decide; simpl; [|done].
      apply IH. intros e He. by apply Hnames, list_elem_of_further.
    + done.
Qed.

(** Whenever the loop over the plain objects ends normally, it has found
    what the loop over the own properties finds. *)
Lemma usageLoop_js_returns allowedPatterns usage found :
  Taste.usageLoop_js constitution intent_doc allowedPatterns usage = Js.Normal found →
  Taste.usageLoop constitution intent_doc allowedPatterns usage = found.
Proof.
  induction usage as [|entry rest IH]; simpl; [by intros [= <-]|].
  destruct (patterns constitution) as [policy|]; [|by intros [= <-]].
  destruct (Js.Set_.has _ (pattern entry)); simpl; [|by intros [= <-]].
  unfold Js.get.
  destruct (intent_allowed_patterns intent_doc) as [overrides|]; simpl.
  - destruct (overrides !! pattern entry) as [override|]; simpl.
    { case_bool_decide; simpl; [exact IH | by intros [= <-]]. }
    case_bool_decide; simpl; [done|].
    destruct (patterns_intents policy) as [intents|]; simpl.
    + destruct (intents !! pattern entry) as [listed|]; simpl.
      { case_bool_decide; simpl; [exact IH | by intros [= <-]]. }
      by intros [= <-].
    + by intros [= <-].
  - destruct (patterns_intents policy) as [intents|]; simpl.
    + destruct (intents !! pattern entry) as [listed|]; simpl.
      { case_bool_decide; simpl; [exact IH | by intros [= <-]]. }
      case_bool_decide; simpl; [done | by intros [= <-]].
    + by intros [= <-].
Qed.

(** Usages that the loop passes play no part in what it finds after them. *)
Lemma usageLoop_js_app allowedPatterns before rest :
  Taste.usageLoop_js constitution intent_doc allowedPatterns before = Js.Normal None →
  Taste.usageLoop_js constitution intent_doc allowedPatterns (before ++ rest)
  = Taste.usageLoop_js constitution intent_doc allowedPatterns rest.
Proof.
  induction before as [|entry before IH]; [done|]. simpl.
  destruct (patterns constitution) as [policy|]; [|done].
  destruct (Js.Set_.has _ (pattern entry)); simpl; [|done].
  destruct (Js.coalesce _ _) as [allowedIntents| |]; [|done|done].
  by case_bool_decide.
Qed.

End PatternRule.

(** The rule reads the manifest through its usage list only. *)
Lemma patternsIntent_usage manifest manifest' constitution intent_doc ruleset :
  Taste.usageLoop constitution intent_doc (Taste.allowedPatternsOf constitution)
    (patterns_usage (taste manifest))
  = Taste.usageLoop constitution intent_doc (Taste.allowedPatternsOf constitution)
      (patterns_usage (taste manifest')) →
  Taste.patternsIntent manifest constitution intent_doc ruleset
  = Taste.patternsIntent manifest' constitution intent_doc ruleset.
Proof. unfold Taste.patternsIntent. cbv zeta. by intros ->. Qed.

Lemma patternsIntent_passed manifest constitution intent_doc ruleset :
  tr_passed (Taste.patternsIntent manifest constitution intent_doc ruleset) = true
  ↔ Forall (Spec.usagePermitted constitution intent_doc) (patterns_usage (taste manifest)).
Proof.
  rewrite <- usageLoop_none. unfold Taste.patternsIntent. cbv zeta.
  unfold Taste.buildResult, tr_passed.
  by destruct (Taste.usageLoop _ _ _ _).
Qed.

(** On pattern names that [Object.prototype] does not define, the rule
    over the plain objects returns what the rule over the own properties
    gives. *)
Lemma patternsIntent_js_normal manifest constitution intent_doc ruleset :
  (∀ entry, entry ∈ patterns_usage (taste manifest) →
     pattern entry ∉ Js.Object_prototype_names) →
  Taste.patternsIntent_js manifest constitution intent_doc ruleset
  = Js.Normal (Taste.patternsIntent manifest constitution intent_doc ruleset).
Proof.
  intros Hnames. unfold Taste.patternsIntent_js, Taste.patternsIntent. cbv zeta.
  by rewrite usageLoop_js_normal.
Qed.

(** Whenever the rule over the plain objects returns a result, it is the
    result of the rule over the own properties: a report that
    [evaluateTaste] returns holds, for [patterns.intent.rule], what the code
    computes. *)
Lemma patternsIntent_js_returns manifest constitution intent_doc ruleset rule :
  Taste.patternsIntent_js manifest constitution intent_doc ruleset = Js.Normal rule →
  rule = Taste.patternsIntent manifest constitution intent_doc ruleset.
Proof.
  unfold Taste.patternsIntent_js, Taste.patternsIntent. cbv zeta.
  destruct (Taste.usageLoop_js _ _ _ _) as [found|] eqn:Hloop; [|done].
  apply usageLoop_js_returns in Hloop. rewrite Hloop. by intros [= <-].
Qed.

(** C4, at the input where the code leaves it.  The manifest declares one
    usage, of a pattern named "constructor"; the constitution allows the
    pattern and lists no intents for it, and the design intent has no
    override for it either.  By the claim the permitted-intent set is then
    empty and the rule reports the usage as a violation.  The code reads
    [intent.allowed_patterns["constructor"]], which on a plain object is the
    [constructor] member inherited from [Object.prototype], a function: it
    is neither [null] nor [undefined], so it becomes [allowedIntents], and
    [allowedIntents.includes] throws a [TypeError]: the rule gives no result
    at all. *)
Theorem patterns_rule_throws_on_inherited_name :
  let entry := {| pattern := "constructor"; intent := "confirm" |} in
  patterns_usage (taste Fixtures.manifest_constructor) = [entry]
  ∧ (∃ policy,
       patterns Fixtures.constitution_constructor = Some policy
       ∧ pattern entry ∈ patterns_allowed policy
       ∧ intent_allowed_patterns Fixtures.design_intent ≫= (.!! pattern entry) = None
       ∧ patterns_intents policy ≫= (.!! pattern entry) = None
       ∧ Spec.permittedIntents policy Fixtures.design_intent (pattern entry) = [])
  ∧ Js.get (intent_allowed_patterns Fixtures.design_intent) (pattern entry) = Js.Inherited
  ∧ Taste.patternsIntent_js Fixtures.manifest_constructor Fixtures.constitution_constructor
      Fixtures.design_intent Fixtures.ruleset
    = Js.TypeError.
Proof.
  cbv zeta. split; [reflexivity|]. split.
  - eexists. split; [reflexivity|]. split; [|by repeat split].
    apply list_elem_of_further, list_elem_of_here.
  - split; reflexivity.
Qed.

(** X27. On usages whose pattern names are not names of members of
    [Object.prototype], [patterns.intent.rule] returns a result, and it
    passes if and only if every declared usage is authorised: the
    constitution has a patterns policy, the pattern is in its allowed set,
    and the declared intent is in the permitted-intent set of the pattern,
    which is the intent document's override entry when present, else the
    constitution's entry, else empty.  The rule stops at its first violating
    usage: its result is the one it gives for that usage alone. *)
Theorem patterns_rule_on_own_names manifest constitution intent_doc ruleset :
  (∀ entry, entry ∈ patterns_usage (taste manifest) →
     pattern entry ∉ Js.Object_prototype_names) →
  ∃ rule,
    Taste.patternsIntent_js manifest constitution intent_doc ruleset = Js.Normal rule
    ∧ (tr_passed rule = true
       ↔ ∀ entry, entry ∈ patterns_usage (taste manifest) →
           ∃ policy, patterns constitution = Some policy
                     ∧ pattern entry ∈ patterns_allowed policy
                     ∧ intent entry
                       ∈ match intent_allowed_patterns intent_doc ≫= (.!! pattern entry) with
                         | Some override => override
                         | None =>
                             default [] (patterns_intents policy ≫= (.!! pattern entry))
                         end)
    ∧ (patterns constitution = None → patterns_usage (taste manifest) ≠ [] →
         tr_passed rule = false)
    ∧ (∀ before entry after alone,
         patterns_usage (taste manifest) = before ++ entry :: after →
         Forall (Spec.usagePermitted constitution intent_doc) before →
         ¬ Spec.usagePermitted constitution intent_doc entry →
         patterns_usage (taste alone) = [entry] →
         tr_passed rule = false
         ∧ Taste.patternsIntent_js alone constitution intent_doc ruleset = Js.Normal rule).
Proof.
  intros Hnames. eexists. split; [by apply patternsIntent_js_normal|].
  split; [|split].
  - rewrite patternsIntent_passed, Forall_forall. done.
  - intros Hnone Hused. apply not_true_is_false. rewrite patternsIntent_passed.
    destruct (patterns_usage (taste manifest)) as [|entry rest]; [done|].
    intros Hall. inversion Hall as [|? ? (policy & Hpolicy & _) _]. congruence.
  - intros before entry after alone Husage Hbefore Hentry Halone.
    split.
    + apply not_true_is_false. rewrite patternsIntent_passed, Husage.
      rewrite Forall_app, Forall_cons. tauto.
    + rewrite patternsIntent_js_normal.
      2: { intros e He. rewrite Halone in He. apply list_elem_of_singleton in He as ->.
           apply Hnames. rewrite Husage. set_solver. }
      f_equal. symmetry. apply patternsIntent_usage. rewrite Husage, Halone.
      rewrite usageLoop_skip by done.
      by destruct (usageLoop_violation constitution intent_doc entry after Hentry).
Qed.

(** The precedence example: the override [modal -> confirm] replaces the
    constitution's [modal -> confirm, alert], so (modal, alert) fails, and
    the usages after it play no part. *)
Lemma patterns_rule_on_own_names_witness :
  ∃ rule,
    Taste.patternsIntent_js Fixtures.manifest_three_usages Fixtures.constitution
      Fixtures.design_intent Fixtures.ruleset = Js.Normal rule
    ∧ tr_passed rule = false
    ∧ Taste.patternsIntent_js Fixtures.manifest_invalid Fixtures.constitution
        Fixtures.design_intent Fixtures.ruleset = Js.Normal rule.
Proof.
  destruct (patterns_rule_on_own_names Fixtures.manifest_three_usages
              Fixtures.constitution Fixtures.design_intent Fixtures.ruleset)
    as (rule & Hrule & _ & _ & Hfirst).
  - intros entry Hin. apply not_prototype_name.
    repeat (apply elem_of_cons in Hin as [->|Hin]; [reflexivity|]).
    inversion Hin.
  - exists rule. split; [exact Hrule|].
    apply (Hfirst [ {| pattern := "modal"; intent := "confirm" |} ]
                  {| pattern := "modal"; intent := "alert" |}
                  [ {| pattern := "drawer"; intent := "confirm" |} ]
                  Fixtures.manifest_invalid).
    + reflexivity.
    + constructor; [|constructor]. eexists. split; [reflexivity|].
      split; vm_compute; apply list_elem_of_here.
    + intros (policy & Hpolicy & _ & Hintent). vm_compute in Hintent.
      apply list_elem_of_singleton in Hintent. discriminate.
    + reflexivity.
Defined.

(** C9. With no declared pattern usage the rule passes, whether or not the
    constitution has a patterns policy. *)
Theorem empty_usage_passes manifest constitution intent_doc ruleset :
  patterns_usage (taste manifest) = [] →
  tr_passed (Taste.patternsIntent manifest constitution intent_doc ruleset) = true
  ∧ tr_message (Taste.patternsIntent manifest constitution intent_doc ruleset)
    = "Pattern usage aligns with intent and constitution.".
Proof.
  intros Hempty. unfold Taste.patternsIntent. cbv zeta. by rewrite Hempty.
Qed.

Lemma empty_usage_passes_witness :
  patterns Fixtures.constitution_no_patterns = None
  ∧ tr_passed (Taste.patternsIntent Fixtures.manifest_no_usage
                 Fixtures.constitution_no_patterns Fixtures.design_intent Fixtures.ruleset)
    = true
  ∧ tr_message (Taste.patternsIntent Fixtures.manifest_no_usage
                  Fixtures.constitution_no_patterns Fixtures.design_intent Fixtures.ruleset)
    = "Pattern usage aligns with intent and constitution.".
Proof.
  split; [reflexivity|].
  apply (empty_usage_passes Fixtures.manifest_no_usage Fixtures.constitution_no_patterns
           Fixtures.design_intent Fixtures.ruleset).
  reflexivity.
Defined.

(** ** Rule 7: density *)

(** C6. Without a density limit in the design intent the rule fails with
    the message "Design intent missing density limit.", whatever the
    manifest declares; with a limit, it passes if and only if the declared
    interactions per view do not exceed the limit. *)
Theorem density_rule_outcome manifest intent_doc ruleset :
  let rule := Taste.densityLimit manifest intent_doc ruleset in
  (Spec.densityLimitOf intent_doc = None →
     tr_passed rule = false
     ∧ tr_message rule = "Design intent missing density limit."
     ∧ tr_counterexample rule = Some "Design intent missing density limit.")
  ∧ (∀ limit, Spec.densityLimitOf intent_doc = Some limit →
       (tr_passed rule = true ↔ density_interactions_per_view (taste manifest) <= limit)).
Proof.
  cbv zeta. unfold Taste.densityLimit, Spec.densityLimitOf.
  destruct (intent_density intent_doc) as [[limit|]|]; simpl; split; try done.
  intros ? [= <-]. apply Z.leb_le.
Qed.

Lemma density_rule_outcome_witness :
  (let rule := Taste.densityLimit Fixtures.manifest_valid
                 Fixtures.design_intent_no_density Fixtures.ruleset in
   tr_passed rule = false
   ∧ tr_message rule = "Design intent missing density limit."
   ∧ tr_counterexample rule = Some "Design intent missing density limit.")
  ∧ (tr_passed (Taste.densityLimit Fixtures.manifest_valid Fixtures.design_intent
                  Fixtures.ruleset) = true
     ↔ density_interactions_per_view (taste Fixtures.manifest_valid) <= 5).
Proof.
  split.
  - apply (proj1 (density_rule_outcome Fixtures.manifest_valid
                    Fixtures.design_intent_no_density Fixtures.ruleset)).
    reflexivity.
  - apply (proj2 (density_rule_outcome Fixtures.manifest_valid Fixtures.design_intent
                    Fixtures.ruleset)).
    reflexivity.
Defined.

(** ** Rule 2: typography hierarchy and ranges *)

Lemma declaredRolesLoop_none roleDefs declaredRoles :
  Taste.declaredRolesLoop roleDefs declaredRoles = None
  ↔ ∀ declared, declared ∈ declaredRoles →
      ∃ def, List.find (λ entry, String.eqb (def_name entry) (role declared)) roleDefs
             = Some def
             ∧ def_min def <= size declared <= def_max def.
Proof.
  induction declaredRoles as [|declared rest IH]; simpl.
  - split; [intros _ d Hd; inversion Hd | done].
  - destruct (List.find _ roleDefs) as [def|] eqn:Hdef.
    + destruct (size declared <? def_min def) eqn:Hlow; simpl.
      { split; [done|]. intros Hall.
        destruct (Hall declared (list_elem_of_here _ _)) as (def' & Hdef' & Hrange).
        rewrite Hdef in Hdef'. injection Hdef' as <-. apply Z.ltb_lt in Hlow. lia. }
      destruct (size declared >? def_max def) eqn:Hhigh; simpl.
      { split; [done|]. intros Hall.
        destruct (Hall declared (list_elem_of_here _ _)) as (def' & Hdef' & Hrange).
        rewrite Hdef in Hdef'. injection Hdef' as <-.
        rewrite Z.gtb_ltb in Hhigh. apply Z.ltb_lt in Hhigh. lia. }
      rewrite IH. apply Z.ltb_ge in Hlow.
      rewrite Z.gtb_ltb in Hhigh. apply Z.ltb_ge in Hhigh.
      split.
      * intros Hall d Hd. apply elem_of_cons in Hd as [->|Hd]; [|by apply Hall].
        exists def. split; [done | lia].
      * intros Hall d Hd. apply Hall. by apply list_elem_of_further.
    + split; [done|]. intros Hall.
      destruct (Hall declared (list_elem_of_here _ _)) as (def' & Hdef' & _).
      rewrite Hdef in Hdef'. discriminate.
Qed.

(** After [hierarchy.forEach], [sizeByRole] maps a role of the hierarchy
    to its first declared size, and holds nothing else. *)
Lemma sizeByRoleOf_lookup manifest names (start : gmap string Z) name :
  foldl (λ (sizeByRole : gmap string Z) roleName,
           match List.find (λ entry, String.eqb (role entry) roleName)
                           (typography_roles (taste manifest)) with
           | Some declared => <[roleName := size declared]> sizeByRole
           | None => sizeByRole
           end) start names !! name
  = match (if bool_decide (name ∈ names) then Spec.declaredSize manifest name else None) with
    | Some declared => Some declared
    | None => start !! name
    end.
Proof.
  revert start. induction names as [|roleName names IH]; intros start; simpl.
  - done.
  - rewrite IH. clear IH. unfold Spec.declaredSize.
    destruct (decide (name = roleName)) as [->|Hne].
    + rewrite (bool_decide_eq_true_2 (roleName ∈ roleName :: names))
        by apply list_elem_of_here.
      destruct (List.find _ (typography_roles (taste manifest))) as [declared|]; simpl.
      * rewrite lookup_insert_eq. by case_bool_decide.
      * by case_bool_decide.
    + assert (bool_decide (name ∈ roleName :: names) = bool_decide (name ∈ names)) as ->.
      { apply bool_decide_ext. rewrite elem_of_cons.
        split; [intros [?|?]; [contradiction | done] | by right]. }
      destruct (List.find (λ entry, String.eqb (role entry) roleName) _) as [declared|];
        [rewrite lookup_insert_ne by done|]; done.
Qed.

Lemma sizeByRoleOf_hierarchy manifest names name :
  name ∈ names →
  Taste.sizeByRoleOf (typography_roles (taste manifest)) names !! name
  = Spec.declaredSize manifest name.
Proof.
  intros Hin. unfold Taste.sizeByRoleOf. rewrite sizeByRoleOf_lookup.
  rewrite bool_decide_eq_true_2 by done.
  by destruct (Spec.declaredSize manifest name).
Qed.

Lemma hierarchyLoop_none (sizeByRole : gmap string Z) (names : list string) :
  Taste.hierarchyLoop sizeByRole names = None
  ↔ ∀ (i : nat) earlier later earlierSize laterSize,
      names !! i = Some earlier → names !! S i = Some later →
      sizeByRole !! earlier = Some earlierSize → sizeByRole !! later = Some laterSize →
      laterSize <= earlierSize.
Proof.
  induction names as [|here rest IH].
  - split; [intros _ i ? ? ? ? Hi; inversion Hi | done].
  - destruct rest as [|there rest].
    + split; [intros _ i ? ? ? ? _ Hi; inversion Hi | done].
    + change (Taste.hierarchyLoop sizeByRole (here :: there :: rest))
        with (match sizeByRole !! here, sizeByRole !! there with
              | Some current, Some next =>
                  if current <? next then
                    Some (here +:+ " (" +:+ Js.Number_toString current
                            +:+ ") should not be smaller than "
                            +:+ there +:+ " (" +:+ Js.Number_toString next +:+ ").")
                  else Taste.hierarchyLoop sizeByRole (there :: rest)
              | _, _ => Taste.hierarchyLoop sizeByRole (there :: rest)
              end).
      assert ((∀ (i : nat) earlier later earlierSize laterSize,
                 (here :: there :: rest) !! i = Some earlier →
                 (here :: there :: rest) !! S i = Some later →
                 sizeByRole !! earlier = Some earlierSize →
                 sizeByRole !! later = Some laterSize → laterSize <= earlierSize)
              ↔ (∀ current next, sizeByRole !! here = Some current →
                   sizeByRole !! there = Some next → next <= current)
                ∧ Taste.hierarchyLoop sizeByRole (there :: rest) = None) as ->.
      { rewrite IH. split.
        - intros Hall. split.
          + intros current next Hc Hn. by apply (Hall 0%nat here there).
          + intros i a b sa sb Ha Hb. by apply (Hall (S i) a b).
        - intros [Hhead Htail] [|i] a b sa sb Ha Hb Hsa Hsb; simpl in *.
          + injection Ha as <-. injection Hb as <-. by apply Hhead.
          + by apply (Htail i a b). }
      destruct (sizeByRole !! here) as [current|], (sizeByRole !! there) as [next|];
        try (split; [intros H; split; [done | exact H] | by intros [_ H]]).
      destruct (current <? next) eqn:Hlt.
      * apply Z.ltb_lt in Hlt. split; [done|]. intros [Hhead _].
        specialize (Hhead current next eq_refl eq_refl). lia.
      * apply Z.ltb_ge in Hlt. split; [intros H; split; [|exact H] | by intros [_ H]].
        by intros ? ? [= <-] [= <-].
Qed.

Lemma hierarchyRespected_loop manifest constitution :
  Taste.hierarchyLoop
    (Taste.sizeByRoleOf (typography_roles (taste manifest))
       (hierarchy (typography constitution)))
    (hierarchy (typography constitution)) = None
  ↔ Spec.hierarchyRespected manifest constitution.
Proof.
  rewrite hierarchyLoop_none. unfold Spec.hierarchyRespected.
  split; intros Hall i a b sa sb Ha Hb Hsa Hsb; apply (Hall i a b sa sb Ha Hb).
  - rewrite sizeByRoleOf_hierarchy; [done | by eapply list_elem_of_lookup_2].
  - rewrite sizeByRoleOf_hierarchy; [done | by eapply list_elem_of_lookup_2].
  - rewrite sizeByRoleOf_hierarchy in Hsa; [done | by eapply list_elem_of_lookup_2].
  - rewrite sizeByRoleOf_hierarchy in Hsb; [done | by eapply list_elem_of_lookup_2].
Qed.

(** A hierarchy of at most one role has no adjacent pair. *)
Lemma hierarchyLoop_short (sizeByRole : gmap string Z) (names : list string) :
  (1 <? length names)%nat = false → Taste.hierarchyLoop sizeByRole names = None.
Proof.
  destruct names as [|here [|there rest]]; [done | done | discriminate].
Qed.

(** C5. [typography.hierarchy.rule] passes if and only if every declared
    role is defined in the constitution's role table with its size inside
    the role's range, and, for every two adjacent names of the hierarchy
    that are both declared, the earlier one's declared size is at least the
    later one's; a name of the hierarchy that is not declared constrains
    nothing.  With hierarchy h1, body and declared sizes h1 = 16, body = 20
    the rule fails, naming h1 (16) and body (20). *)
Theorem hierarchy_rule_outcome :
  (∀ manifest constitution ruleset,
     tr_passed (Taste.typographyHierarchy manifest constitution ruleset) = true
     ↔ (∀ declared, declared ∈ typography_roles (taste manifest) →
          ∃ def, List.find (λ entry, String.eqb (def_name entry) (role declared))
                            (typography_role_defs (typography constitution)) = Some def
                 ∧ def_min def <= size declared <= def_max def)
       ∧ (∀ (i : nat) earlier later earlierSize laterSize,
            hierarchy (typography constitution) !! i = Some earlier →
            hierarchy (typography constitution) !! S i = Some later →
            Spec.declaredSize manifest earlier = Some earlierSize →
            Spec.declaredSize manifest later = Some laterSize →
            earlierSize >= laterSize))
  ∧ (let rule := Taste.typographyHierarchy Fixtures.manifest_inverted Fixtures.constitution
                   Fixtures.ruleset in
     hierarchy (typography Fixtures.constitution) = ["h1"; "body"]
     ∧ Spec.declaredSize Fixtures.manifest_inverted "h1" = Some 16
     ∧ Spec.declaredSize Fixtures.manifest_inverted "body" = Some 20
     ∧ tr_passed rule = false
     ∧ tr_counterexample rule = Some "h1 (16) should not be smaller than body (20).").
Proof.
  split; [|by vm_compute].
  intros manifest constitution ruleset.
  assert ((∀ (i : nat) earlier later earlierSize laterSize,
             hierarchy (typography constitution) !! i = Some earlier →
             hierarchy (typography constitution) !! S i = Some later →
             Spec.declaredSize manifest earlier = Some earlierSize →
             Spec.declaredSize manifest later = Some laterSize →
             earlierSize >= laterSize)
          ↔ Spec.hierarchyRespected manifest constitution) as ->.
  { unfold Spec.hierarchyRespected.
    split; intros Hall i a b sa sb Ha Hb Hsa Hsb;
      specialize (Hall i a b sa sb Ha Hb Hsa Hsb); lia. }
  rewrite <- declaredRolesLoop_none, <- hierarchyRespected_loop.
  unfold Taste.typographyHierarchy. cbv zeta. unfold Taste.buildResult, tr_passed.
  destruct (Taste.declaredRolesLoop _ _) as [broken|].
  - split; [done | by intros [? _]].
  - destruct (1 <? length (hierarchy (typography constitution)))%nat eqn:Hlong.
    + destruct (Taste.hierarchyLoop _ _); split; try done. by intros [_ ?].
    + rewrite (hierarchyLoop_short _ _ Hlong). done.
Qed.

(** ** Rule 8: consistency, allowed values *)

Lemma checkAllowedValues_none band values :
  Taste.checkAllowedValues band values = None
  ↔ ∀ declared, declared ∈ values → Spec.allowedByStringForm band declared.
Proof.
  unfold Taste.checkAllowedValues, Spec.allowedByStringForm. cbv zeta.
  destruct (List.find _ values) as [invalid|] eqn:Hfind.
  - split; [done|]. intros Hall. exfalso.
    apply find_some_elem in Hfind as [Hin Hnot].
    destruct (Hall invalid Hin) as (allowed & Hallowed & Hform).
    apply negb_true_iff, not_true_iff_false in Hnot. apply Hnot.
    apply Set_has_from, list_elem_of_fmap. by exists allowed.
  - split; [|done]. intros _ declared Hin.
    rewrite find_none_forall in Hfind. specialize (Hfind declared Hin).
    apply negb_false_iff, Set_has_from, list_elem_of_fmap in Hfind
      as (allowed & Hform & Hallowed).
    by exists allowed.
Qed.

(** An error of [checkAllowedValues] is never the empty string, so [||]
    keeps it. *)
Lemma checkAllowedValues_truthy band values :
  Js.truthy (Taste.checkAllowedValues band values)
  = match Taste.checkAllowedValues band values with Some _ => true | None => false end.
Proof.
  unfold Taste.checkAllowedValues. cbv zeta.
  destruct (List.find _ values) as [invalid|]; [|done].
  unfold Js.truthy. apply negb_true_iff, String.eqb_neq. intros Hempty.
  apply append_empty_inv in Hempty as [_ Hempty]. discriminate.
Qed.

(** The rule's verdict in terms of [checkAllowedValues] on the three axes. *)
Lemma consistencyAllowed_passed manifest constitution ruleset :
  tr_passed (Taste.consistencyAllowed manifest constitution ruleset) = true
  ↔ Taste.checkAllowedValues (band_radius constitution) (Taste.radiusValues manifest) = None
    ∧ Taste.checkAllowedValues (band_elevation constitution)
        (Taste.elevationValues manifest) = None
    ∧ Taste.checkAllowedValues (band_motion constitution) (Taste.motionValues manifest)
      = None.
Proof.
  unfold Taste.consistencyAllowed. cbv zeta. unfold Taste.buildResult, tr_passed, Js.or_.
  pose proof (checkAllowedValues_truthy (band_radius constitution)
                (Taste.radiusValues manifest)) as Hradius.
  pose proof (checkAllowedValues_truthy (band_elevation constitution)
                (Taste.elevationValues manifest)) as Helevation.
  pose proof (checkAllowedValues_truthy (band_motion constitution)
                (Taste.motionValues manifest)) as Hmotion.
  destruct (Taste.checkAllowedValues (band_radius constitution) _) as [radiusError|].
  { repeat (rewrite Hradius; cbv iota). split; [done | by intros [? _]]. }
  repeat (rewrite Hradius; cbv iota).
  destruct (Taste.checkAllowedValues (band_elevation constitution) _) as [elevationError|].
  { repeat (rewrite Helevation; cbv iota). split; [done | by intros (_ & ? & _)]. }
  repeat (rewrite Helevation; cbv iota).
  destruct (Taste.checkAllowedValues (band_motion constitution) _) as [motionError|].
  { repeat (rewrite Hmotion; cbv iota). split; [done | by intros (_ & _ & ?)]. }
  repeat (rewrite Hmotion; cbv iota).
  done.
Qed.

(** C10. [checkAllowedValues] accepts a list of declared values if and
    only if each of them has the string form of some value of the band's
    allowed set, where the string form is what [String] gives: a string is
    its own string form, a number has the form [Number::toString] gives it.
    So the number 8 is accepted by a band that lists the string "8", and the
    string "8" by a band that lists the number 8; and the number 1e21, whose
    string form is "1e+21", is accepted by a band that lists that string and
    not by one that lists its 22 digits.
    [consistency.allowed.rule] passes if and only if this holds of each
    radius the manifest declares against the radius band, of each elevation
    against the elevation band and of each motion value against the motion
    band. *)
Theorem allowed_values_by_string_form :
  (∀ band values,
     Taste.checkAllowedValues band values = None
     ↔ ∀ declared, declared ∈ values →
         ∃ allowed, allowed ∈ default [] (allowed_values band)
                    ∧ Js.String_ allowed = Js.String_ declared)
  ∧ (∀ manifest constitution ruleset,
       tr_passed (Taste.consistencyAllowed manifest constitution ruleset) = true
       ↔ (∀ radius, radius ∈ consistency_radius (taste manifest) →
            ∃ allowed, allowed ∈ default [] (allowed_values (band_radius constitution))
                       ∧ Js.String_ allowed = Js.String_ (Js.Num radius))
         ∧ (∀ elevation, elevation ∈ consistency_elevation (taste manifest) →
              ∃ allowed, allowed ∈ default [] (allowed_values (band_elevation constitution))
                         ∧ Js.String_ allowed = Js.String_ (Js.Num elevation))
         ∧ (∀ motion, motion ∈ consistency_motion (taste manifest) →
              ∃ allowed, allowed ∈ default [] (allowed_values (band_motion constitution))
                         ∧ Js.String_ allowed = Js.String_ (Js.Str motion)))
  ∧ (∀ s, Js.String_ (Js.Str s) = s)
  ∧ Js.String_ (Js.Num 8) = "8"
  ∧ Js.String_ (Js.Num (-8)) = "-8"
  ∧ Js.String_ (Js.Num 1000000000000000000000) = "1e+21"
  ∧ Js.String_ (Js.Num 18446744073709551616) = "18446744073709552000"
  ∧ Taste.checkAllowedValues
      {| allowed_values := Some [Js.Str "8"]; max_variance := None |} [Js.Num 8] = None
  ∧ Taste.checkAllowedValues
      {| allowed_values := Some [Js.Num 8]; max_variance := None |} [Js.Str "8"] = None
  ∧ Taste.checkAllowedValues
      {| allowed_values := Some [Js.Num 8]; max_variance := None |} [Js.Num 80]
    = Some "80 not in allowed set: 8"
  ∧ Taste.checkAllowedValues
      {| allowed_values := Some [Js.Str "1e+21"]; max_variance := None |}
      [Js.Num 1000000000000000000000] = None
  ∧ Taste.checkAllowedValues
      {| allowed_values := Some [Js.Str "1000000000000000000000"]; max_variance := None |}
      [Js.Num 1000000000000000000000]
    = Some "1e+21 not in allowed set: 1000000000000000000000".
Proof.
  split; [exact checkAllowedValues_none|].
  split; [|by vm_compute].
  intros manifest constitution ruleset.
  rewrite consistencyAllowed_passed, !checkAllowedValues_none.
  unfold Taste.radiusValues, Taste.elevationValues, Taste.motionValues,
    Spec.allowedByStringForm.
  split.
  - intros (Hradius & Helevation & Hmotion). split; [|split].
    + intros radius Hin. apply Hradius, list_elem_of_fmap. by exists radius.
    + intros elevation Hin. apply Helevation, list_elem_of_fmap. by exists elevation.
    + intros motion Hin. apply Hmotion, list_elem_of_fmap. by exists motion.
  - intros (Hradius & Helevation & Hmotion). split; [|split].
    + intros declared (radius & -> & Hin)%list_elem_of_fmap. by apply Hradius.
    + intros declared (elevation & -> & Hin)%list_elem_of_fmap. by apply Helevation.
    + intros declared (motion & -> & Hin)%list_elem_of_fmap. by apply Hmotion.
Qed.

(** * Further properties of the code *)

(** ** Taste reports *)

Lemma evaluateTaste_returns host now manifest constitution intent_doc options report :
  Taste.evaluateTaste host now manifest constitution intent_doc options = Some report →
  ∃ ruleset,
    Taste.loadRuleset host (rulesetPath options) = Some ruleset
    ∧ report
      = Taste.finalReport now manifest ruleset
          (if default true (failFast options) && negb (default false (verbose options))
           then Spec.throughFirstFailure
                  (Spec.allResults manifest constitution intent_doc ruleset)
           else Spec.allResults manifest constitution intent_doc ruleset).
Proof.
  rewrite evaluateTaste_runs.
  destruct (Taste.loadRuleset host (rulesetPath options)) as [ruleset|]; [|done].
  cbn [mbind option_bind]. intros Hreport. apply (inj Some) in Hreport.
  by exists ruleset.
Qed.

Lemma throughFirstFailure_prefix (rules : list TasteRuleResult) :
  Spec.throughFirstFailure rules `prefix_of` rules.
Proof.
  induction rules as [|rule rules IH]; simpl; [done|].
  destruct (tr_passed rule).
  - by apply prefix_cons.
  - by exists rules.
Qed.

(** Cutting after the first failure keeps the first failing rule only. *)
Lemma throughFirstFailure_failing (rules : list TasteRuleResult) :
  Spec.failingTaste (Spec.throughFirstFailure rules) = take 1 (Spec.failingTaste rules).
Proof.
  induction rules as [|rule rules IH]; simpl; [done|].
  destruct (tr_passed rule) eqn:Hrule; simpl; rewrite Hrule; simpl.
  - exact IH.
  - by rewrite take_0.
Qed.

Lemma throughFirstFailure_last (rules : list TasteRuleResult) :
  Spec.failingTaste rules ≠ [] →
  last (Spec.throughFirstFailure rules) = head (Spec.failingTaste rules).
Proof.
  induction rules as [|rule rules IH]; simpl; [done|].
  destruct (tr_passed rule) eqn:Hrule; simpl; [|done].
  intros Hfail. rewrite <- IH by done.
  destruct (Spec.throughFirstFailure rules) eqn:Hcut; [|done].
  destruct rules as [|next rules]; [done|]. simpl in Hcut. by destruct (tr_passed next).
Qed.

Lemma throughFirstFailure_head (rules : list TasteRuleResult) :
  head (Spec.throughFirstFailure rules) = head rules.
Proof. destruct rules as [|rule rules]; simpl; [done|]. by destruct (tr_passed rule). Qed.

Lemma head_map {A B : Type} (f : A → B) (l : list A) : head (map f l) = f <$> head l.
Proof. by destruct l. Qed.

Lemma prefix_fmap {A B : Type} (f : A → B) (l k : list A) :
  l `prefix_of` k → map f l `prefix_of` map f k.
Proof. intros [rest ->]. rewrite map_app. by eexists. Qed.

(** X1. The rules of a returned taste report are an initial segment of the
    fixed catalogue: their ids are a non-empty prefix of the ten rule ids,
    in evaluation order, whatever the documents and options. *)
Theorem taste_rule_ids_prefix host now manifest constitution intent_doc options report :
  Taste.evaluateTaste host now manifest constitution intent_doc options = Some report →
  map tr_id (tt_rules report) `prefix_of` Spec.tasteRuleIds
  ∧ head (map tr_id (tt_rules report)) = Some "typography.max-sizes.rule"
  ∧ (1 <= length (tt_rules report) <= 10)%nat.
Proof.
  intros Hreport.
  destruct (evaluateTaste_returns _ _ _ _ _ _ _ Hreport) as (ruleset & _ & ->).
  unfold Taste.finalReport, tt_rules.
  pose proof (allResults_ids manifest constitution intent_doc ruleset) as Hids.
  pose proof (throughFirstFailure_prefix
                (Spec.allResults manifest constitution intent_doc ruleset)) as Hprefix.
  assert (head (map tr_id (Spec.throughFirstFailure
                             (Spec.allResults manifest constitution intent_doc ruleset)))
          = Some "typography.max-sizes.rule") as Hhead.
  { rewrite head_map, throughFirstFailure_head, <- head_map, Hids. done. }
  destruct (default true (failFast options) && negb (default false (verbose options))).
  - split; [|split; [exact Hhead|]].
    + rewrite <- Hids. by apply prefix_fmap.
    + apply prefix_length in Hprefix. split; [|exact Hprefix].
      destruct (Spec.throughFirstFailure _); [discriminate | simpl; lia].
  - rewrite Hids. split; [done|]. split; [done|].
    unfold Spec.allResults. simpl. lia.
Qed.

Lemma taste_rule_ids_prefix_witness :
  ∃ report,
    Taste.evaluateTaste Fixtures.tasteHost "2024-05-01T00:00:00.000Z"
      Fixtures.manifest_valid Fixtures.constitution_tight_radius Fixtures.design_intent
      (Fixtures.options None None) = Some report
    ∧ map tr_id (tt_rules report) `prefix_of` Spec.tasteRuleIds
    ∧ head (map tr_id (tt_rules report)) = Some "typography.max-sizes.rule"
    ∧ (1 <= length (tt_rules report) <= 10)%nat.
Proof.
  eexists. split; [vm_compute; reflexivity|].
  apply (taste_rule_ids_prefix Fixtures.tasteHost "2024-05-01T00:00:00.000Z"
           Fixtures.manifest_valid Fixtures.constitution_tight_radius
           Fixtures.design_intent (Fixtures.options None None)).
  vm_compute. reflexivity.
Defined.

Ltac by_passed_flag :=
  cbv zeta; unfold Taste.buildResult; cbn [tr_counterexample tr_passed tr_message];
  match goal with
  | |- context [if ?flag then None else _] => destruct flag
  end; reflexivity.

(** Every rule of the catalogue carries a counterexample exactly when it
    fails, and the counterexample repeats the message. *)
Lemma allResults_counterexample manifest constitution intent_doc ruleset :
  Forall (λ rule, tr_counterexample rule
                  = if tr_passed rule then None else Some (tr_message rule))
         (Spec.allResults manifest constitution intent_doc ruleset).
Proof.
  unfold Spec.allResults. repeat apply Forall_cons_2; [..|apply Forall_nil_2].
  - unfold Taste.typographyMaxSizes. by_passed_flag.
  - unfold Taste.typographyHierarchy. by_passed_flag.
  - unfold Taste.spacingAllowedValues. by_passed_flag.
  - unfold Taste.spacingVariance. by_passed_flag.
  - unfold Taste.colorAllowed. by_passed_flag.
  - unfold Taste.colorContrast. by_passed_flag.
  - unfold Taste.densityLimit. destruct (intent_density intent_doc ≫= id); [|done].
    by_passed_flag.
  - unfold Taste.consistencyAllowed. by_passed_flag.
  - unfold Taste.consistencyVariance. by_passed_flag.
  - unfold Taste.patternsIntent. by_passed_flag.
Qed.

Lemma report_rules_in_catalogue manifest constitution intent_doc ruleset (cut : bool) rule :
  rule ∈ (if cut
          then Spec.throughFirstFailure
                 (Spec.allResults manifest constitution intent_doc ruleset)
          else Spec.allResults manifest constitution intent_doc ruleset) →
  rule ∈ Spec.allResults manifest constitution intent_doc ruleset.
Proof.
  destruct cut; [|done]. intros Hin.
  destruct (throughFirstFailure_prefix
              (Spec.allResults manifest constitution intent_doc ruleset)) as [rest Hrest].
  rewrite Hrest. apply elem_of_app. by left.
Qed.

(** X2. In a returned taste report a rule has a counterexample if and only
    if it failed, and the counterexample is then the rule's message; a rule
    that passed has none. *)
Theorem taste_counterexample_iff_failed host now manifest constitution intent_doc
    options report :
  Taste.evaluateTaste host now manifest constitution intent_doc options = Some report →
  ∀ rule, rule ∈ tt_rules report →
    (tr_passed rule = true → tr_counterexample rule = None)
    ∧ (tr_passed rule = false → tr_counterexample rule = Some (tr_message rule)).
Proof.
  intros Hreport rule Hin.
  destruct (evaluateTaste_returns _ _ _ _ _ _ _ Hreport) as (ruleset & _ & ->).
  unfold Taste.finalReport, tt_rules in Hin.
  apply report_rules_in_catalogue in Hin.
  pose proof (allResults_counterexample manifest constitution intent_doc ruleset) as Hall.
  rewrite Forall_forall in Hall. specialize (Hall rule Hin).
  rewrite Hall. by split; intros ->.
Qed.

Lemma taste_counterexample_iff_failed_witness :
  ∃ report,
    Taste.evaluateTaste Fixtures.tasteHost "2024-05-01T00:00:00.000Z"
      Fixtures.manifest_invalid Fixtures.constitution Fixtures.design_intent
      (Fixtures.options None (Some true)) = Some report
    ∧ ∀ rule, rule ∈ tt_rules report →
        (tr_passed rule = true → tr_counterexample rule = None)
        ∧ (tr_passed rule = false → tr_counterexample rule = Some (tr_message rule)).
Proof.
  eexists. split; [vm_compute; reflexivity|].
  apply (taste_counterexample_iff_failed Fixtures.tasteHost "2024-05-01T00:00:00.000Z"
           Fixtures.manifest_invalid Fixtures.constitution Fixtures.design_intent
           (Fixtures.options None (Some true))).
  vm_compute. reflexivity.
Defined.

(** Every rule of the catalogue is built from the metadata looked up under
    its own id. *)
Lemma allResults_metadata manifest constitution intent_doc ruleset :
  Forall (λ rule,
            let meta := Taste.getRuleMeta (tr_id rule) ruleset in
            tr_description rule = meta_description meta
            ∧ tr_clause rule = meta_clause meta
            ∧ tr_intent_reference rule = meta_intent_reference meta
            ∧ tr_remediation rule = meta_remediation meta)
         (Spec.allResults manifest constitution intent_doc ruleset).
Proof.
  assert (∀ id passed message counterexample,
            let rule := Taste.buildResult (Taste.getRuleMeta id ruleset) passed message
                          counterexample in
            let meta := Taste.getRuleMeta (tr_id rule) ruleset in
            tr_description rule = meta_description meta
            ∧ tr_clause rule = meta_clause meta
            ∧ tr_intent_reference rule = meta_intent_reference meta
            ∧ tr_remediation rule = meta_remediation meta) as Hbuilt.
  { intros id passed message counterexample. cbv zeta.
    unfold Taste.buildResult; cbn [tr_id tr_description tr_clause tr_intent_reference
                                     tr_remediation].
    by rewrite getRuleMeta_id. }
  unfold Spec.allResults. repeat apply Forall_cons_2; [..|apply Forall_nil_2];
    try apply Hbuilt.
  unfold Taste.densityLimit. destruct (intent_density intent_doc ≫= id); apply Hbuilt.
Qed.

(** X3. A returned taste report echoes the version of the ruleset it
    loaded, and each of its rules carries the description, clause, intent
    reference and remediation of the ruleset's first entry with the rule's
    id, or the placeholder metadata when the ruleset has no such entry. *)
Theorem taste_rule_metadata host now manifest constitution intent_doc options report :
  Taste.evaluateTaste host now manifest constitution intent_doc options = Some report →
  ∃ ruleset,
    Taste.loadRuleset host (rulesetPath options) = Some ruleset
    ∧ tt_ruleset_version report = ruleset_version ruleset
    ∧ ∀ rule, rule ∈ tt_rules report →
        match List.find (λ entry, String.eqb (meta_id entry) (tr_id rule))
                        (ruleset_rules ruleset) with
        | Some entry =>
            tr_description rule = meta_description entry
            ∧ tr_clause rule = meta_clause entry
            ∧ tr_intent_reference rule = meta_intent_reference entry
            ∧ tr_remediation rule = meta_remediation entry
        | None =>
            tr_description rule = "Rule metadata not found; update ruleset."
            ∧ tr_clause rule = "unspecified"
            ∧ tr_intent_reference rule = "unspecified"
            ∧ tr_remediation rule = "Review rule definition."
        end.
Proof.
  intros Hreport.
  destruct (evaluateTaste_returns _ _ _ _ _ _ _ Hreport) as (ruleset & Hload & ->).
  exists ruleset. split; [done|]. split; [done|].
  intros rule Hin. unfold Taste.finalReport, tt_rules in Hin.
  apply report_rules_in_catalogue in Hin.
  pose proof (allResults_metadata manifest constitution intent_doc ruleset) as Hall.
  rewrite Forall_forall in Hall. specialize (Hall rule Hin). cbv zeta in Hall.
  unfold Taste.getRuleMeta in Hall.
  by destruct (List.find _ (ruleset_rules ruleset)).
Qed.

Lemma taste_rule_metadata_witness :
  ∃ report ruleset,
    Taste.evaluateTaste Fixtures.tasteHost "2024-05-01T00:00:00.000Z"
      Fixtures.manifest_invalid Fixtures.constitution Fixtures.design_intent
      (Fixtures.options None (Some true)) = Some report
    ∧ Taste.loadRuleset Fixtures.tasteHost None = Some ruleset
    ∧ tt_ruleset_version report = ruleset_version ruleset
    ∧ ∀ rule, rule ∈ tt_rules report →
        match List.find (λ entry, String.eqb (meta_id entry) (tr_id rule))
                        (ruleset_rules ruleset) with
        | Some entry =>
            tr_description rule = meta_description entry
            ∧ tr_clause rule = meta_clause entry
            ∧ tr_intent_reference rule = meta_intent_reference entry
            ∧ tr_remediation rule = meta_remediation entry
        | None =>
            tr_description rule = "Rule metadata not found; update ruleset."
            ∧ tr_clause rule = "unspecified"
            ∧ tr_intent_reference rule = "unspecified"
            ∧ tr_remediation rule = "Review rule definition."
        end.
Proof.
  destruct (taste_rule_metadata Fixtures.tasteHost "2024-05-01T00:00:00.000Z"
              Fixtures.manifest_invalid Fixtures.constitution Fixtures.design_intent
              (Fixtures.options None (Some true)) _ eq_refl)
    as (ruleset & Hload & Hrest).
  eexists _, ruleset. split; [reflexivity|]. split; [exact Hload|]. exact Hrest.
Defined.

(** X4. A taste report with status "passed" is never truncated: it holds
    all ten rules, in catalogue order, and each of them passed, whatever
    [failFast] and [verbose] are. *)
Theorem passed_taste_report_is_complete host now manifest constitution intent_doc
    options report :
  Taste.evaluateTaste host now manifest constitution intent_doc options = Some report →
  tt_status report = Passed →
  map tr_id (tt_rules report) = Spec.tasteRuleIds
  ∧ length (tt_rules report) = 10%nat
  ∧ (∀ rule, rule ∈ tt_rules report → tr_passed rule = true)
  ∧ tt_errors report = [].
Proof.
  intros Hreport Hpassed.
  destruct (evaluateTaste_returns _ _ _ _ _ _ _ Hreport) as (ruleset & _ & ->).
  unfold Taste.finalReport, tt_rules, tt_status, tt_errors in *.
  set (catalogue := Spec.allResults manifest constitution intent_doc ruleset) in *.
  set (rules := if default true (failFast options) && negb (default false (verbose options))
                then Spec.throughFirstFailure catalogue else catalogue) in *.
  assert (List.filter (λ rule, negb (tr_passed rule)) rules = []) as Hnone.
  { apply failing_empty_iff. by destruct (length _ =? 0)%nat. }
  assert (∀ rule, rule ∈ rules → tr_passed rule = true) as Hall.
  { intros rule Hin. destruct (tr_passed rule) eqn:Hrule; [done|]. exfalso.
    assert (List.In rule (List.filter (λ r, negb (tr_passed r)) rules)) as Hbad.
    { apply List.filter_In. split; [by apply list_elem_of_In | by rewrite Hrule]. }
    rewrite Hnone in Hbad. inversion Hbad. }
  assert (rules = catalogue) as Hrules.
  { subst rules.
    destruct (default true (failFast options) && negb (default false (verbose options)));
      [|done].
    destruct (forallb tr_passed catalogue) eqn:Hcat.
    - by apply throughFirstFailure_all_pass.
    - exfalso. apply not_true_iff_false in Hcat. apply Hcat.
      apply forallb_forall. intros rule Hin.
      assert (∃ front failing rest, catalogue = front ++ failing :: rest
                ∧ forallb tr_passed front = true ∧ tr_passed failing = false)
        as (front & failing & rest & Hsplit & Hfront & Hfailing).
      { clear -Hcat. induction catalogue as [|x l IH]; [done|].
        destruct (tr_passed x) eqn:Hx.
        - destruct IH as (front & failing & rest & -> & Hfront & Hfailing).
          { intros Hl. apply Hcat. simpl. by rewrite Hx. }
          exists (x :: front), failing, rest. simpl. by rewrite Hx.
        - by exists [], x, l. }
      specialize (Hall failing). rewrite Hsplit in Hall.
      rewrite throughFirstFailure_app_fail in Hall by done.
      rewrite Hall in Hfailing; [done|]. apply elem_of_app. right. apply list_elem_of_here. }
  rewrite Hrules in *. split; [apply allResults_ids|]. split; [done|]. by split.
Qed.

Lemma passed_taste_report_is_complete_witness :
  ∃ report,
    Taste.evaluateTaste Fixtures.tasteHost "2024-05-01T00:00:00.000Z"
      Fixtures.manifest_valid Fixtures.constitution Fixtures.design_intent
      (Fixtures.options None None) = Some report
    ∧ map tr_id (tt_rules report) = Spec.tasteRuleIds
    ∧ length (tt_rules report) = 10%nat
    ∧ (∀ rule, rule ∈ tt_rules report → tr_passed rule = true)
    ∧ tt_errors report = [].
Proof.
  eexists. split; [vm_compute; reflexivity|].
  apply (passed_taste_report_is_complete Fixtures.tasteHost "2024-05-01T00:00:00.000Z"
           Fixtures.manifest_valid Fixtures.constitution Fixtures.design_intent
           (Fixtures.options None None)).
  - vm_compute. reflexivity.
  - reflexivity.
Defined.

Lemma not_fail_fast (options : TasteEvaluationOptions) :
  default true (failFast options) = false ∨ default false (verbose options) = true →
  default true (failFast options) && negb (default false (verbose options)) = false.
Proof. intros [-> | ->]; [done | apply andb_false_r]. Qed.

(** X5. Failing fast never changes the verdict.  On the same documents and
    ruleset, the fail-fast report has the status of the full report
    ([verbose], or [failFast = false]); its rules are an initial segment of
    the full report's rules; its errors are the first error of the full
    report, if any; and when it failed, its last rule is that first error. *)
Theorem fail_fast_agrees_with_full host now manifest constitution intent_doc
    fast_options full_options full :
  rulesetPath fast_options = rulesetPath full_options →
  default true (failFast fast_options) = true →
  default false (verbose fast_options) = false →
  default true (failFast full_options) = false
  ∨ default false (verbose full_options) = true →
  Taste.evaluateTaste host now manifest constitution intent_doc full_options = Some full →
  ∃ short,
    Taste.evaluateTaste host now manifest constitution intent_doc fast_options = Some short
    ∧ tt_status short = tt_status full
    ∧ tt_rules short `prefix_of` tt_rules full
    ∧ tt_errors short = take 1 (tt_errors full)
    ∧ (tt_status short = Failed → last (tt_rules short) = head (tt_errors full)).
Proof.
  intros Hpath Hfast Hquiet Hfull Hreport.
  destruct (evaluateTaste_returns _ _ _ _ _ _ _ Hreport) as (ruleset & Hload & ->).
  rewrite (not_fail_fast _ Hfull).
  rewrite evaluateTaste_runs, Hpath, Hload, Hfast, Hquiet. cbn [mbind option_bind negb andb].
  eexists. split; [reflexivity|].
  unfold Taste.finalReport, tt_status, tt_rules, tt_errors.
  set (catalogue := Spec.allResults manifest constitution intent_doc ruleset).
  fold (Spec.failingTaste (Spec.throughFirstFailure catalogue)).
  fold (Spec.failingTaste catalogue).
  rewrite throughFirstFailure_failing.
  split; [|split; [apply throughFirstFailure_prefix | split; [done|]]].
  - by destruct (Spec.failingTaste catalogue).
  - intros Hfailed. apply throughFirstFailure_last.
    intros Hnone. by rewrite Hnone in Hfailed.
Qed.

Lemma fail_fast_agrees_with_full_witness :
  ∃ full short,
    Taste.evaluateTaste Fixtures.tasteHost "2024-05-01T00:00:00.000Z"
      Fixtures.manifest_invalid Fixtures.constitution Fixtures.design_intent
      (Fixtures.options (Some false) None) = Some full
    ∧ length (tt_errors full) = 3%nat
    ∧ Taste.evaluateTaste Fixtures.tasteHost "2024-05-01T00:00:00.000Z"
        Fixtures.manifest_invalid Fixtures.constitution Fixtures.design_intent
        (Fixtures.options None None) = Some short
    ∧ tt_status short = tt_status full
    ∧ tt_rules short `prefix_of` tt_rules full
    ∧ tt_errors short = take 1 (tt_errors full)
    ∧ (tt_status short = Failed → last (tt_rules short) = head (tt_errors full)).
Proof.
  eexists.
  destruct (fail_fast_agrees_with_full Fixtures.tasteHost "2024-05-01T00:00:00.000Z"
              Fixtures.manifest_invalid Fixtures.constitution Fixtures.design_intent
              (Fixtures.options None None) (Fixtures.options (Some false) None) _
              eq_refl eq_refl eq_refl (or_introl eq_refl) eq_refl)
    as (short & Hshort & Hrest).
  exists short. split; [reflexivity|]. split; [reflexivity|]. split; [exact Hshort|].
  exact Hrest.
Defined.

(** X6. [failFast = false] and [verbose = true] are interchangeable: any
    two option sets that name the same ruleset and do not fail fast give the
    same result. *)
Theorem no_fail_fast_is_verbose host now manifest constitution intent_doc
    options options' :
  rulesetPath options = rulesetPath options' →
  default true (failFast options) = false ∨ default false (verbose options) = true →
  default true (failFast options') = false ∨ default false (verbose options') = true →
  Taste.evaluateTaste host now manifest constitution intent_doc options
  = Taste.evaluateTaste host now manifest constitution intent_doc options'.
Proof.
  intros Hpath Hfull Hfull'.
  by rewrite !evaluateTaste_runs, Hpath, (not_fail_fast _ Hfull), (not_fail_fast _ Hfull').
Qed.

Lemma no_fail_fast_is_verbose_witness :
  Taste.evaluateTaste Fixtures.tasteHost "2024-05-01T00:00:00.000Z"
    Fixtures.manifest_invalid Fixtures.constitution Fixtures.design_intent
    (Fixtures.options (Some false) None)
  = Taste.evaluateTaste Fixtures.tasteHost "2024-05-01T00:00:00.000Z"
      Fixtures.manifest_invalid Fixtures.constitution Fixtures.design_intent
      (Fixtures.options (Some true) (Some true)).
Proof.
  apply (no_fail_fast_is_verbose Fixtures.tasteHost "2024-05-01T00:00:00.000Z"
           Fixtures.manifest_invalid Fixtures.constitution Fixtures.design_intent
           (Fixtures.options (Some false) None) (Fixtures.options (Some true) (Some true))).
  - reflexivity.
  - left. reflexivity.
  - right. reflexivity.
Defined.

(** ** Rule metadata *)

(** X7. [getRuleMeta] never fails and always answers under the id it was
    asked for: the ruleset's first entry with that id when there is one,
    and otherwise the placeholder, which is what an empty ruleset gives for
    every id. *)
Theorem getRuleMeta_tolerant id ruleset :
  let meta := Taste.getRuleMeta id ruleset in
  meta_id meta = id
  ∧ ((∃ before after,
        ruleset_rules ruleset = before ++ meta :: after
        ∧ ∀ entry, entry ∈ before → meta_id entry ≠ id)
     ∨ ((∀ entry, entry ∈ ruleset_rules ruleset → meta_id entry ≠ id)
        ∧ meta = {| meta_id := id;
                    meta_description := "Rule metadata not found; update ruleset.";
                    meta_clause := "unspecified";
                    meta_intent_reference := "unspecified";
                    meta_remediation := "Review rule definition." |})).
Proof.
  cbv zeta. split; [apply getRuleMeta_id|].
  unfold Taste.getRuleMeta.
  destruct (List.find _ (ruleset_rules ruleset)) as [found|] eqn:Hfind.
  - left. apply find_some_split in Hfind as (before & after & Hrules & Hbefore & _).
    exists before, after. split; [done|].
    intros entry Hin. apply String.eqb_neq. by apply Hbefore.
  - right. split; [|done]. rewrite find_none_forall in Hfind.
    intros entry Hin. apply String.eqb_neq. by apply Hfind.
Qed.

(** ** Rule 1: the number of font sizes *)

Section SetMoreFacts.
Context {A : Type} `{EqDecision A}.

Lemma Set_foldl_NoDup (xs s : list A) : NoDup s → NoDup (foldl Js.Set_.add s xs).
Proof.
  revert s. induction xs as [|x xs IH]; intros s Hs; simpl; [done|].
  apply IH. unfold Js.Set_.add. case_bool_decide; [done|].
  apply NoDup_app. split; [done|]. split; [|apply NoDup_singleton].
  intros y Hy Hyx. apply list_elem_of_singleton in Hyx. by subst.
Qed.

(** [new Set(xs)] holds each element of [xs] once. *)
Lemma Set_from_NoDup (xs : list A) : NoDup (Js.Set_.from xs).
Proof. apply Set_foldl_NoDup, NoDup_nil_2. Qed.

Lemma Set_from_elem (xs : list A) (y : A) : y ∈ Js.Set_.from xs ↔ y ∈ xs.
Proof.
  unfold Js.Set_.from. rewrite Set_foldl_elem.
  split; [intros [H|H]; [inversion H | done] | by right].
Qed.

(** Its size is the number of distinct elements of [xs]. *)
Lemma Set_size_distinct (xs : list A) :
  Js.Set_.size (Js.Set_.from xs) = Z.of_nat (length (remove_dups xs)).
Proof.
  unfold Js.Set_.size. f_equal. apply Permutation_length, NoDup_Permutation.
  - apply Set_from_NoDup.
  - apply NoDup_remove_dups.
  - intros y. by rewrite Set_from_elem, elem_of_remove_dups.
Qed.

End SetMoreFacts.

(** X8. [typography.max-sizes.rule] counts distinct sizes: it passes if and
    only if the number of different font sizes among the declared roles is
    at most the constitution's maximum, however many roles share a size;
    when it fails its message gives both numbers, each as [Number::toString]
    renders it. *)
Theorem max_sizes_counts_distinct manifest constitution ruleset :
  let rule := Taste.typographyMaxSizes manifest constitution ruleset in
  let used := Z.of_nat (length (remove_dups (map size (typography_roles (taste manifest))))) in
  (tr_passed rule = true ↔ used <= max_font_sizes (typography constitution))
  ∧ (tr_passed rule = false →
       tr_message rule
       = "Used " +:+ Js.Number_toString used +:+ " font sizes; allowed maximum is "
           +:+ Js.Number_toString (max_font_sizes (typography constitution)) +:+ ".").
Proof.
  cbv zeta. unfold Taste.typographyMaxSizes. cbv zeta.
  unfold Taste.buildResult, tr_passed, tr_message.
  rewrite Set_size_distinct. split; [apply Z.leb_le|]. by intros ->.
Qed.

(** ** Rules 3 and 5: membership *)

(** X9. [spacing.allowed-values.rule] passes if and only if every declared
    spacing value is one of the constitution's allowed values; when it
    fails, the message and the counterexample name the first declared value
    that is not allowed, as [Number::toString] renders it. *)
Theorem spacing_allowed_outcome manifest constitution ruleset :
  let rule := Taste.spacingAllowedValues manifest constitution ruleset in
  let allowed := spacing_allowed_values (spacing constitution) in
  (tr_passed rule = true ↔ ∀ value, value ∈ spacing_values (taste manifest) → value ∈ allowed)
  ∧ (∀ before value after,
       spacing_values (taste manifest) = before ++ value :: after →
       (∀ earlier, earlier ∈ before → earlier ∈ allowed) → value ∉ allowed →
       tr_passed rule = false
       ∧ tr_message rule = "Spacing value " +:+ Js.Number_toString value +:+ " not allowed."
       ∧ tr_counterexample rule = Some (tr_message rule)).
Proof.
  cbv zeta. unfold Taste.spacingAllowedValues. cbv zeta.
  unfold Taste.buildResult, tr_passed, tr_message, tr_counterexample. split.
  - destruct (List.find _ _) as [invalid|] eqn:Hfind.
    + split; [done|]. intros Hall. exfalso.
      apply find_some_elem in Hfind as [Hin Hnot].
      apply negb_true_iff, not_true_iff_false in Hnot. apply Hnot.
      apply Set_has_from. by apply Hall.
    + split; [|done]. intros _ value Hin. rewrite find_none_forall in Hfind.
      specialize (Hfind value Hin). by apply negb_false_iff, Set_has_from in Hfind.
  - intros before value after Hvalues Hbefore Hvalue.
    assert (List.find (λ v, negb (Js.Set_.has
                                    (Js.Set_.from (spacing_allowed_values (spacing constitution)))
                                    v))
                      (spacing_values (taste manifest)) = Some value) as ->; [|done].
    apply find_some_split. exists before, after. split; [done|]. split.
    + intros y Hy. apply negb_false_iff, Set_has_from. by apply Hbefore.
    + apply negb_true_iff, not_true_iff_false. by rewrite Set_has_from.
Qed.

Lemma spacing_allowed_outcome_witness :
  let rule := Taste.spacingAllowedValues
                (Fixtures.manifest_of
                   {| typography_roles := []; spacing_values := [4; 6; 5];
                      color_tokens := []; color_contrast := [];
                      density_interactions_per_view := 0; consistency_radius := [];
                      consistency_elevation := []; consistency_motion := [];
                      patterns_usage := [] |})
                Fixtures.constitution Fixtures.ruleset in
  tr_passed rule = false
  ∧ tr_message rule = "Spacing value 6 not allowed."
  ∧ tr_counterexample rule = Some (tr_message rule).
Proof.
  apply (proj2 (spacing_allowed_outcome _ Fixtures.constitution Fixtures.ruleset)
           [4] 6 [5]).
  - reflexivity.
  - intros earlier Hin. apply list_elem_of_singleton in Hin as ->. apply list_elem_of_here.
  - vm_compute. intros Hin. repeat (apply elem_of_cons in Hin as [Hin|Hin]; [discriminate|]).
    inversion Hin.
Defined.

(** X10. [color.allowed.rule] passes if and only if every declared color
    token is one of the constitution's allowed tokens; when it fails, the
    message and the counterexample name the first token that is not. *)
Theorem color_allowed_outcome manifest constitution ruleset :
  let rule := Taste.colorAllowed manifest constitution ruleset in
  let allowed := allowed_tokens (color constitution) in
  (tr_passed rule = true ↔ ∀ token, token ∈ color_tokens (taste manifest) → token ∈ allowed)
  ∧ (∀ before token after,
       color_tokens (taste manifest) = before ++ token :: after →
       (∀ earlier, earlier ∈ before → earlier ∈ allowed) → token ∉ allowed →
       tr_passed rule = false
       ∧ tr_message rule = "Color token '" +:+ token +:+ "' is not allowed."
       ∧ tr_counterexample rule = Some (tr_message rule)).
Proof.
  cbv zeta. unfold Taste.colorAllowed. cbv zeta.
  unfold Taste.buildResult, tr_passed, tr_message, tr_counterexample. split.
  - destruct (List.find _ _) as [invalid|] eqn:Hfind.
    + split; [done|]. intros Hall. exfalso.
      apply find_some_elem in Hfind as [Hin Hnot].
      apply negb_true_iff, not_true_iff_false in Hnot. apply Hnot.
      apply Set_has_from. by apply Hall.
    + split; [|done]. intros _ token Hin. rewrite find_none_forall in Hfind.
      specialize (Hfind token Hin). by apply negb_false_iff, Set_has_from in Hfind.
  - intros before token after Htokens Hbefore Htoken.
    assert (List.find (λ t, negb (Js.Set_.has
                                    (Js.Set_.from (allowed_tokens (color constitution))) t))
                      (color_tokens (taste manifest)) = Some token) as ->; [|done].
    apply find_some_split. exists before, after. split; [done|]. split.
    + intros y Hy. apply negb_false_iff, Set_has_from. by apply Hbefore.
    + apply negb_true_iff, not_true_iff_false. by rewrite Set_has_from.
Qed.

(** ** Rules 4 and 9: variance *)












(** ** Rules 8 and 9: which axis is reported *)

(** An error of [checkVariance] is never the empty string either. *)
Lemma checkVariance_truthy band values :
  Js.truthy (Taste.checkVariance band values)
  = match Taste.checkVariance band values with Some _ => true | None => false end.
Proof.
  unfold Taste.checkVariance.
  destruct (max_variance band) as [bound|]; [|done].
  destruct values as [|first rest]; [done|].
  destruct (Js.is_number first).
  - destruct (Taste.as_numbers (first :: rest)) as [[|n ns]|]; try done.
    cbv zeta. by destruct (_ >? bound).
  - cbv zeta. by destruct (_ && _).
Qed.

(** Of three checks whose errors are never empty, [a || b || c] is the
    first error. *)
Lemma first_error (radius elevation motion : option string) :
  Js.truthy radius = match radius with Some _ => true | None => false end →
  Js.truthy elevation = match elevation with Some _ => true | None => false end →
  Js.truthy motion = match motion with Some _ => true | None => false end →
  Js.or_ (Js.or_ radius elevation) motion
  = match radius, elevation with
    | Some error, _ => Some error
    | None, Some error => Some error
    | None, None => motion
    end
  ∧ Js.truthy (Js.or_ (Js.or_ radius elevation) motion)
    = match Js.or_ (Js.or_ radius elevation) motion with Some _ => true | None => false end.
Proof.
  intros Hradius Helevation Hmotion. unfold Js.or_.
  destruct radius as [r|].
  - rewrite Hradius. cbv iota. by rewrite Hradius.
  - rewrite Hradius. cbv iota. destruct elevation as [e|].
    + by rewrite Helevation.
    + by rewrite Helevation.
Qed.

(** X14. Both consistency rules look at the axes in the order radius,
    elevation, motion and report the first axis whose check returns an
    error: the rule fails with that error as its message, and passes only
    when all three checks return none. *)
Theorem consistency_reports_first_axis manifest constitution ruleset :
  (let rule := Taste.consistencyAllowed manifest constitution ruleset in
   match Taste.checkAllowedValues (band_radius constitution) (Taste.radiusValues manifest),
         Taste.checkAllowedValues (band_elevation constitution)
           (Taste.elevationValues manifest),
         Taste.checkAllowedValues (band_motion constitution) (Taste.motionValues manifest)
   with
   | Some error, _, _ | None, Some error, _ | None, None, Some error =>
       tr_passed rule = false ∧ tr_message rule = error
   | None, None, None =>
       tr_passed rule = true
       ∧ tr_message rule = "Consistency values align with allowed sets."
   end)
  ∧ (let rule := Taste.consistencyVariance manifest constitution ruleset in
     match Taste.checkVariance (band_radius constitution) (Taste.radiusValues manifest),
           Taste.checkVariance (band_elevation constitution)
             (Taste.elevationValues manifest),
           Taste.checkVariance (band_motion constitution) (Taste.motionValues manifest)
     with
     | Some error, _, _ | None, Some error, _ | None, None, Some error =>
         tr_passed rule = false ∧ tr_message rule = error
     | None, None, None =>
         tr_passed rule = true ∧ tr_message rule = "Consistency variance within limits."
     end).
Proof.
  split; cbv zeta.
  - unfold Taste.consistencyAllowed. cbv zeta. unfold Taste.buildResult, tr_passed, tr_message.
    destruct (first_error _ _ _
                (checkAllowedValues_truthy (band_radius constitution)
                   (Taste.radiusValues manifest))
                (checkAllowedValues_truthy (band_elevation constitution)
                   (Taste.elevationValues manifest))
                (checkAllowedValues_truthy (band_motion constitution)
                   (Taste.motionValues manifest))) as [-> ->].
    destruct (Taste.checkAllowedValues (band_radius constitution) _) as [r|]; [done|].
    destruct (Taste.checkAllowedValues (band_elevation constitution) _) as [e|]; [done|].
    by destruct (Taste.checkAllowedValues (band_motion constitution) _) as [m|].
  - unfold Taste.consistencyVariance. cbv zeta. unfold Taste.buildResult, tr_passed, tr_message.
    destruct (first_error _ _ _
                (checkVariance_truthy (band_radius constitution)
                   (Taste.radiusValues manifest))
                (checkVariance_truthy (band_elevation constitution)
                   (Taste.elevationValues manifest))
                (checkVariance_truthy (band_motion constitution)
                   (Taste.motionValues manifest))) as [-> ->].
    destruct (Taste.checkVariance (band_radius constitution) _) as [r|]; [done|].
    destruct (Taste.checkVariance (band_elevation constitution) _) as [e|]; [done|].
    by destruct (Taste.checkVariance (band_motion constitution) _) as [m|].
Qed.

(** X15. The error of [checkAllowedValues] names the first declared value
    whose string form is not in the band's set, followed by the set's
    string forms, each once, in the order the band lists them.  A band
    without [allowed_values] rejects every declared value. *)
Theorem allowed_values_first_offender band :
  (∀ before value after,
     (∀ earlier, earlier ∈ before → Spec.allowedByStringForm band earlier) →
     ¬ Spec.allowedByStringForm band value →
     Taste.checkAllowedValues band (before ++ value :: after)
     = Some (Js.String_ value +:+ " not in allowed set: "
               +:+ Js.join ", "
                     (Js.Set_.from (map Js.String_ (default [] (allowed_values band))))))
  ∧ NoDup (Js.Set_.from (map Js.String_ (default [] (allowed_values band))))
  ∧ (allowed_values band = None →
       ∀ value rest,
         Taste.checkAllowedValues band (value :: rest)
         = Some (Js.String_ value +:+ " not in allowed set: ")).
Proof.
  assert (∀ value, Spec.allowedByStringForm band value
                   ↔ Js.Set_.has
                       (Js.Set_.from (map Js.String_ (default [] (allowed_values band))))
                       (Js.String_ value) = true) as Hhas.
  { intros value. rewrite Set_has_from, list_elem_of_fmap.
    unfold Spec.allowedByStringForm. split.
    - intros (allowed & Hin & Hform). by exists allowed.
    - intros (allowed & Hform & Hin). by exists allowed. }
  split; [|split; [apply Set_from_NoDup|]].
  - intros before value after Hbefore Hvalue. unfold Taste.checkAllowedValues. cbv zeta.
    assert (List.find (λ v, negb (Js.Set_.has
                                    (Js.Set_.from
                                       (map Js.String_ (default [] (allowed_values band))))
                                    (Js.String_ v)))
                      (before ++ value :: after) = Some value) as ->; [|done].
    apply find_some_split. exists before, after. split; [done|]. split.
    + intros y Hy. apply negb_false_iff, Hhas. by apply Hbefore.
    + apply negb_true_iff, not_true_iff_false. by rewrite <- Hhas.
  - intros Hnone value rest. unfold Taste.checkAllowedValues. by rewrite Hnone.
Qed.

Lemma allowed_values_first_offender_witness :
  Taste.checkAllowedValues (Fixtures.band [Js.Num 4; Js.Str "4"; Js.Num 8] None)
    ([Js.Num 8] ++ Js.Num 12 :: [Js.Num 16])
  = Some "12 not in allowed set: 4, 8".
Proof.
  apply (proj1 (allowed_values_first_offender
                  (Fixtures.band [Js.Num 4; Js.Str "4"; Js.Num 8] None))
           [Js.Num 8] (Js.Num 12) [Js.Num 16]).
  - intros earlier Hin. apply list_elem_of_singleton in Hin as ->.
    exists (Js.Num 8). split; [|reflexivity].
    do 2 apply list_elem_of_further. apply list_elem_of_here.
  - intros (allowed & Hin & Hform). simpl in Hin.
    repeat (apply elem_of_cons in Hin as [->|Hin]; [vm_compute in Hform; discriminate|]).
    inversion Hin.
Defined.

(** ** The six semantic rules of the contract validator *)

(** X16. [deterministic-output.rule] passes if and only if the manifest is
    flagged deterministic and lists no marker.  When it fails, the
    counterexample is the first marker if there is one, also when the flag
    is false, and "deterministic=false" only when the list is empty. *)
Theorem determinism_rule_outcome manifest :
  let rule := Contract.determinismRule manifest in
  let flags := determinism (outputs manifest) in
  (vr_passed rule = true ↔ deterministic flags = true ∧ markers flags = [])
  ∧ (∀ marker rest, markers flags = marker :: rest →
       vr_passed rule = false ∧ vr_counterexample rule = Some marker)
  ∧ (deterministic flags = false → markers flags = [] →
       vr_passed rule = false ∧ vr_counterexample rule = Some "deterministic=false").
Proof.
  cbv zeta. unfold Contract.determinismRule. cbv zeta.
  unfold Contract.ruleResult, vr_passed, vr_counterexample.
  destruct (deterministic (determinism (outputs manifest)));
    destruct (markers (determinism (outputs manifest))) as [|marker rest]; simpl;
    (split; [split; [try done; by intros [? ?] | try done; by intros [? ?]]
            | split; [intros ? ? [= <- <-] || intros ? ? [=]; done | done]]).
Qed.

Lemma determinism_rule_outcome_witness :
  let manifest :=
    {| contract := contract Fixtures.manifest_valid;
       renderer := renderer Fixtures.manifest_valid;
       outputs :=
         {| token_usage_undeclared := [];
            constitution_violations := [];
            determinism := {| deterministic := false; markers := ["Date.now"; "random"] |} |};
       taste := taste Fixtures.manifest_valid |} in
  vr_passed (Contract.determinismRule manifest) = false
  ∧ vr_counterexample (Contract.determinismRule manifest) = Some "Date.now".
Proof.
  cbv zeta.
  apply (proj1 (proj2 (determinism_rule_outcome _)) "Date.now" ["random"]).
  reflexivity.
Defined.

(** X17. [renderer-registration.rule] passes if and only if some registry
    entry has the manifest's name, version and target; when none has, the
    counterexample is name@version target=target.  Whenever the registry's
    contract rule passes, the registration rule passes too. *)
Theorem registration_rule_outcome manifest registry :
  let rule := Contract.registrationRule manifest registry in
  (vr_passed rule = true ↔ Spec.registered manifest registry)
  ∧ (¬ Spec.registered manifest registry →
       vr_counterexample rule
       = Some (renderer_name (renderer manifest) +:+ "@"
                 +:+ renderer_version (renderer manifest) +:+ " target="
                 +:+ renderer_target (renderer manifest)))
  ∧ (vr_passed (Contract.registryContractRule manifest registry) = true →
       vr_passed rule = true).
Proof.
  cbv zeta. unfold Contract.registrationRule, Contract.registryContractRule. cbv zeta.
  unfold Contract.ruleResult, vr_passed, vr_counterexample.
  destruct (Contract.findRegistered manifest registry) as [entry|] eqn:Hfind.
  - apply findRegistered_registered in Hfind as [Hin Hmatch].
    assert (Spec.registered manifest registry) by by exists entry.
    split; [done|]. split; [done|]. done.
  - apply findRegistered_none in Hfind. split; [|split; done].
    split; [done|]. intros Hreg. done.
Qed.

Lemma registration_rule_outcome_witness :
  vr_counterexample (Contract.registrationRule Fixtures.manifest_valid
                       Fixtures.registry_without)
  = Some "web@1.2.0 target=html".
Proof.
  apply (proj1 (proj2 (registration_rule_outcome Fixtures.manifest_valid
                         Fixtures.registry_without))).
  apply findRegistered_none. reflexivity.
Defined.

Lemma filter_failing_nil {A : Type} (passed : A → bool) (rules : list A) :
  List.filter (λ rule, negb (passed rule)) rules = [] ↔ forallb passed rules = true.
Proof.
  induction rules as [|rule rules IH]; simpl; [done|].
  destruct (passed rule); simpl; [exact IH | done].
Qed.

Lemma contract_status_passed (rules : list ValidationRuleResult) :
  (if (length (Spec.failingContract rules) =? 0)%nat then Passed else Failed) = Passed
  ↔ forallb vr_passed rules = true.
Proof.
  rewrite <- filter_failing_nil. unfold Spec.failingContract.
  rewrite <- failing_empty_iff. by destruct (length _ =? 0)%nat.
Qed.

(** X18. What it takes to pass.  Once both schemas are loaded, the contract
    report has status "passed" if and only if both documents are
    schema-valid, the renderer declares the manifest's contract, the first
    registry entry with the manifest's renderer name, version and target
    exists and has the manifest's contract id, no undeclared token and no
    constitution violation is reported, and the output is deterministic
    without markers.  When both documents are schema-valid the report has
    eight rules, and its renderer block is the name, version and target of
    the manifest's renderer. *)
Theorem contract_passes_iff (unknown : Type)
    (as_manifest : unknown → RendererOutputManifest)
    (as_registry : unknown → RendererRegistry) (host : Contract.Host)
    now manifestRaw registryRaw options
    contractSchema registrySchema contractValidator registryValidator :
  Contract.readJsonFile host
    (default (Contract.defaultContractSchemaPath host) (Contract.contractSchemaPath options))
  = Some contractSchema →
  Contract.readJsonFile host
    (default (Contract.defaultRegistrySchemaPath host) (Contract.registrySchemaPath options))
  = Some registrySchema →
  Contract.ajv_compile host contractSchema = Some contractValidator →
  Contract.ajv_compile host registrySchema = Some registryValidator →
  let manifest := as_manifest manifestRaw in
  let registry := as_registry registryRaw in
  ∃ report,
    Contract.buildRendererValidationReport as_manifest as_registry host now
      manifestRaw registryRaw options = Some report
    ∧ (rv_status report = Passed
       ↔ (contractValidator manifestRaw).1 = true
         ∧ (registryValidator registryRaw).1 = true
         ∧ renderer_declares_contract (renderer manifest) = contract_id (contract manifest)
         ∧ (∃ before entry after,
              renderers registry = before ++ entry :: after
              ∧ (∀ earlier, earlier ∈ before →
                   ¬ (entry_name earlier = renderer_name (renderer manifest)
                      ∧ entry_version earlier = renderer_version (renderer manifest)
                      ∧ entry_target earlier = renderer_target (renderer manifest)))
              ∧ entry_name entry = renderer_name (renderer manifest)
              ∧ entry_version entry = renderer_version (renderer manifest)
              ∧ entry_target entry = renderer_target (renderer manifest)
              ∧ entry_contract_id entry = contract_id (contract manifest))
         ∧ token_usage_undeclared (outputs manifest) = []
         ∧ constitution_violations (outputs manifest) = []
         ∧ deterministic (determinism (outputs manifest)) = true
         ∧ markers (determinism (outputs manifest)) = [])
    ∧ ((contractValidator manifestRaw).1 = true →
       (registryValidator registryRaw).1 = true →
         length (rv_rules report) = 8%nat
         ∧ rv_renderer report
           = {| ri_name := renderer_name (renderer manifest);
                ri_version := renderer_version (renderer manifest);
                ri_target := renderer_target (renderer manifest) |}).
Proof.
  intros HreadC HreadR HcompC HcompR manifest registry.
  eexists. split.
  { apply (buildRendererValidationReport_runs as_manifest as_registry host now
             manifestRaw registryRaw options contractSchema registrySchema
             contractValidator registryValidator HreadC HreadR HcompC HcompR). }
  fold manifest registry.
  destruct (contractValidator manifestRaw) as [manifestValid manifestErrors].
  destruct (registryValidator registryRaw) as [registryValid registryErrors].
  cbn [fst].
  destruct manifestValid, registryValid; cbn [andb];
    try (split; [split; [done | by intros (? & ? & _)] | done]).
  unfold rv_status, rv_rules, rv_renderer. split; [|done].
  rewrite contract_status_passed.
  cbn [app forallb].
  unfold Contract.manifestSchemaRule, Contract.registrySchemaRule,
    Contract.contractDeclaredRule, Contract.registrationRule,
    Contract.registryContractRule, Contract.tokenUsageRule, Contract.constitutionRule,
    Contract.determinismRule. cbv zeta.
  unfold Contract.ruleResult, vr_passed. cbn [fst andb].
  rewrite !andb_true_iff, !string_eqb_eq, !Nat.eqb_eq, !length_zero_iff_nil, eqb_true_iff.
  destruct (Contract.findRegistered manifest registry) as [found|] eqn:Hfind; cbn [andb].
  - rewrite string_eqb_eq. split.
    + intros (Hd & _ & (_ & Hr) & Ht & Hv & (Hf & Hm) & _).
      repeat split; try done.
      apply findRegistered_first in Hfind
        as (before & after & Hsplit & Hbefore & Hname & Hversion & Htarget).
      by exists before, found, after.
    + intros (_ & _ & Hd & (before & entry & after & Hsplit & Hbefore & Hn & Hv' & Hg & Hr)
              & Ht & Hv & Hf & Hm).
      assert (Contract.findRegistered manifest registry = Some entry) as Hthis.
      { apply findRegistered_first. exists before, after. by repeat split. }
      assert (entry = found) as -> by congruence. by repeat split.
  - split.
    + intros (_ & ? & _). done.
    + intros (_ & _ & _ & (before & entry & after & Hsplit & Hbefore & Hn & Hv' & Hg & _)
              & _).
      assert (Contract.findRegistered manifest registry = Some entry) as Hthis.
      { apply findRegistered_first. exists before, after. by repeat split. }
      congruence.
Qed.

Lemma contract_passes_iff_witness :
  ∃ report,
    Contract.buildRendererValidationReport Fixtures.as_manifest Fixtures.as_registry
      Fixtures.contractHost "2024-05-01T00:00:00.000Z"
      (Fixtures.ManifestDoc Fixtures.manifest_valid)
      (Fixtures.RegistryDoc Fixtures.registry_valid) Fixtures.contract_options
    = Some report
    ∧ rv_status report = Passed
    ∧ length (rv_rules report) = 8%nat
    ∧ rv_renderer report
      = {| ri_name := "web"; ri_version := "1.2.0"; ri_target := "html" |}.
Proof.
  destruct (contract_passes_iff Fixtures.document Fixtures.as_manifest Fixtures.as_registry
              Fixtures.contractHost "2024-05-01T00:00:00.000Z"
              (Fixtures.ManifestDoc Fixtures.manifest_valid)
              (Fixtures.RegistryDoc Fixtures.registry_valid) Fixtures.contract_options
              (Fixtures.SchemaDoc "contract") (Fixtures.SchemaDoc "registry")
              _ _ eq_refl eq_refl eq_refl eq_refl)
    as (report & Hreport & Hiff & Hshape).
  exists report. split; [exact Hreport|].
  split; [|exact (Hshape eq_refl eq_refl)].
  apply Hiff. do 3 (split; [reflexivity|]). split; [|by repeat split].
  eexists [_], _, []. split; [reflexivity|]. split; [|by repeat split].
  intros earlier Hin%list_elem_of_singleton [Hname _]. subst earlier. discriminate.
Defined.

(** X19. In a returned contract report a rule that passed has no
    counterexample, and each of the six semantic rules that failed has one;
    only a schema rule can fail without a counterexample (when the validator
    left no error behind). *)
Theorem contract_counterexample_presence (unknown : Type)
    (as_manifest : unknown → RendererOutputManifest)
    (as_registry : unknown → RendererRegistry) (host : Contract.Host)
    now manifestRaw registryRaw options report :
  Contract.buildRendererValidationReport as_manifest as_registry host now
    manifestRaw registryRaw options = Some report →
  ∀ rule, rule ∈ rv_rules report →
    (vr_passed rule = true → vr_counterexample rule = None)
    ∧ (vr_passed rule = false → vr_counterexample rule = None →
         vr_id rule = "renderer-manifest.schema" ∨ vr_id rule = "renderer-registry.schema").
Proof.
  intros Hreport rule Hin.
  destruct (buildRendererValidationReport_returns _ _ _ _ _ _ _ _ Hreport)
    as (cs & rs & cv & rv & HreadC & HreadR & HcompC & HcompR).
  rewrite (buildRendererValidationReport_runs as_manifest as_registry host now
             manifestRaw registryRaw options cs rs cv rv HreadC HreadR HcompC HcompR)
    in Hreport.
  apply (inj Some) in Hreport. subst report.
  assert (rule ∈ [ Contract.manifestSchemaRule (cv manifestRaw);
                   Contract.registrySchemaRule (rv registryRaw);
                   Contract.contractDeclaredRule (as_manifest manifestRaw);
                   Contract.registrationRule (as_manifest manifestRaw)
                     (as_registry registryRaw);
                   Contract.registryContractRule (as_manifest manifestRaw)
                     (as_registry registryRaw);
                   Contract.tokenUsageRule (as_manifest manifestRaw);
                   Contract.constitutionRule (as_manifest manifestRaw);
                   Contract.determinismRule (as_manifest manifestRaw) ]) as Hrule.
  { destruct ((cv manifestRaw).1 && (rv registryRaw).1); unfold rv_rules in Hin; [done|].
    apply elem_of_cons in Hin as [->|Hin]; [apply list_elem_of_here|].
    apply list_elem_of_singleton in Hin as ->.
    apply list_elem_of_further, list_elem_of_here. }
  clear Hin.
  repeat (apply elem_of_cons in Hrule as [->|Hrule]); [..|inversion Hrule].
  - unfold Contract.manifestSchemaRule. cbv zeta. simpl.
    destruct (cv manifestRaw).1; split; (done || by left).
  - unfold Contract.registrySchemaRule. cbv zeta. simpl.
    destruct (rv registryRaw).1; split; (done || by right).
  - unfold Contract.contractDeclaredRule. cbv zeta. simpl.
    by destruct (String.eqb _ _).
  - unfold Contract.registrationRule. cbv zeta. simpl.
    by destruct (Contract.findRegistered _ _).
  - unfold Contract.registryContractRule. cbv zeta. simpl.
    destruct (Contract.findRegistered _ _) as [entry|]; simpl; [|done].
    by destruct (String.eqb _ _).
  - unfold Contract.tokenUsageRule. cbv zeta. simpl.
    by destruct (token_usage_undeclared _).
  - unfold Contract.constitutionRule. cbv zeta. simpl.
    by destruct (constitution_violations _).
  - unfold Contract.determinismRule. cbv zeta. simpl.
    by destruct (deterministic _), (markers _).
Qed.

Lemma contract_counterexample_presence_witness :
  ∃ report,
    Contract.buildRendererValidationReport Fixtures.as_manifest Fixtures.as_registry
      Fixtures.contractHost "2024-05-01T00:00:00.000Z"
      (Fixtures.ManifestDoc StageFixtures.manifest_undeclared)
      (Fixtures.RegistryDoc Fixtures.registry_without) Fixtures.contract_options
    = Some report
    ∧ ∀ rule, rule ∈ rv_rules report →
        (vr_passed rule = true → vr_counterexample rule = None)
        ∧ (vr_passed rule = false → vr_counterexample rule = None →
             vr_id rule = "renderer-manifest.schema"
             ∨ vr_id rule = "renderer-registry.schema").
Proof.
  eexists. split; [vm_compute; reflexivity|].
  apply (contract_counterexample_presence Fixtures.document Fixtures.as_manifest
           Fixtures.as_registry Fixtures.contractHost "2024-05-01T00:00:00.000Z"
           (Fixtures.ManifestDoc StageFixtures.manifest_undeclared)
           (Fixtures.RegistryDoc Fixtures.registry_without) Fixtures.contract_options).
  vm_compute. reflexivity.
Defined.

(** ** Schema error paths *)

Lemma replace_slashes_no_slash (s : string) (i : nat) :
  String.get i (Js.replace_slashes s) ≠ Some "/"%char.
Proof.
  revert i. induction s as [|c s IH]; intros i; simpl; [done|].
  destruct i as [|i]; [|apply IH].
  destruct (Ascii.eqb c "/") eqn:Hc; [done|].
  apply Ascii.eqb_neq in Hc. congruence.
Qed.

(** X20. [formatInstancePath] renders the empty path as "(root)" and any
    other JSON pointer with dots: its leading separator is dropped, every
    other separator becomes a dot, and no slash is left in the result. *)
Theorem formatInstancePath_dotted :
  Contract.formatInstancePath "" = "(root)"
  ∧ (∀ pointer, Contract.formatInstancePath (String "/" pointer)
                = Js.replace_slashes pointer)
  ∧ (∀ instancePath i,
       String.get i (Contract.formatInstancePath instancePath) ≠ Some "/"%char)
  ∧ Contract.formatInstancePath "/renderer/name" = "renderer.name".
Proof.
  split; [done|]. split; [done|]. split; [|done].
  intros instancePath i. unfold Contract.formatInstancePath.
  destruct (String.eqb instancePath "").
  - do 7 (destruct i as [|i]; [done|]). done.
  - unfold Js.strip_leading_dot.
    pose proof (replace_slashes_no_slash instancePath) as Hnone.
    destruct (Js.replace_slashes instancePath) as [|c rest]; [done|].
    destruct (Ascii.eqb c "."); [|apply Hnone].
    apply (Hnone (S i)).
Qed.

(** ** The two stages *)

(** A failed taste report has a first error to print. *)
Lemma taste_failed_has_error host now manifest constitution intent_doc options report :
  Taste.evaluateTaste host now manifest constitution intent_doc options = Some report →
  tt_errors report = Spec.failingTaste (tt_rules report)
  ∧ (tt_status report = Failed → ∃ first, Js.first (tt_errors report) = Some first).
Proof.
  intros Hreport.
  destruct (evaluateTaste_returns _ _ _ _ _ _ _ Hreport) as (ruleset & _ & ->).
  unfold Taste.finalReport, tt_errors, tt_rules, tt_status. split; [done|].
  destruct (List.filter _ _) as [|first rest]; [done|]. intros _. by exists first.
Qed.

(** X21. [runTaste] checks that its four files exist before anything else,
    in the order manifest, constitution, intent, ruleset: when one is
    missing, the run throws the "not found" message of the first missing
    one, and nothing was read, evaluated, written or printed. *)
Theorem runTaste_endings host now options :
  let run := Stages.runTaste host now options in
  let manifestPath := default FILENAMES.rendererManifest (Stages.opt_manifest options) in
  let constitutionPath :=
    default FILENAMES.visualConstitution (Stages.opt_constitution options) in
  let intentPath := default FILENAMES.designIntent (Stages.opt_intent options) in
  let rulesetPath :=
    default (default (Taste.defaultRulesetPath (Stages.evaluator host))
               (Stages.opt_ruleset options))
            (rulesetPath (Stages.evaluation options)) in
  ∀ before path label after,
    [ (manifestPath, "Renderer manifest"); (constitutionPath, "Visual constitution");
      (intentPath, "Design intent"); (rulesetPath, "Taste ruleset") ]
    = before ++ (path, label) :: after →
    Forall (λ checked, Stages.fileExists host checked.1 = true) before →
    Stages.fileExists host path = false →
    run = {| Stages.effects := [];
             Stages.ending := Stages.Threw (label +:+ " not found at " +:+ path +:+ ".") |}.
Proof.
  cbv zeta. intros before path label after Hsplit Hbefore Hmissing.
  unfold Stages.runTaste. cbv zeta.
  assert (match rulesetPath (Stages.evaluation options) with
          | Some path => path
          | None =>
              match Stages.opt_ruleset options with
              | Some path => path
              | None =>
                  Taste.path_join (Stages.evaluator host)
                    [Taste.cwd (Stages.evaluator host); FILENAMES.tasteRuleset]
              end
          end
          = default (default (Taste.defaultRulesetPath (Stages.evaluator host))
                       (Stages.opt_ruleset options))
                    (rulesetPath (Stages.evaluation options))) as ->.
  { by destruct (rulesetPath _), (Stages.opt_ruleset _). }
  destruct before as [|c1 [|c2 [|c3 [|c4 more]]]]; simpl in Hsplit.
  - injection Hsplit as <- <- _. by rewrite Hmissing.
  - injection Hsplit as <- <- <- _.
    apply Forall_cons in Hbefore as [H1 _]. simpl in H1.
    by rewrite H1, Hmissing.
  - injection Hsplit as <- <- <- <- _.
    apply Forall_cons in Hbefore as [H1 Hbefore].
    apply Forall_cons in Hbefore as [H2 _]. simpl in H1, H2.
    by rewrite H1, H2, Hmissing.
  - injection Hsplit as <- <- <- <- <- _.
    apply Forall_cons in Hbefore as [H1 Hbefore].
    apply Forall_cons in Hbefore as [H2 Hbefore].
    apply Forall_cons in Hbefore as [H3 _]. simpl in H1, H2, H3.
    by rewrite H1, H2, H3, Hmissing.
  - injection Hsplit as _ _ _ _ Hnil. by destruct more.
Qed.

Lemma runTaste_endings_witness :
  Stages.fileExists StageFixtures.tasteStageHost_no_intent "renderers/manifest.json" = true
  ∧ Stages.fileExists StageFixtures.tasteStageHost_no_intent
      "config/visual-constitution.json" = true
  ∧ Stages.fileExists StageFixtures.tasteStageHost_no_intent "config/design-intent.json"
    = false
  ∧ Stages.runTaste StageFixtures.tasteStageHost_no_intent "2024-05-01T00:00:00.000Z"
      StageFixtures.taste_options
    = {| Stages.effects := [];
         Stages.ending :=
           Stages.Threw "Design intent not found at config/design-intent.json." |}.
Proof.
  do 3 (split; [reflexivity|]).
  apply (runTaste_endings StageFixtures.tasteStageHost_no_intent
           "2024-05-01T00:00:00.000Z" StageFixtures.taste_options
           [ ("renderers/manifest.json", "Renderer manifest");
             ("config/visual-constitution.json", "Visual constitution") ]
           "config/design-intent.json" "Design intent"
           [ ("/repo/rules/taste/ruleset.json", "Taste ruleset") ]).
  - reflexivity.
  - by repeat constructor.
  - reflexivity.
Defined.

(** X22. When [runTaste] returns, it has written, first of all, the report
    that [evaluateTaste] gives for the three documents it read, to the
    report path; it then sets the exit code to 1 if and only if the report
    failed, never to anything else, and the failure line it prints is about
    the first failing rule of the report. *)
Theorem runTaste_exit_code host now options :
  let run := Stages.runTaste host now options in
  let reportPath := default FILENAMES.tasteReport (Stages.opt_report options) in
  Stages.ending run = Stages.Returned →
  ∃ manifest constitution intent_doc evaluation report rest,
    Stages.readManifest host
      (default FILENAMES.rendererManifest (Stages.opt_manifest options)) = Some manifest
    ∧ Stages.readConstitution host
        (default FILENAMES.visualConstitution (Stages.opt_constitution options))
      = Some constitution
    ∧ Stages.readIntent host (default FILENAMES.designIntent (Stages.opt_intent options))
      = Some intent_doc
    ∧ Taste.evaluateTaste (Stages.evaluator host) now manifest constitution intent_doc
        evaluation = Some report
    ∧ failFast evaluation = Some (default true (failFast (Stages.evaluation options)))
    ∧ verbose evaluation = Some (default false (verbose (Stages.evaluation options)))
    ∧ Stages.effects run = Stages.WroteTasteReport reportPath report :: rest
    ∧ (Stages.SetExitCode 1 ∈ rest ↔ tt_status report = Failed)
    ∧ (∀ code, Stages.SetExitCode code ∈ rest → code = 1)
    ∧ match tt_status report with
      | Passed =>
          rest = [ Stages.ConsoleLog ("Taste validation passed. Report written to "
                                        +:+ reportPath) ]
      | Failed =>
          ∃ first,
            head (Spec.failingTaste (tt_rules report)) = Some first
            ∧ rest = [ Stages.ConsoleError
                         ("Taste validation failed (" +:+ tr_id first +:+ "): "
                            +:+ tr_message first +:+ " | clause=" +:+ tr_clause first
                            +:+ " intent=" +:+ tr_intent_reference first);
                       Stages.ConsoleError ("See " +:+ reportPath);
                       Stages.SetExitCode 1 ]
      end.
Proof.
  cbv zeta. unfold Stages.runTaste. cbv zeta.
  destruct (Stages.fileExists host (default FILENAMES.rendererManifest _)); [|done].
  destruct (Stages.fileExists host (default FILENAMES.visualConstitution _)); [|done].
  destruct (Stages.fileExists host (default FILENAMES.designIntent _)); [|done].
  destruct (Stages.fileExists host _); [|done]. cbn [negb].
  destruct (Stages.readManifest host _) as [manifest|]; [|done].
  destruct (Stages.readConstitution host _) as [constitution|]; [|done].
  destruct (Stages.readIntent host _) as [intent_doc|]; [|done].
  destruct (Taste.evaluateTaste _ _ _ _ _ _) as [report|] eqn:Hreport; [|done].
  destruct (Stages.writeJsonFile host _ report); cbn [negb]; [|done].
  destruct (taste_failed_has_error _ _ _ _ _ _ _ Hreport) as [Herrors Hfirst].
  destruct (tt_status report) eqn:Hstatus.
  - intros _. eexists manifest, constitution, intent_doc, _, report, _.
    do 3 (split; [reflexivity|]). split; [exact Hreport|].
    do 3 (split; [reflexivity|]). rewrite Hstatus. split; [|split; [|reflexivity]].
    + split; [|done]. intros Hin. apply list_elem_of_singleton in Hin. discriminate.
    + intros code Hin. apply list_elem_of_singleton in Hin. discriminate.
  - destruct (Hfirst eq_refl) as [first Hhead]. rewrite Hhead.
    intros _. eexists manifest, constitution, intent_doc, _, report, _.
    do 3 (split; [reflexivity|]). split; [exact Hreport|].
    do 3 (split; [reflexivity|]). rewrite Hstatus. split; [|split].
    + split; [done|]. intros _. do 2 apply list_elem_of_further. apply list_elem_of_here.
    + intros code Hin.
      repeat (apply elem_of_cons in Hin as [Hin|Hin]; [by inversion Hin|]).
      inversion Hin.
    + exists first. split; [|reflexivity]. by rewrite <- Herrors.
Qed.

Lemma runTaste_exit_code_witness :
  let run := Stages.runTaste (StageFixtures.tasteStageHost Fixtures.manifest_invalid)
               "2024-05-01T00:00:00.000Z" StageFixtures.taste_options in
  ∃ report rest,
    Stages.effects run = Stages.WroteTasteReport "validation/taste-report.json" report :: rest
    ∧ (Stages.SetExitCode 1 ∈ rest ↔ tt_status report = Failed)
    ∧ tt_status report = Failed.
Proof.
  cbv zeta.
  destruct (runTaste_exit_code (StageFixtures.tasteStageHost Fixtures.manifest_invalid)
              "2024-05-01T00:00:00.000Z" StageFixtures.taste_options eq_refl)
    as (manifest & constitution & intent_doc & evaluation & report & rest
        & _ & _ & _ & _ & _ & _ & Heffects & Hexit & _ & _).
  exists report, rest. split; [exact Heffects|]. split; [exact Hexit|].
  apply Hexit. vm_compute in Heffects. injection Heffects as _ <-.
  do 2 apply list_elem_of_further. apply list_elem_of_here.
Defined.

(** X23. How [runRendererValidate] can end.  When it throws, one of the
    four files it needs is missing (manifest, registry, contract schema,
    registry schema, checked in this order), the message names it, and
    nothing was validated, written or printed; when a host promise rejects,
    nothing was written or printed either. *)
Theorem runRendererValidate_endings (unknown : Type)
    (as_manifest : unknown → RendererOutputManifest)
    (as_registry : unknown → RendererRegistry) (host : Stages.RendererHost) now options :
  let run := Stages.runRendererValidate as_manifest as_registry host now options in
  let manifestPath := default FILENAMES.rendererManifest (Stages.rvo_manifest options) in
  let registryPath := default FILENAMES.rendererRegistry (Stages.rvo_registry options) in
  let contractSchemaPath := Contract.defaultContractSchemaPath (Stages.validator host) in
  let registrySchemaPath := Contract.defaultRegistrySchemaPath (Stages.validator host) in
  match Stages.ending run with
  | Stages.Returned =>
      Forall (λ path, Stages.rh_fileExists host path = true)
             [manifestPath; registryPath; contractSchemaPath; registrySchemaPath]
  | Stages.Threw message =>
      Stages.effects run = []
      ∧ ∃ before path after text,
          [ (manifestPath,
             "Renderer manifest not found at " +:+ manifestPath
               +:+ ". Provide --manifest <path>.");
            (registryPath,
             "Renderer registry not found at " +:+ registryPath
               +:+ ". Provide --registry <path>.");
            (contractSchemaPath,
             "Renderer contract schema missing at " +:+ contractSchemaPath +:+ ".");
            (registrySchemaPath,
             "Renderer registry schema missing at " +:+ registrySchemaPath +:+ ".") ]
          = before ++ (path, text) :: after
          ∧ Forall (λ checked, Stages.rh_fileExists host checked.1 = true) before
          ∧ Stages.rh_fileExists host path = false
          ∧ message = text
  | Stages.Rejected => Stages.effects run = []
  | Stages.ReadOfUndefined => False
  end.
Proof.
  cbv zeta. unfold Stages.runRendererValidate. cbv zeta.
  fold (Contract.defaultContractSchemaPath (Stages.validator host)).
  fold (Contract.defaultRegistrySchemaPath (Stages.validator host)).
  set (manifestPath := default FILENAMES.rendererManifest _).
  set (registryPath := default FILENAMES.rendererRegistry _).
  set (contractPath := Contract.defaultContractSchemaPath _).
  set (schemaPath := Contract.defaultRegistrySchemaPath _).
  destruct (Stages.rh_fileExists host manifestPath) eqn:Hm; cbn [negb].
  2: { split; [done|]. eexists [], manifestPath, _, _.
       split; [reflexivity|]. split; [constructor|]. by split. }
  destruct (Stages.rh_fileExists host registryPath) eqn:Hr; cbn [negb].
  2: { split; [done|]. eexists [_], registryPath, _, _.
       split; [reflexivity|]. split; [by repeat constructor|]. by split. }
  destruct (Stages.rh_fileExists host contractPath) eqn:Hc; cbn [negb].
  2: { split; [done|]. eexists [_; _], contractPath, _, _.
       split; [reflexivity|]. split; [by repeat constructor|]. by split. }
  destruct (Stages.rh_fileExists host schemaPath) eqn:Hs; cbn [negb].
  2: { split; [done|]. eexists [_; _; _], schemaPath, [], _.
       split; [reflexivity|]. split; [by repeat constructor|]. by split. }
  destruct (Contract.readJsonFile (Stages.validator host) manifestPath); [|done].
  destruct (Contract.readJsonFile (Stages.validator host) registryPath); [|done].
  destruct (Contract.buildRendererValidationReport _ _ _ _ _ _ _) as [report|]; [|done].
  destruct (Stages.rh_writeJsonFile host _ report); cbn [negb]; [|done].
  destruct (rv_status report); by repeat constructor.
Qed.

(** X24. When [runRendererValidate] returns, it has written, first of all,
    the report that [buildRendererValidationReport] gives for the two
    documents it read, to the report path (the schema paths it passes are
    the validator's own defaults); it then sets the exit code to 1 if and
    only if the report failed, and never to anything else. *)
Theorem runRendererValidate_exit_code (unknown : Type)
    (as_manifest : unknown → RendererOutputManifest)
    (as_registry : unknown → RendererRegistry) (host : Stages.RendererHost) now options :
  let run := Stages.runRendererValidate as_manifest as_registry host now options in
  let reportPath := default FILENAMES.rendererValidationReport (Stages.rvo_report options) in
  Stages.ending run = Stages.Returned →
  ∃ manifestRaw registryRaw report rest,
    Contract.readJsonFile (Stages.validator host)
      (default FILENAMES.rendererManifest (Stages.rvo_manifest options)) = Some manifestRaw
    ∧ Contract.readJsonFile (Stages.validator host)
        (default FILENAMES.rendererRegistry (Stages.rvo_registry options))
      = Some registryRaw
    ∧ Contract.buildRendererValidationReport as_manifest as_registry
        (Stages.validator host) now manifestRaw registryRaw
        {| Contract.contractSchemaPath := None; Contract.registrySchemaPath := None |}
      = Some report
    ∧ Stages.effects run = Stages.WroteRendererReport reportPath report :: rest
    ∧ (Stages.SetExitCode 1 ∈ rest ↔ rv_status report = Failed)
    ∧ (∀ code, Stages.SetExitCode code ∈ rest → code = 1)
    ∧ rest = match rv_status report with
             | Passed =>
                 [ Stages.ConsoleLog ("Renderer validation passed. Report written to "
                                        +:+ reportPath) ]
             | Failed =>
                 [ Stages.ConsoleError ("Renderer validation failed. See " +:+ reportPath);
                   Stages.SetExitCode 1 ]
             end.
Proof.
  cbv zeta. unfold Stages.runRendererValidate. cbv zeta.
  destruct (Stages.rh_fileExists host (default FILENAMES.rendererManifest _)); [|done].
  destruct (Stages.rh_fileExists host (default FILENAMES.rendererRegistry _)); [|done].
  cbn [negb].
  destruct (Stages.rh_fileExists host _); [|done].
  destruct (Stages.rh_fileExists host _); [|done]. cbn [negb].
  destruct (Contract.readJsonFile (Stages.validator host)
              (default FILENAMES.rendererManifest _)) as [manifestRaw|]; [|done].
  destruct (Contract.readJsonFile (Stages.validator host)
              (default FILENAMES.rendererRegistry _)) as [registryRaw|]; [|done].
  destruct (Contract.buildRendererValidationReport _ _ _ _ _ _ _) as [report|] eqn:Hreport;
    [|done].
  destruct (Stages.rh_writeJsonFile host _ report); cbn [negb]; [|done].
  destruct (rv_status report) eqn:Hstatus; intros _;
    eexists manifestRaw, registryRaw, report, _;
    (do 2 (split; [reflexivity|])); (split; [exact Hreport|]);
    (split; [reflexivity|]); rewrite Hstatus; (split; [|split; [|reflexivity]]).
  - split; [|done]. intros Hin. apply list_elem_of_singleton in Hin. discriminate.
  - intros code Hin. apply list_elem_of_singleton in Hin. discriminate.
  - split; [done|]. intros _. apply list_elem_of_further, list_elem_of_here.
  - intros code Hin.
    repeat (apply elem_of_cons in Hin as [Hin|Hin]; [by inversion Hin|]).
    inversion Hin.
Qed.

Lemma runRendererValidate_exit_code_witness :
  let run := Stages.runRendererValidate Fixtures.as_manifest Fixtures.as_registry
               (StageFixtures.rendererStageHost StageFixtures.manifest_undeclared)
               "2024-05-01T00:00:00.000Z" StageFixtures.renderer_options in
  ∃ report rest,
    Stages.effects run
    = Stages.WroteRendererReport "validation/renderer-report.json" report :: rest
    ∧ (Stages.SetExitCode 1 ∈ rest ↔ rv_status report = Failed)
    ∧ rv_status report = Failed.
Proof.
  cbv zeta.
  destruct (runRendererValidate_exit_code Fixtures.document Fixtures.as_manifest
              Fixtures.as_registry
              (StageFixtures.rendererStageHost StageFixtures.manifest_undeclared)
              "2024-05-01T00:00:00.000Z" StageFixtures.renderer_options eq_refl)
    as (manifestRaw & registryRaw & report & rest & _ & _ & _ & Heffects & Hexit & _ & _).
  exists report, rest. split; [exact Heffects|]. split; [exact Hexit|].
  apply Hexit. vm_compute in Heffects. injection Heffects as _ <-.
  apply list_elem_of_further, list_elem_of_here.
Defined.

(** ** What a failing rule says *)

Lemma declaredRolesLoop_skip roleDefs before rest :
  (∀ declared, declared ∈ before →
     ∃ def, List.find (λ entry, String.eqb (def_name entry) (role declared)) roleDefs
            = Some def
            ∧ def_min def <= size declared <= def_max def) →
  Taste.declaredRolesLoop roleDefs (before ++ rest) = Taste.declaredRolesLoop roleDefs rest.
Proof.
  induction before as [|declared before IH]; intros Hbefore; [done|].
  destruct (Hbefore declared (list_elem_of_here _ _)) as (def & Hdef & Hrange).
  simpl. rewrite Hdef.
  assert ((size declared <? def_min def) = false) as -> by (apply Z.ltb_ge; lia).
  assert ((size declared >? def_max def) = false) as ->
    by (rewrite Z.gtb_ltb; apply Z.ltb_ge; lia).
  simpl. apply IH. intros d Hd. apply Hbefore. by apply list_elem_of_further.
Qed.

(** X25. [typography.hierarchy.rule] checks the declared roles before the
    hierarchy: it reports the first declared role that the constitution
    does not define, or whose size is outside the role's range, whatever
    the hierarchy says about the declared sizes. *)
Theorem hierarchy_rule_reports_first_role manifest constitution ruleset :
  let rule := Taste.typographyHierarchy manifest constitution ruleset in
  let roleDefs := typography_role_defs (typography constitution) in
  ∀ before declared after,
    typography_roles (taste manifest) = before ++ declared :: after →
    (∀ earlier, earlier ∈ before →
       ∃ def, List.find (λ entry, String.eqb (def_name entry) (role earlier)) roleDefs
              = Some def
              ∧ def_min def <= size earlier <= def_max def) →
    match List.find (λ entry, String.eqb (def_name entry) (role declared)) roleDefs with
    | None =>
        tr_passed rule = false
        ∧ tr_message rule = "Role '" +:+ role declared +:+ "' is not defined in constitution."
    | Some def =>
        size declared < def_min def ∨ def_max def < size declared →
        tr_passed rule = false
        ∧ tr_message rule
          = "Role '" +:+ role declared +:+ "' size " +:+ Js.Number_toString (size declared)
              +:+ " outside " +:+ Js.Number_toString (def_min def) +:+ "-" +:+ Js.Number_toString (def_max def)
              +:+ "."
    end.
Proof.
  cbv zeta. intros before declared after Hroles Hbefore.
  unfold Taste.typographyHierarchy. cbv zeta. rewrite Hroles.
  rewrite declaredRolesLoop_skip by done. simpl.
  destruct (List.find _ (typography_role_defs (typography constitution))) as [def|].
  - intros Hout.
    assert ((size declared <? def_min def) || (size declared >? def_max def) = true) as ->.
    { apply orb_true_iff. rewrite Z.gtb_ltb, !Z.ltb_lt. lia. }
    done.
  - done.
Qed.

Lemma hierarchy_rule_reports_first_role_witness :
  let manifest :=
    Fixtures.manifest_of
      (Fixtures.taste_of [ {| role := "body"; size := 16 |}; {| role := "h1"; size := 60 |};
                           {| role := "caption"; size := 10 |} ] 3 []) in
  tr_passed (Taste.typographyHierarchy manifest Fixtures.constitution Fixtures.ruleset)
  = false
  ∧ tr_message (Taste.typographyHierarchy manifest Fixtures.constitution Fixtures.ruleset)
    = "Role 'h1' size 60 outside 12-48.".
Proof.
  cbv zeta.
  apply (hierarchy_rule_reports_first_role _ Fixtures.constitution Fixtures.ruleset
           [ {| role := "body"; size := 16 |} ] {| role := "h1"; size := 60 |}
           [ {| role := "caption"; size := 10 |} ]).
  - reflexivity.
  - intros earlier Hin. apply list_elem_of_singleton in Hin as ->.
    eexists. split; [reflexivity|]. simpl. lia.
  - right. simpl. lia.
Defined.

(** X26. What [patterns.intent.rule] does at the first usage that the loop
    does not pass.  Without a patterns policy the message says so; a pattern
    outside the allowed set is reported as not allowed, whatever its name;
    for an allowed pattern the permitted intents are read from the design
    intent's overrides, else from the constitution's mapping, else are none:
    a declared intent that is not among them is reported with the list of
    those that are.  When the pattern is allowed, is named like a member of
    [Object.prototype], and the mapping that is read first does not have it
    as a key of its own, the read finds the inherited member and the rule
    throws a [TypeError] instead of reporting. *)
Theorem patterns_rule_says_why manifest constitution intent_doc ruleset :
  let outcome := Taste.patternsIntent_js manifest constitution intent_doc ruleset in
  ∀ before entry after,
    patterns_usage (taste manifest) = before ++ entry :: after →
    Forall (Spec.usagePermitted constitution intent_doc) before →
    (∀ earlier, earlier ∈ before → pattern earlier ∉ Js.Object_prototype_names) →
    match patterns constitution with
    | None =>
        ∃ rule, outcome = Js.Normal rule
                ∧ tr_passed rule = false
                ∧ tr_message rule
                  = "Constitution patterns not provided; cannot authorize usage."
    | Some policy =>
        (pattern entry ∉ patterns_allowed policy →
           ∃ rule, outcome = Js.Normal rule
                   ∧ tr_passed rule = false
                   ∧ tr_message rule
                     = "Pattern '" +:+ pattern entry +:+ "' is not allowed by constitution.")
        ∧ (pattern entry ∈ patterns_allowed policy →
           pattern entry ∉ Js.Object_prototype_names →
           intent entry ∉ Spec.permittedIntents policy intent_doc (pattern entry) →
           ∃ rule, outcome = Js.Normal rule
                   ∧ tr_passed rule = false
                   ∧ tr_message rule
                     = "Pattern '" +:+ pattern entry +:+ "' not permitted for intent '"
                         +:+ intent entry +:+ "'. Allowed: "
                         +:+ Js.join ", "
                               (Spec.permittedIntents policy intent_doc (pattern entry)))
        ∧ (pattern entry ∈ patterns_allowed policy →
           pattern entry ∈ Js.Object_prototype_names →
           (∃ overrides, intent_allowed_patterns intent_doc = Some overrides
                         ∧ overrides !! pattern entry = None)
           ∨ (intent_allowed_patterns intent_doc = None
              ∧ ∃ intents, patterns_intents policy = Some intents
                           ∧ intents !! pattern entry = None) →
           outcome = Js.TypeError)
    end.
Proof.
  cbv zeta. intros before entry after Husage Hbefore Hnames.
  unfold Taste.patternsIntent_js. cbv zeta. rewrite Husage.
  rewrite usageLoop_js_app.
  2: { rewrite usageLoop_js_normal by done. f_equal. by apply usageLoop_none. }
  unfold Taste.allowedPatternsOf, Spec.permittedIntents. simpl.
  destruct (patterns constitution) as [policy|]; [|by eexists]. split; [|split].
  - intros Hpattern.
    assert (Js.Set_.has (Js.Set_.from (patterns_allowed policy)) (pattern entry) = false)
      as -> by (apply not_true_iff_false; by rewrite Set_has_from).
    by eexists.
  - intros Hpattern Hname Hintent. apply Set_has_from in Hpattern. rewrite Hpattern. simpl.
    rewrite !get_own by done.
    destruct (intent_allowed_patterns intent_doc ≫= _) as [override|]; simpl.
    + case_bool_decide; [done | by eexists].
    + destruct (patterns_intents policy ≫= _) as [listed|]; simpl in *.
      * case_bool_decide; [done | by eexists].
      * by eexists.
  - intros Hpattern Hname Hread. apply Set_has_from in Hpattern. rewrite Hpattern. simpl.
    destruct Hread as [(overrides & -> & Hnone) | (-> & intents & -> & Hnone)];
      simpl; rewrite Hnone; by rewrite bool_decide_eq_true_2.
Qed.

Lemma patterns_rule_says_why_witness :
  (∃ rule,
     Taste.patternsIntent_js Fixtures.manifest_three_usages Fixtures.constitution
       Fixtures.design_intent Fixtures.ruleset = Js.Normal rule
     ∧ tr_passed rule = false
     ∧ tr_message rule
       = "Pattern 'modal' not permitted for intent 'alert'. Allowed: confirm")
  ∧ Taste.patternsIntent_js
      (Fixtures.manifest_of
         (Fixtures.taste_of [] 3 [ {| pattern := "modal"; intent := "confirm" |};
                                   {| pattern := "constructor"; intent := "confirm" |} ]))
      Fixtures.constitution_constructor
      {| intent_density := None; intent_allowed_patterns := None |} Fixtures.ruleset
    = Js.TypeError
  ∧ (∃ rule,
       Taste.patternsIntent_js
         (Fixtures.manifest_of
            (Fixtures.taste_of [] 3 [ {| pattern := "toString"; intent := "confirm" |} ]))
         Fixtures.constitution Fixtures.design_intent Fixtures.ruleset = Js.Normal rule
       ∧ tr_passed rule = false
       ∧ tr_message rule = "Pattern 'toString' is not allowed by constitution.").
Proof.
  assert (Forall (Spec.usagePermitted Fixtures.constitution Fixtures.design_intent)
            [ {| pattern := "modal"; intent := "confirm" |} ]) as Hbefore.
  { constructor; [|constructor]. eexists. split; [reflexivity|].
    split; vm_compute; apply list_elem_of_here. }
  assert (∀ earlier, earlier ∈ [ {| pattern := "modal"; intent := "confirm" |} ] →
            pattern earlier ∉ Js.Object_prototype_names) as Hnames.
  { intros earlier Hin%list_elem_of_singleton. subst earlier.
    by apply not_prototype_name. }
  split; [|split].
  - destruct (patterns_rule_says_why Fixtures.manifest_three_usages Fixtures.constitution
                Fixtures.design_intent Fixtures.ruleset
                [ {| pattern := "modal"; intent := "confirm" |} ]
                {| pattern := "modal"; intent := "alert" |}
                [ {| pattern := "drawer"; intent := "confirm" |} ] eq_refl Hbefore Hnames)
      as (_ & Hwhy & _).
    apply Hwhy.
    + apply list_elem_of_here.
    + by apply not_prototype_name.
    + vm_compute. intros Hin. apply list_elem_of_singleton in Hin. discriminate.
  - vm_compute. reflexivity.
  - eexists. split; [vm_compute; reflexivity|]. split; reflexivity.
Defined.
